(** * Polymarket compounder: trading-engine core, embedded and verified

    A shallow embedding of the pure and state-passing parts of
    [polymarket-compounder]:

    - [core/book_analyzer.py]     (module [book_analyzer])
    - [core/position_tracker.py]  (module [position_tracker])
    - [utils/risk_manager.py]     (module [risk_manager])
    - [core/order_manager.py]     (module [order_manager])
    - [strategies/*.py]           (modules [resolution_arb],
                                   [new_market_sniper], [sum_to_one_arb])

    Conventions of the embedding.

    - A Python [float] is an exact rational ([Q]); rounding, infinities
      and NaN are not modelled.  A Python [int] is a [Z].
    - [time.time()] is an explicit argument [now] of every function that
      reads the clock.
    - A method on an object is a function from the object's record to the
      result paired with the updated record.
    - Log calls have no effect on any modelled state and are dropped,
      except in [order_manager], where venue calls are recorded.  *)

From Stdlib Require Import Ascii String.
From Stdlib Require Import QArith Qround Qabs Lqa ZArith Lia Bool List Sorted.
Import ListNotations.
Open Scope Q_scope.

(** ** Python helpers *)

Definition Qlt_bool (x y : Q) : bool := negb (Qle_bool y x).

(** Truthiness of a float: [0.0] is falsy. *)
Definition truthy (x : Q) : bool := negb (Qeq_bool x 0).

(** [o or 0.0] for an [Optional[float]]. *)
Definition or_zero (o : option Q) : Q :=
  match o with
  | Some x => if truthy x then x else 0
  | None => 0
  end.

(** [int(x)]: truncation towards zero. *)
Definition py_int (x : Q) : Z :=
  if Qle_bool 0 x then Qfloor x else Qceiling x.

(** [min(a, b)]: Python returns [b] only when [b < a]. *)
Definition py_min (a b : Q) : Q := if Qlt_bool b a then b else a.

(** [max(a, b)]: Python returns [b] only when [b > a]. *)
Definition py_max (a b : Q) : Q := if Qlt_bool a b then b else a.

(** In-place update of the list element at index [i]; out of range does
    nothing (never reached: indices come from a search of the same list). *)
Fixpoint update_nth {A} (i : nat) (f : A -> A) (l : list A) : list A :=
  match l, i with
  | [], _ => []
  | x :: tl, O => f x :: tl
  | x :: tl, S j => x :: update_nth j f tl
  end.

(** ** config.py *)

Module config.

Record t := {
  DRY_RUN : bool;
  ARB_THRESHOLD : Q;
  SLIPPAGE_BUFFER : Q;
  MIN_ARB_PROFIT_PCT : Q;
  HIGH_PRIORITY_THRESHOLD : Q;
  MAX_TRADE_USD : Q;
  MIN_TRADE_USD : Q;
  MAX_POSITION_PCT : Q;
  MAX_TOTAL_EXPOSURE_PCT : Q;
  MAX_CONSECUTIVE_LOSSES : Z;
  MAX_DAILY_DRAWDOWN_PCT : Q;
  MAX_SINGLE_LOSS_PCT : Q;
  COOLDOWN_MINUTES : Z;
  RECOVERY_POSITION_MULTIPLIER : Q;
  RECOVERY_TRADE_COUNT : Z;
  MAX_STRATEGY_EXPOSURE_PCT : Q;
  ORDER_TIMEOUT_SECONDS : Z;
  MAX_RETRIES : nat;
  ESTIMATED_FEE_RATE : Q
}.

(** The values written in [config.py] ([DRY_RUN] defaults to [True]). *)
Definition default : t := {|
  DRY_RUN := true;
  ARB_THRESHOLD := 985 # 1000;
  SLIPPAGE_BUFFER := 5 # 1000;
  MIN_ARB_PROFIT_PCT := 5 # 1000;
  HIGH_PRIORITY_THRESHOLD := 94 # 100;
  MAX_TRADE_USD := 100;
  MIN_TRADE_USD := 2;
  MAX_POSITION_PCT := 20 # 100;
  MAX_TOTAL_EXPOSURE_PCT := 40 # 100;
  MAX_CONSECUTIVE_LOSSES := 3;
  MAX_DAILY_DRAWDOWN_PCT := 5 # 100;
  MAX_SINGLE_LOSS_PCT := 3 # 100;
  COOLDOWN_MINUTES := 30;
  RECOVERY_POSITION_MULTIPLIER := 1 # 2;
  RECOVERY_TRADE_COUNT := 5;
  MAX_STRATEGY_EXPOSURE_PCT := 30 # 100;
  ORDER_TIMEOUT_SECONDS := 15;
  MAX_RETRIES := 3;
  ESTIMATED_FEE_RATE := 1 # 100
|}.

(** Live mode: the same values with [DRY_RUN=false] in the environment. *)
Definition live : t := {|
  DRY_RUN := false;
  ARB_THRESHOLD := ARB_THRESHOLD default;
  SLIPPAGE_BUFFER := SLIPPAGE_BUFFER default;
  MIN_ARB_PROFIT_PCT := MIN_ARB_PROFIT_PCT default;
  HIGH_PRIORITY_THRESHOLD := HIGH_PRIORITY_THRESHOLD default;
  MAX_TRADE_USD := MAX_TRADE_USD default;
  MIN_TRADE_USD := MIN_TRADE_USD default;
  MAX_POSITION_PCT := MAX_POSITION_PCT default;
  MAX_TOTAL_EXPOSURE_PCT := MAX_TOTAL_EXPOSURE_PCT default;
  MAX_CONSECUTIVE_LOSSES := MAX_CONSECUTIVE_LOSSES default;
  MAX_DAILY_DRAWDOWN_PCT := MAX_DAILY_DRAWDOWN_PCT default;
  MAX_SINGLE_LOSS_PCT := MAX_SINGLE_LOSS_PCT default;
  COOLDOWN_MINUTES := COOLDOWN_MINUTES default;
  RECOVERY_POSITION_MULTIPLIER := RECOVERY_POSITION_MULTIPLIER default;
  RECOVERY_TRADE_COUNT := RECOVERY_TRADE_COUNT default;
  MAX_STRATEGY_EXPOSURE_PCT := MAX_STRATEGY_EXPOSURE_PCT default;
  ORDER_TIMEOUT_SECONDS := ORDER_TIMEOUT_SECONDS default;
  MAX_RETRIES := MAX_RETRIES default;
  ESTIMATED_FEE_RATE := ESTIMATED_FEE_RATE default
|}.

(** The other constants of [config.py] that the modelled code reads. *)
Record rest := {
  ACTIVE_PHASE : Z;
  PHASE_2_BALANCE : Q;
  PHASE_3_BALANCE : Q;
  MIN_DAILY_VOLUME_ARB : Q;
  MIN_RESOLUTION_EDGE : Q;
  PRICE_BUFFER_PCT : Q;
  MAX_RESOLUTION_POSITION_PCT : Q;
  NEW_MARKET_SCAN_INTERVAL : Z;
  NEW_MARKET_AGE_LIMIT : Z;
  MAX_NEW_MARKET_EXPOSURE_PCT : Q;
  MIN_EDGE_DIRECTIONAL : Q;
  MAX_DIRECTIONAL_POSITION_PCT : Q;
  MAX_CONCURRENT_DIRECTIONAL : Z;
  MAX_TOTAL_DIRECTIONAL_PCT : Q;
  DIRECTIONAL_AUTO_DISABLE_WINRATE : Q;
  DIRECTIONAL_MIN_SAMPLE : Z
}.

(** Their values in [config.py] ([ACTIVE_PHASE] defaults to 0). *)
Definition rest_default : rest := {|
  ACTIVE_PHASE := 0;
  PHASE_2_BALANCE := 250;
  PHASE_3_BALANCE := 500;
  MIN_DAILY_VOLUME_ARB := 500;
  MIN_RESOLUTION_EDGE := 3 # 100;
  PRICE_BUFFER_PCT := 5 # 1000;
  MAX_RESOLUTION_POSITION_PCT := 20 # 100;
  NEW_MARKET_SCAN_INTERVAL := 30;
  NEW_MARKET_AGE_LIMIT := 900;
  MAX_NEW_MARKET_EXPOSURE_PCT := 25 # 100;
  MIN_EDGE_DIRECTIONAL := 10 # 100;
  MAX_DIRECTIONAL_POSITION_PCT := 10 # 100;
  MAX_CONCURRENT_DIRECTIONAL := 3;
  MAX_TOTAL_DIRECTIONAL_PCT := 25 # 100;
  DIRECTIONAL_AUTO_DISABLE_WINRATE := 50 # 100;
  DIRECTIONAL_MIN_SAMPLE := 20
|}.

End config.

(** ** core/position_tracker.py *)

Module position_tracker.

Record Position := {
  token_id : string;
  market_id : string;
  market_question : string;
  side : string;
  entry_price : Q;
  size : Q;
  strategy : string;
  opened_at : Q;
  exit_price : option Q;
  closed_at : option Q
}.

Definition is_open (p : Position) : bool :=
  match exit_price p with None => true | Some _ => false end.

Definition cost_basis (p : Position) : Q := entry_price p * size p.

Definition pnl (p : Position) : option Q :=
  match exit_price p with
  | None => None
  | Some x => Some ((x - entry_price p) * size p)
  end.

Definition pnl_pct (p : Position) : option Q :=
  match exit_price p with
  | None => None
  | Some x =>
      if Qeq_bool (entry_price p) 0 then None
      else Some ((x - entry_price p) / entry_price p)
  end.

Record TradeRecord := {
  timestamp : Q;
  tr_strategy : string;
  market_name : string;
  tr_side : string;
  tr_entry_price : Q;
  tr_exit_price : Q;
  size_usd : Q;
  pnl_usd : Q;
  tr_pnl_pct : Q;
  balance_after : Q;
  phase : Z
}.

Record PositionTracker := {
  _positions : list Position;
  _trade_history : list TradeRecord;
  _consecutive_losses : Z;
  _consecutive_wins : Z;
  _max_win_streak : Z;
  _max_loss_streak : Z
}.

(** [PositionTracker.__init__] *)
Definition init : PositionTracker := {|
  _positions := [];
  _trade_history := [];
  _consecutive_losses := 0%Z;
  _consecutive_wins := 0%Z;
  _max_win_streak := 0%Z;
  _max_loss_streak := 0%Z
|}.

Definition open_position (tok mkt question sd : string) (price sz : Q)
    (strat : string) (now : Q) (t : PositionTracker)
    : Position * PositionTracker :=
  let pos := {| token_id := tok; market_id := mkt;
                market_question := question; side := sd;
                entry_price := price; size := sz; strategy := strat;
                opened_at := now; exit_price := None; closed_at := None |} in
  (pos, {| _positions := _positions t ++ [pos];
           _trade_history := _trade_history t;
           _consecutive_losses := _consecutive_losses t;
           _consecutive_wins := _consecutive_wins t;
           _max_win_streak := _max_win_streak t;
           _max_loss_streak := _max_loss_streak t |}).

(** The test of the loop body of [_find_open]. *)
Definition matches_open (tok : string) (p : Position) : bool :=
  String.eqb (token_id p) tok && is_open p.

(** Index of the first element of [reversed(l)] that satisfies [f], as an
    index into [l]: the object the reversed loop returns. *)
Fixpoint find_last (f : Position -> bool) (l : list Position) : option nat :=
  match l with
  | [] => None
  | p :: tl =>
      match find_last f tl with
      | Some i => Some (S i)
      | None => if f p then Some O else None
      end
  end.

(** [_find_open]: a reference into [_positions], or [None]. *)
Definition _find_open (tok : string) (t : PositionTracker) : option nat :=
  find_last (matches_open tok) (_positions t).

(** [pos.exit_price = exit_price; pos.closed_at = time.time()] *)
Definition mark_closed (exit now : Q) (p : Position) : Position := {|
  token_id := token_id p; market_id := market_id p;
  market_question := market_question p; side := side p;
  entry_price := entry_price p; size := size p; strategy := strategy p;
  opened_at := opened_at p;
  exit_price := Some exit; closed_at := Some now
|}.

Definition close_position (tok : string) (exit bal_after : Q) (ph : Z)
    (now : Q) (t : PositionTracker) : option TradeRecord * PositionTracker :=
  match _find_open tok t with
  | None => (None, t)
  | Some i =>
      match nth_error (_positions t) i with
      | None => (None, t)
      | Some pos0 =>
          let pos := mark_closed exit now pos0 in
          let pnl_v := or_zero (pnl pos) in
          let pnl_pct_v := or_zero (pnl_pct pos) in
          let win := Qle_bool 0 pnl_v in
          let wins := if win then (_consecutive_wins t + 1)%Z else 0%Z in
          let losses := if win then 0%Z else (_consecutive_losses t + 1)%Z in
          let record := {|
            timestamp := now;
            tr_strategy := strategy pos;
            market_name := market_question pos;
            tr_side := side pos;
            tr_entry_price := entry_price pos;
            tr_exit_price := exit;
            size_usd := cost_basis pos;
            pnl_usd := pnl_v;
            tr_pnl_pct := pnl_pct_v;
            balance_after := bal_after;
            phase := ph |} in
          (Some record,
           {| _positions := update_nth i (mark_closed exit now) (_positions t);
              _trade_history := _trade_history t ++ [record];
              _consecutive_losses := losses;
              _consecutive_wins := wins;
              _max_win_streak :=
                if win then Z.max (_max_win_streak t) wins
                else _max_win_streak t;
              _max_loss_streak :=
                if win then _max_loss_streak t
                else Z.max (_max_loss_streak t) losses |})
      end
  end.

(** Queries. [sum] starts from the integer [0]. *)
Definition open_positions (t : PositionTracker) : list Position :=
  filter is_open (_positions t).

Definition total_exposure (t : PositionTracker) : Q :=
  fold_left Qplus (map cost_basis (filter is_open (_positions t))) 0.

Definition strategy_exposure (strat : string) (t : PositionTracker) : Q :=
  fold_left Qplus
    (map cost_basis
       (filter (fun p => is_open p && String.eqb (strategy p) strat)
          (_positions t))) 0.

Definition strategy_position_count (strat : string) (t : PositionTracker)
    : nat :=
  length (filter (fun p => is_open p && String.eqb (strategy p) strat)
            (_positions t)).

Definition consecutive_losses (t : PositionTracker) : Z :=
  _consecutive_losses t.

Definition consecutive_wins (t : PositionTracker) : Z := _consecutive_wins t.

Definition trade_history (t : PositionTracker) : list TradeRecord :=
  _trade_history t.

(** *** Histories of ledger operations *)

Inductive op :=
| Open (tok mkt question sd : string) (price sz : Q) (strat : string) (now : Q)
| Close (tok : string) (exit bal_after : Q) (ph : Z) (now : Q).

Definition step (t : PositionTracker) (o : op) : PositionTracker :=
  match o with
  | Open tok mkt q sd price sz strat now =>
      snd (open_position tok mkt q sd price sz strat now t)
  | Close tok exit bal ph now => snd (close_position tok exit bal ph now t)
  end.

Definition run (ops : list op) : PositionTracker := fold_left step ops init.

(** Length of the longest suffix of [l] whose records all satisfy [f]. *)
Fixpoint leading_run {A} (f : A -> bool) (l : list A) : nat :=
  match l with
  | [] => O
  | x :: tl => if f x then S (leading_run f tl) else O
  end.

Definition trailing_run {A} (f : A -> bool) (l : list A) : nat :=
  leading_run f (rev l).

Definition is_loss (r : TradeRecord) : bool := Qlt_bool (pnl_usd r) 0.
Definition is_win (r : TradeRecord) : bool := Qle_bool 0 (pnl_usd r).

(** The streak counters describe the tail of the trade history. *)
Definition streak_inv (t : PositionTracker) : Prop :=
  consecutive_losses t
    = Z.of_nat (trailing_run is_loss (trade_history t))
  /\ consecutive_wins t
    = Z.of_nat (trailing_run is_win (trade_history t))
  /\ (consecutive_wins t <= _max_win_streak t)%Z
  /\ (consecutive_losses t <= _max_loss_streak t)%Z.

Definition strategy_trade_history (strat : string) (t : PositionTracker)
    : list TradeRecord :=
  filter (fun r => String.eqb (tr_strategy r) strat) (_trade_history t).

(** [wins / len(trades)], or [None] without trades. *)
Definition strategy_win_rate (strat : string) (t : PositionTracker)
    : option Q :=
  match strategy_trade_history strat t with
  | [] => None
  | trades =>
      Some (inject_Z (Z.of_nat (length (filter is_win trades)))
            / inject_Z (Z.of_nat (length trades)))
  end.

(** The positions that have been closed. *)
Definition closed_positions (t : PositionTracker) : list Position :=
  filter (fun p => negb (is_open p)) (_positions t).

(** Two states of one position: what was fixed when it was opened. *)
Definition same_entry (p p' : Position) : Prop :=
  token_id p' = token_id p /\ market_id p' = market_id p
  /\ side p' = side p /\ entry_price p' = entry_price p
  /\ size p' = size p /\ strategy p' = strategy p
  /\ opened_at p' = opened_at p.

End position_tracker.

(** ** core/book_analyzer.py *)

Module book_analyzer.

(** A price level [{"price": ..., "size": ...}], after [float(...)]. *)
Record Level := { price : Q; size : Q }.

Record FillEstimate := {
  average_price : Q;
  total_filled : Q;
  total_cost : Q;
  levels_consumed : Z;
  fully_fillable : bool
}.

(** The [for level in asks] loop, on its three local variables. *)
Fixpoint walk_loop (levels_in : list Level) (remaining cost : Q) (levels : Z)
    : Q * Q * Z :=
  match levels_in with
  | [] => (remaining, cost, levels)
  | level :: rest =>
      if Qle_bool remaining 0 then (remaining, cost, levels)
      else
        let fill_qty := py_min remaining (size level) in
        walk_loop rest (remaining - fill_qty)
          (cost + fill_qty * price level) (levels + 1)%Z
  end.

Definition walk_book_asks (asks : list Level) (target_size : Q)
    : FillEstimate :=
  let '(remaining, cost, levels) := walk_loop asks target_size 0 0%Z in
  let filled := target_size - remaining in
  {| average_price := if Qlt_bool 0 filled then cost / filled else 0;
     total_filled := filled;
     total_cost := cost;
     levels_consumed := levels;
     fully_fillable := Qle_bool remaining 0 |}.



Definition best_ask_price (asks : list Level) : option Q :=
  match asks with
  | [] => None
  | level :: _ => Some (price level)
  end.


Definition Qsum (l : list Q) : Q := fold_right Qplus 0 l.











End book_analyzer.

(** ** utils/risk_manager.py *)

Module risk_manager.

Import position_tracker.

Inductive RiskState := NORMAL | COOLDOWN | RECOVERY.

Definition RiskState_eqb (a b : RiskState) : bool :=
  match a, b with
  | NORMAL, NORMAL | COOLDOWN, COOLDOWN | RECOVERY, RECOVERY => true
  | _, _ => false
  end.

Record TradeRequest := {
  strategy : string;
  token_id : string;
  side : string;
  price : Q;
  size : Q;
  max_loss_usd : Q
}.

Definition cost_usd (t : TradeRequest) : Q := price t * size t.

(** The second component of the result of [check_trade].  Each rejection
    message is an f-string over the values carried here; [Approved] is the
    empty string. *)
Inductive Reason :=
| Approved
| InCooldown (remaining : Z)
| DailyDrawdown (drawdown : Q)
| ConsecutiveLosses (losses : Z)
| SingleLossTooLarge (loss_pct : Q)
| PositionTooLarge (position_pct : Q)
| TotalExposure (new_total : Q)
| StrategyExposure (strat : string) (new_strat : Q)
| TradeTooSmall (cost : Q)
| TradeTooLarge (cost : Q).

(** The tracker is a shared object the manager only reads; it is an
    argument of the one method that reads it. *)
Record RiskManager := {
  _state : RiskState;
  _cooldown_until : Q;
  _recovery_trades_remaining : Z;
  _day_start_balance : Q;
  _day_start_time : Q;
  _last_known_balance : Q
}.

(** [RiskManager.__init__] *)
Definition init (now : Q) : RiskManager := {|
  _state := NORMAL;
  _cooldown_until := 0;
  _recovery_trades_remaining := 0%Z;
  _day_start_balance := 0;
  _day_start_time := now;
  _last_known_balance := 0
|}.

Definition with_last_known_balance (b : Q) (rm : RiskManager) := {|
  _state := _state rm;
  _cooldown_until := _cooldown_until rm;
  _recovery_trades_remaining := _recovery_trades_remaining rm;
  _day_start_balance := _day_start_balance rm;
  _day_start_time := _day_start_time rm;
  _last_known_balance := b
|}.

Definition with_state (s : RiskState) (rm : RiskManager) := {|
  _state := s;
  _cooldown_until := _cooldown_until rm;
  _recovery_trades_remaining := _recovery_trades_remaining rm;
  _day_start_balance := _day_start_balance rm;
  _day_start_time := _day_start_time rm;
  _last_known_balance := _last_known_balance rm
|}.

Definition with_recovery_trades_remaining (n : Z) (rm : RiskManager) := {|
  _state := _state rm;
  _cooldown_until := _cooldown_until rm;
  _recovery_trades_remaining := n;
  _day_start_balance := _day_start_balance rm;
  _day_start_time := _day_start_time rm;
  _last_known_balance := _last_known_balance rm
|}.

Section WithConfig.

Variable cfg : config.t.

Definition set_day_start_balance (balance now : Q) (rm : RiskManager) := {|
  _state := _state rm;
  _cooldown_until := _cooldown_until rm;
  _recovery_trades_remaining := _recovery_trades_remaining rm;
  _day_start_balance := balance;
  _day_start_time := now;
  _last_known_balance := _last_known_balance rm
|}.

Definition cooldown_minutes (extended : bool) : Z :=
  (config.COOLDOWN_MINUTES cfg * (if extended then 4 else 1))%Z.

Definition _enter_cooldown (extended : bool) (now : Q) (rm : RiskManager) := {|
  _state := COOLDOWN;
  _cooldown_until := now + inject_Z (cooldown_minutes extended * 60);
  _recovery_trades_remaining := _recovery_trades_remaining rm;
  _day_start_balance := _day_start_balance rm;
  _day_start_time := _day_start_time rm;
  _last_known_balance := _last_known_balance rm
|}.

Definition _enter_recovery (rm : RiskManager) := {|
  _state := RECOVERY;
  _cooldown_until := _cooldown_until rm;
  _recovery_trades_remaining := config.RECOVERY_TRADE_COUNT cfg;
  _day_start_balance := _day_start_balance rm;
  _day_start_time := _day_start_time rm;
  _last_known_balance := _last_known_balance rm
|}.

(** [check_trade] from the [# -- Single-trade max loss --] block to the
    end: the gates that read no manager state and change none. *)
Definition size_gates (tracker : PositionTracker) (trade : TradeRequest)
    (current_balance : Q) : bool * Reason :=
  let loss_pct := max_loss_usd trade / current_balance in
  if Qlt_bool 0 current_balance
     && Qlt_bool (config.MAX_SINGLE_LOSS_PCT cfg) loss_pct
  then (false, SingleLossTooLarge loss_pct) else
  let position_pct := cost_usd trade / current_balance in
  if Qlt_bool 0 current_balance
     && Qlt_bool (config.MAX_POSITION_PCT cfg) position_pct
  then (false, PositionTooLarge position_pct) else
  let new_total :=
    (total_exposure tracker + cost_usd trade) / current_balance in
  if Qlt_bool 0 current_balance
     && Qlt_bool (config.MAX_TOTAL_EXPOSURE_PCT cfg) new_total
  then (false, TotalExposure new_total) else
  let new_strat :=
    (strategy_exposure (strategy trade) tracker + cost_usd trade)
    / current_balance in
  if Qlt_bool 0 current_balance
     && Qlt_bool (config.MAX_STRATEGY_EXPOSURE_PCT cfg) new_strat
  then (false, StrategyExposure (strategy trade) new_strat) else
  if Qlt_bool (cost_usd trade) (config.MIN_TRADE_USD cfg)
  then (false, TradeTooSmall (cost_usd trade)) else
  if Qlt_bool (config.MAX_TRADE_USD cfg) (cost_usd trade)
  then (false, TradeTooLarge (cost_usd trade)) else
  (true, Approved).

(** [check_trade] from the [# -- Daily drawdown --] block to the end. *)
Definition after_cooldown_check (tracker : PositionTracker)
    (trade : TradeRequest) (current_balance now : Q) (rm : RiskManager)
    : (bool * Reason) * RiskManager :=
  let drawdown :=
    (_day_start_balance rm - current_balance) / _day_start_balance rm in
  if Qlt_bool 0 (_day_start_balance rm)
     && Qle_bool (config.MAX_DAILY_DRAWDOWN_PCT cfg) drawdown
  then ((false, DailyDrawdown drawdown), _enter_cooldown false now rm) else
  if (config.MAX_CONSECUTIVE_LOSSES cfg <=? consecutive_losses tracker)%Z
     && negb (RiskState_eqb (_state rm) RECOVERY)
  then ((false, ConsecutiveLosses (consecutive_losses tracker)),
        _enter_cooldown false now rm) else
  (size_gates tracker trade current_balance, rm).

Definition check_trade (tracker : PositionTracker) (trade : TradeRequest)
    (current_balance now : Q) (rm0 : RiskManager)
    : (bool * Reason) * RiskManager :=
  let rm := with_last_known_balance current_balance rm0 in
  match _state rm with
  | COOLDOWN =>
      if Qlt_bool now (_cooldown_until rm)
      then ((false, InCooldown (py_int (_cooldown_until rm - now))), rm)
      else after_cooldown_check tracker trade current_balance now
             (_enter_recovery rm)
  | _ => after_cooldown_check tracker trade current_balance now rm
  end.

Definition get_position_multiplier (rm : RiskManager) : Q :=
  match _state rm with
  | RECOVERY => config.RECOVERY_POSITION_MULTIPLIER cfg
  | _ => 1
  end.

Definition record_trade_completed (is_win : bool) (now : Q)
    (rm0 : RiskManager) : RiskManager :=
  match _state rm0 with
  | RECOVERY =>
      let rm :=
        with_recovery_trades_remaining
          (_recovery_trades_remaining rm0 - 1)%Z rm0 in
      if negb is_win then _enter_cooldown true now rm
      else if (_recovery_trades_remaining rm <=? 0)%Z
           then with_state NORMAL rm
           else rm
  | _ => rm0
  end.

Definition state (rm : RiskManager) : RiskState := _state rm.

Definition is_trading_allowed (now : Q) (rm : RiskManager) : bool :=
  match _state rm with
  | COOLDOWN => Qle_bool (_cooldown_until rm) now
  | _ => true
  end.

(** *** Sequences of calls *)

(** One [check_trade] call: the ledger as it is at the call, the request,
    the balance and the clock. *)
Record Check := {
  ck_tracker : PositionTracker;
  ck_trade : TradeRequest;
  ck_balance : Q;
  ck_now : Q
}.

Definition do_check (c : Check) (rm : RiskManager) :=
  check_trade (ck_tracker c) (ck_trade c) (ck_balance c) (ck_now c) rm.

Fixpoint check_trades (cs : list Check) (rm : RiskManager)
    : list (bool * Reason) * RiskManager :=
  match cs with
  | [] => ([], rm)
  | c :: rest =>
      let '(r, rm1) := do_check c rm in
      let '(rs, rm2) := check_trades rest rm1 in
      (r :: rs, rm2)
  end.

(** The calls of the public API that are not [check_trade]. *)
Inductive other_call :=
| SetDayStartBalance (balance now : Q)
| RecordTradeCompleted (is_win : bool) (now : Q)
| GetPositionMultiplier
| IsTradingAllowed (now : Q)
| ReadState.

Definition do_other (c : other_call) (rm : RiskManager) : RiskManager :=
  match c with
  | SetDayStartBalance b now => set_day_start_balance b now rm
  | RecordTradeCompleted w now => record_trade_completed w now rm
  | GetPositionMultiplier | IsTradingAllowed _ | ReadState => rm
  end.

(** [n] notifications [record_trade_completed(is_win=True)] in a row. *)
Fixpoint wins (n : nat) (now : Q) (rm : RiskManager) : RiskManager :=
  match n with
  | O => rm
  | S k => wins k now (record_trade_completed true now rm)
  end.

(** *** The gate list as the specification words it *)

(** The state the gates see: an expired cooldown counts as recovery. *)
Definition gate_state (now : Q) (rm : RiskManager) : RiskState :=
  match _state rm with
  | COOLDOWN => if Qlt_bool now (_cooldown_until rm) then COOLDOWN
                else RECOVERY
  | s => s
  end.

Definition daily_drawdown (current_balance : Q) (rm : RiskManager) : Q :=
  (_day_start_balance rm - current_balance) / _day_start_balance rm.

(** Whether the daily-drawdown gate fires. *)
Definition drawdown_hit (current_balance : Q) (rm : RiskManager) : bool :=
  Qlt_bool 0 (_day_start_balance rm)
  && Qle_bool (config.MAX_DAILY_DRAWDOWN_PCT cfg)
       (daily_drawdown current_balance rm).

(** The nine gates in the order of the specification, each a trigger and
    the reason it reports.  The four balance-relative gates compare
    against [limit * balance]; [guard] is conjoined to their triggers. *)
Definition gate_list (guard : bool) (tracker : PositionTracker)
    (trade : TradeRequest) (current_balance now : Q) (rm : RiskManager)
    : list (bool * Reason) :=
  let cost := cost_usd trade in
  [ (RiskState_eqb (gate_state now rm) COOLDOWN,
     InCooldown (py_int (_cooldown_until rm - now)));
    (drawdown_hit current_balance rm,
     DailyDrawdown (daily_drawdown current_balance rm));
    ((config.MAX_CONSECUTIVE_LOSSES cfg <=? consecutive_losses tracker)%Z
     && negb (RiskState_eqb (gate_state now rm) RECOVERY),
     ConsecutiveLosses (consecutive_losses tracker));
    (guard
     && Qlt_bool (config.MAX_SINGLE_LOSS_PCT cfg * current_balance)
          (max_loss_usd trade),
     SingleLossTooLarge (max_loss_usd trade / current_balance));
    (guard
     && Qlt_bool (config.MAX_POSITION_PCT cfg * current_balance) cost,
     PositionTooLarge (cost / current_balance));
    (guard
     && Qlt_bool (config.MAX_TOTAL_EXPOSURE_PCT cfg * current_balance)
          (total_exposure tracker + cost),
     TotalExposure ((total_exposure tracker + cost) / current_balance));
    (guard
     && Qlt_bool (config.MAX_STRATEGY_EXPOSURE_PCT cfg * current_balance)
          (strategy_exposure (strategy trade) tracker + cost),
     StrategyExposure (strategy trade)
       ((strategy_exposure (strategy trade) tracker + cost)
        / current_balance));
    (Qlt_bool cost (config.MIN_TRADE_USD cfg), TradeTooSmall cost);
    (Qlt_bool (config.MAX_TRADE_USD cfg) cost, TradeTooLarge cost) ].

(** [(false, reason)] of the first gate that triggers, else
    [(true, Approved)]. *)
Fixpoint first_triggered (gates : list (bool * Reason)) : bool * Reason :=
  match gates with
  | [] => (true, Approved)
  | (true, r) :: _ => (false, r)
  | (false, _) :: rest => first_triggered rest
  end.


(** The same list with the four balance-relative gates in force only
    when [balance > 0]. *)
Definition guarded_check_trade (tracker : PositionTracker)
    (trade : TradeRequest) (current_balance now : Q) (rm : RiskManager)
    : bool * Reason :=
  first_triggered
    (gate_list (Qlt_bool 0 current_balance) tracker trade current_balance
       now rm).

End WithConfig.

(** *** Any sequence of calls of the public API *)

Inductive call :=
| CheckTrade (c : Check)
| Other (o : other_call).

Definition do_call (cfg : config.t) (c : call) (rm : RiskManager)
    : RiskManager :=
  match c with
  | CheckTrade k => snd (do_check cfg k rm)
  | Other o => do_other cfg o rm
  end.




End risk_manager.

(** ** strategies/resolution_arb.py *)

Module resolution_arb.

(** [a or b] on two [Optional[float]]: [a] when it is truthy, else [b]. *)
Definition py_or (a b : option Q) : option Q :=
  match a with
  | Some x => if truthy x then Some x else b
  | None => b
  end.

(** [_get_btc_price_confirmed], on the results of [_fetch_coingecko] and
    [_fetch_binance] ([None]: the endpoint did not answer). *)
Definition _get_btc_price_confirmed (cg_price bn_price : option Q)
    : option Q :=
  match cg_price, bn_price with
  | Some cg, Some bn =>
      if truthy cg && truthy bn then
        let diff_pct := Qabs (cg - bn) / py_max cg bn in
        if Qlt_bool diff_pct (5 # 1000) then Some ((cg + bn) / 2)
        else None
      else py_or cg_price bn_price
  | _, _ => py_or cg_price bn_price
  end.

(** The head of [_evaluate_market] after parsing: the strategy goes on
    with a market exactly when a price came back. *)
Definition acts_on_price (cg_price bn_price : option Q) : bool :=
  match _get_btc_price_confirmed cg_price bn_price with
  | Some _ => true
  | None => false
  end.

End resolution_arb.

(** ** strategies/new_market_sniper.py *)

Module new_market_sniper.

Inductive Priority := HIGH | STANDARD.

(** The [# Classify opportunity] block of [_evaluate_market]: [None] is
    the early [return]. *)
Definition classify (cfg : config.t) (naive_sum : Q) : option Priority :=
  if Qlt_bool (97 # 100) naive_sum then None
  else if Qle_bool naive_sum (config.HIGH_PRIORITY_THRESHOLD cfg)
       then Some HIGH
       else Some STANDARD.

(** The quick screen on both books, up to the classification. *)
Definition screen (cfg : config.t)
    (yes_asks no_asks : list book_analyzer.Level) : option Priority :=
  match book_analyzer.best_ask_price yes_asks,
        book_analyzer.best_ask_price no_asks with
  | Some yes_best, Some no_best => classify cfg (yes_best + no_best)
  | _, _ => None
  end.

End new_market_sniper.

(** ** core/order_manager.py *)

Module order_manager.

(** [OrderTicket.status], one constructor per string the code assigns. *)
Inductive Status := pending | submitted | filled | cancelled | failed.

Definition Status_eqb (a b : Status) : bool :=
  match a, b with
  | pending, pending | submitted, submitted | filled, filled
  | cancelled, cancelled | failed, failed => true
  | _, _ => false
  end.

Record OrderTicket := {
  token_id : string;
  side : string;
  price : Q;
  size : Q;
  order_id : option string;
  status : Status;
  submitted_at : Q
}.

Definition with_status (s : Status) (t : OrderTicket) : OrderTicket := {|
  token_id := token_id t; side := side t; price := price t; size := size t;
  order_id := order_id t; status := s; submitted_at := submitted_at t
|}.

Record PairedArbOrder := { yes_leg : OrderTicket; no_leg : OrderTicket }.

(** The venue as [OrderManager] sees it.  [None] and [false] stand for a
    raised exception.
    - [create_limit_order tok side price size k]: the answer to the [k]-th
      attempt at this order, the id read from the response;
    - [get_open_orders n]: the ids in the answer to the [n]-th query;
    - [cancel_order id]. *)
Record Client := {
  create_limit_order : string -> string -> Q -> Q -> nat -> option string;
  get_open_orders : nat -> option (list string);
  cancel_order : string -> bool
}.

(** What the manager did at the venue and the warning of the recovery
    path, in order. *)
Inductive Event :=
| OrderSubmitted (tok sd : string) (p sz : Q) (id : string)
| OrderAttemptFailed (tok sd : string) (p sz : Q) (attempt : nat)
| CancelSent (id : string) (ok : bool)
| RecoverySellNotFilled (tok : string).

Record World := {
  open_queries : nat;
  events : list Event
}.

Definition world0 : World := {| open_queries := O; events := [] |}.

Definition emit (e : Event) (w : World) : World :=
  {| open_queries := open_queries w; events := events w ++ [e] |}.

Section WithClient.

Variable cfg : config.t.
Variable client : Client.

(** The [for attempt in range(...)] loop of [place_limit]; [left] counts
    the attempts still to make. *)
Fixpoint place_attempts (left attempt : nat) (tok sd : string) (p sz : Q)
    (now : Q) (w : World) : OrderTicket * World :=
  match left with
  | O =>
      ({| token_id := tok; side := sd; price := p; size := sz;
          order_id := None; status := failed; submitted_at := 0 |}, w)
  | S left' =>
      match create_limit_order client tok sd p sz attempt with
      | Some id =>
          ({| token_id := tok; side := sd; price := p; size := sz;
              order_id := Some id; status := submitted;
              submitted_at := now |},
           emit (OrderSubmitted tok sd p sz id) w)
      | None =>
          place_attempts left' (S attempt) tok sd p sz now
            (emit (OrderAttemptFailed tok sd p sz attempt) w)
      end
  end.

Definition place_limit (tok sd : string) (p sz : Q) (now : Q) (w : World)
    : OrderTicket * World :=
  place_attempts (config.MAX_RETRIES cfg) 1 tok sd p sz now w.

(** [not ticket.order_id or ticket.order_id == "dry-run-placeholder"] *)
Definition no_real_id (t : OrderTicket) : bool :=
  match order_id t with
  | None => true
  | Some id => String.eqb id "" || String.eqb id "dry-run-placeholder"
  end.

Definition _check_filled (t : OrderTicket) (w : World) : bool * World :=
  if no_real_id t then (true, w)
  else
    let w' := {| open_queries := S (open_queries w); events := events w |} in
    match get_open_orders client (open_queries w), order_id t with
    | Some ids, Some id => (negb (existsb (String.eqb id) ids), w')
    | _, _ => (false, w')
    end.

Definition _cancel_if_submitted (t : OrderTicket) (w : World)
    : OrderTicket * World :=
  match status t, order_id t with
  | submitted, Some id =>
      if String.eqb id "" then (t, w)
      else if cancel_order client id
           then (with_status cancelled t, emit (CancelSent id true) w)
           else (t, emit (CancelSent id false) w)
  | _, _ => (t, w)
  end.

Definition _recover_filled_leg (t : OrderTicket) (now : Q) (w : World)
    : World :=
  let '(sell_ticket, w1) :=
    place_limit (token_id t) "SELL" (price t) (size t) now w in
  match status sell_ticket with
  | submitted =>
      let '(is_filled, w2) := _check_filled sell_ticket w1 in
      if is_filled then w2
      else emit (RecoverySellNotFilled (token_id t)) w2
  | _ => w1
  end.

(** The code after the [while] loop of [_monitor_arb_fills]. *)
Definition on_timeout (yes_filled no_filled : bool) (pair : PairedArbOrder)
    (now : Q) (w : World) : PairedArbOrder * World :=
  if yes_filled && negb no_filled then
    let '(no1, w1) := _cancel_if_submitted (no_leg pair) w in
    let yes1 := with_status filled (yes_leg pair) in
    ({| yes_leg := yes1; no_leg := with_status cancelled no1 |},
     _recover_filled_leg yes1 now w1)
  else if no_filled && negb yes_filled then
    let '(yes1, w1) := _cancel_if_submitted (yes_leg pair) w in
    let no1 := with_status filled (no_leg pair) in
    ({| yes_leg := with_status cancelled yes1; no_leg := no1 |},
     _recover_filled_leg no1 now w1)
  else
    let '(yes1, w1) := _cancel_if_submitted (yes_leg pair) w in
    let '(no1, w2) := _cancel_if_submitted (no_leg pair) w1 in
    ({| yes_leg := with_status cancelled yes1;
        no_leg := with_status cancelled no1 |}, w2).

(** The [while time.time() < deadline] loop; [polls] is the number of
    times the loop condition holds before the deadline passes. *)
Fixpoint monitor_loop (polls : nat) (yes_filled no_filled : bool)
    (pair : PairedArbOrder) (now : Q) (w : World) : PairedArbOrder * World :=
  match polls with
  | O => on_timeout yes_filled no_filled pair now w
  | S polls' =>
      let '(yes_filled1, w1) :=
        if yes_filled then (true, w) else _check_filled (yes_leg pair) w in
      let '(no_filled1, w2) :=
        if no_filled then (true, w1) else _check_filled (no_leg pair) w1 in
      if yes_filled1 && no_filled1 then
        ({| yes_leg := with_status filled (yes_leg pair);
            no_leg := with_status filled (no_leg pair) |}, w2)
      else monitor_loop polls' yes_filled1 no_filled1 pair now w2
  end.

Definition _monitor_arb_fills (polls : nat) (pair : PairedArbOrder)
    (now : Q) (w : World) : PairedArbOrder * World :=
  monitor_loop polls false false pair now w.

(** [asyncio.gather] of the two [place_limit] calls: each runs to its
    end without yielding on success, so YES is submitted first. *)
Definition place_arb_pair (polls : nat) (yes_token_id no_token_id : string)
    (yes_price no_price sz : Q) (now : Q) (w : World)
    : PairedArbOrder * World :=
  let '(yes0, w1) := place_limit yes_token_id "BUY" yes_price sz now w in
  let '(no0, w2) := place_limit no_token_id "BUY" no_price sz now w1 in
  if Status_eqb (status yes0) failed || Status_eqb (status no0) failed then
    let '(yes1, w3) := _cancel_if_submitted yes0 w2 in
    let '(no1, w4) := _cancel_if_submitted no0 w3 in
    ({| yes_leg := yes1; no_leg := no1 |}, w4)
  else if config.DRY_RUN cfg then
    ({| yes_leg := with_status filled yes0;
        no_leg := with_status filled no0 |}, w2)
  else _monitor_arb_fills polls {| yes_leg := yes0; no_leg := no0 |} now w2.

End WithClient.

(** A ticket for the order [tok sd p sz]. *)
Definition ticket_for (tok sd : string) (p sz : Q) (t : OrderTicket) : Prop :=
  token_id t = tok /\ side t = sd /\ price t = p /\ size t = sz.

(** The failed attempts [attempt, attempt + 1, ...] of one order. *)
Fixpoint failed_attempts (n attempt : nat) (tok sd : string) (p sz : Q)
    : list Event :=
  match n with
  | O => []
  | S n' =>
      OrderAttemptFailed tok sd p sz attempt
      :: failed_attempts n' (S attempt) tok sd p sz
  end.

(** The two statuses of a pair. *)
Definition statuses (pair : PairedArbOrder) : Status * Status :=
  (status (yes_leg pair), status (no_leg pair)).

End order_manager.

(** ** strategies/sum_to_one_arb.py *)

Module sum_to_one_arb.

Import position_tracker.

Definition STRATEGY_NAME : string := "sum_to_one_arb".

(** The two outcome tokens of a market and what the strategy copies from
    it into a position. *)
Record MarketInfo := {
  condition_id : string;
  question : string;
  yes_token_id : string;
  no_token_id : string
}.

(** The state the tail of [_evaluate_market] works on: the ledger, the
    risk manager and the journal of [PnLTracker.record_trade]. *)
Record Engine := {
  tracker : PositionTracker;
  risk : risk_manager.RiskManager;
  journal : list TradeRecord
}.

Section WithConfig.

Variable cfg : config.t.

(** [_evaluate_market] from [# Track positions] to the end.
    [yes_price] and [no_price] are [yes_fill.average_price] and
    [no_fill.average_price]. *)
Definition track_pair (market : MarketInfo) (pair : order_manager.PairedArbOrder)
    (yes_price no_price estimated_shares balance total_profit now : Q)
    (e : Engine) : Engine :=
  let yes_ok :=
    order_manager.Status_eqb
      (order_manager.status (order_manager.yes_leg pair))
      order_manager.filled in
  let no_ok :=
    order_manager.Status_eqb
      (order_manager.status (order_manager.no_leg pair))
      order_manager.filled in
  let t1 :=
    if yes_ok then
      snd (open_position (yes_token_id market) (condition_id market)
             (question market) "YES" yes_price estimated_shares
             STRATEGY_NAME now (tracker e))
    else tracker e in
  let t2 :=
    if no_ok then
      snd (open_position (no_token_id market) (condition_id market)
             (question market) "NO" no_price estimated_shares
             STRATEGY_NAME now t1)
    else t1 in
  if yes_ok && no_ok then
    let new_balance := balance + total_profit in
    let '(yes_record, t3) :=
      close_position (yes_token_id market) 1 new_balance 0%Z now t2 in
    let '(no_record, t4) :=
      close_position (no_token_id market) 0 new_balance 0%Z now t3 in
    match yes_record with
    | Some r =>
        {| tracker := t4;
           risk := risk_manager.record_trade_completed cfg true now (risk e);
           journal := journal e ++ [r] |}
    | None => {| tracker := t4; risk := risk e; journal := journal e |}
    end
  else {| tracker := t2; risk := risk e; journal := journal e |}.

(** [_evaluate_market] from [# Execute paired order] to the end. *)
Definition execute_pair (client : order_manager.Client) (polls : nat)
    (market : MarketInfo)
    (yes_price no_price estimated_shares balance total_profit now : Q)
    (w : order_manager.World) (e : Engine)
    : order_manager.PairedArbOrder * order_manager.World * Engine :=
  let '(placed, w') :=
    order_manager.place_arb_pair cfg client polls
      (yes_token_id market) (no_token_id market)
      yes_price no_price estimated_shares now w in
  (placed, w',
   track_pair market placed yes_price no_price estimated_shares balance
     total_profit now e).

End WithConfig.

(** Open positions of the ledger that hold one of the market's tokens. *)
Definition residual (market : MarketInfo) (t : PositionTracker)
    : list Position :=
  filter (fun p => String.eqb (token_id p) (yes_token_id market)
                   || String.eqb (token_id p) (no_token_id market))
         (open_positions t).

End sum_to_one_arb.

(** ** strategies/directional_engine.py *)

Module directional_engine.

Import position_tracker.

Definition STRATEGY_NAME : string := "directional_engine".

Section WithConfig.

Variable cfg : config.t.
Variable rest : config.rest.

(** [_check_auto_disable], as the new value of [self._disabled]. *)
Definition _check_auto_disable (tracker : PositionTracker) (disabled : bool)
    : bool :=
  let history := strategy_trade_history STRATEGY_NAME tracker in
  if (Z.of_nat (length history) <? config.DIRECTIONAL_MIN_SAMPLE rest)%Z
  then disabled
  else
    match strategy_win_rate STRATEGY_NAME tracker with
    | Some win_rate =>
        if Qlt_bool win_rate (config.DIRECTIONAL_AUTO_DISABLE_WINRATE rest)
        then true else disabled
    | None => disabled
    end.

(** The head of [scan_and_execute], up to the market fetch: the new
    value of [self._disabled] and whether the scan goes on. *)
Definition scan_head (tracker : PositionTracker) (disabled : bool)
    : bool * bool :=
  if disabled then (disabled, false)
  else
    let disabled' := _check_auto_disable tracker disabled in
    let open_count := Z.of_nat (strategy_position_count STRATEGY_NAME tracker) in
    if (config.MAX_CONCURRENT_DIRECTIONAL rest <=? open_count)%Z
    then (disabled', false)
    else (disabled', true).

(** The sizing block of [_evaluate_market], from
    [# Simplified Kelly sizing] to [size_usd = min(...)]: the cash size
    of the trade, or [None] where the method returns [False]. *)
Definition size_trade (edge buy_price balance multiplier dir_exposure : Q)
    : option Q :=
  let odds := if Qlt_bool 0 buy_price then 1 / buy_price - 1 else 0 in
  let kelly_fraction := if Qlt_bool 0 odds then edge / odds else 0 in
  let size_pct :=
    py_min (kelly_fraction * (1 # 2))
      (config.MAX_DIRECTIONAL_POSITION_PCT rest) in
  let size_usd := balance * size_pct * multiplier in
  if Qlt_bool 0 balance
     && Qlt_bool (config.MAX_TOTAL_DIRECTIONAL_PCT rest)
          ((dir_exposure + size_usd) / balance)
  then None
  else if Qlt_bool size_usd (config.MIN_TRADE_USD cfg) then None
  else Some (py_min size_usd (config.MAX_TRADE_USD cfg)).

End WithConfig.

End directional_engine.

(** ** main.py and the phase helper of app.py *)

Module main.

(** [manual in (1, 2, 3)] *)
Definition is_override (manual : Z) : bool :=
  ((manual =? 1) || (manual =? 2) || (manual =? 3))%Z.

Definition determine_phase (rest : config.rest) (balance : Q) : Z :=
  let manual := config.ACTIVE_PHASE rest in
  if is_override manual then manual
  else if Qle_bool (config.PHASE_3_BALANCE rest) balance then 3%Z
  else if Qle_bool (config.PHASE_2_BALANCE rest) balance then 2%Z
  else 1%Z.

(** The strategy objects, by class; all are built over the same client,
    scanner, order manager, tracker, risk manager and journal. *)
Inductive Strategy :=
| SumToOneArb | ResolutionArb | NewMarketSniper | DirectionalEngine.

Definition build_strategies (phase : Z) : list Strategy :=
  [SumToOneArb]
  ++ (if (1 <=? phase)%Z then [ResolutionArb] else [])
  ++ (if (2 <=? phase)%Z then [NewMarketSniper] else [])
  ++ (if (3 <=? phase)%Z then [DirectionalEngine] else []).

(** The two locals of [main_loop] that persist from cycle to cycle. *)
Record Loop := { phase : Z; strategies : list Strategy }.

(** What [setup] hands to [main_loop]. *)
Definition setup (rest : config.rest) (balance : Q) : Loop :=
  {| phase := determine_phase rest balance;
     strategies := build_strategies (determine_phase rest balance) |}.

(** One pass of the [while _running] body, up to the dispatch: the new
    locals and the strategies handed to [asyncio.gather].
    [current_balance = None] stands for [get_balance] raising, which the
    outer [except] turns into a skipped cycle. *)
Definition cycle (rest : config.rest) (current_balance : option Q)
    (trading_allowed : bool) (l : Loop) : Loop * list Strategy :=
  match current_balance with
  | None => (l, [])
  | Some balance =>
      let new_phase := determine_phase rest balance in
      let l' :=
        if negb (new_phase =? phase l)%Z
        then {| phase := new_phase;
                strategies := build_strategies new_phase |}
        else l in
      if negb trading_allowed then (l', [])
      else (l', strategies l')
  end.

(** The cycles of a run: [(balance, trading allowed)] per cycle. *)
Fixpoint cycles (rest : config.rest) (inputs : list (option Q * bool))
    (l : Loop) : Loop * list (list Strategy) :=
  match inputs with
  | [] => (l, [])
  | (b, allowed) :: more =>
      let '(l1, ran) := cycle rest b allowed l in
      let '(l2, rans) := cycles rest more l1 in
      (l2, ran :: rans)
  end.

End main.

Module app.

Definition _get_phase_for_balance (balance : Q) : Z :=
  if Qle_bool 500 balance then 3%Z
  else if Qle_bool 250 balance then 2%Z
  else 1%Z.

End app.

(** ** core/market_scanner.py *)

Module market_scanner.

(** One entry of [MarketInfo.tokens], as [_parse_market] builds it: both
    keys are always present. *)
Record Token := { token_id : string; outcome : string }.

Record MarketInfo := {
  condition_id : string;
  question : string;
  slug : string;
  active : bool;
  closed : bool;
  enable_order_book : bool;
  tokens : list Token;
  volume_24h : Q;
  created_at : string;
  end_date : string;
  category : string;
  description : string
}.

Definition is_binary (m : MarketInfo) : bool :=
  Nat.eqb (length (tokens m)) 2.

(** [str.lower()] on the ASCII letters; other bytes are kept. *)
Definition lower_ascii (c : ascii) : ascii :=
  let n := nat_of_ascii c in
  if ((65 <=? n) && (n <=? 90))%nat then ascii_of_nat (n + 32) else c.

Fixpoint lower (s : string) : string :=
  match s with
  | EmptyString => EmptyString
  | String c rest => String (lower_ascii c) (lower rest)
  end.

(** The loop of [yes_token_id] and [no_token_id]. *)
Fixpoint find_outcome (name : string) (ts : list Token) : option string :=
  match ts with
  | [] => None
  | t :: rest =>
      if String.eqb (lower (outcome t)) name then Some (token_id t)
      else find_outcome name rest
  end.

Definition yes_token_id (m : MarketInfo) : option string :=
  find_outcome "yes" (tokens m).

Definition no_token_id (m : MarketInfo) : option string :=
  find_outcome "no" (tokens m).

Definition tradable (min_volume : Q) (m : MarketInfo) : bool :=
  is_binary m && active m && negb (closed m) && enable_order_book m
  && Qle_bool min_volume (volume_24h m).

Definition filter_binary_tradable (markets : list MarketInfo)
    (min_volume : Q) : list MarketInfo :=
  filter (tradable min_volume) markets.

(** [needle in hay] *)
Fixpoint contains (needle hay : string) : bool :=
  String.prefix needle hay
  || match hay with
     | EmptyString => false
     | String _ rest => contains needle rest
     end.

Definition filter_btc_price_markets (markets : list MarketInfo)
    : list MarketInfo :=
  filter (fun m =>
            let q := lower (question m) in
            existsb (fun k => contains k q) ["btc"; "bitcoin"]%string
            && existsb (fun k => contains k q)
                 ["above"; "below"; "price"; "over"; "under"]%string)
         markets.

(** The scanner without its HTTP session.  [_known_market_ids] is a set;
    only membership is read, so it is kept as a list. *)
Record MarketScanner := {
  _known_market_ids : list string;
  _last_full_fetch : Q;
  _cache : list MarketInfo
}.

Definition init : MarketScanner :=
  {| _known_market_ids := []; _last_full_fetch := 0; _cache := [] |}.

Definition known (id : string) (ids : list string) : bool :=
  existsb (String.eqb id) ids.

Definition add_id (ids : list string) (id : string) : list string :=
  if known id ids then ids else ids ++ [id].

(** The answer to one GET of the paging loop: [None] for a status other
    than 200 or a raised exception, else the JSON array with each raw
    market already through [_parse_market] ([None]: it returned
    [None]). *)
Definition Response : Type := option (list (option MarketInfo)).

Definition limit : nat := 100.

Definition parsed (data : list (option MarketInfo)) : list MarketInfo :=
  flat_map (fun r => match r with Some m => [m] | None => [] end) data.

(** The [while True] loop of [fetch_active_markets] over the answers the
    API gives to its successive requests; with no answer left the
    request raises. *)
Fixpoint fetch_pages (responses : list Response) (markets : list MarketInfo)
    : list MarketInfo :=
  match responses with
  | [] => markets
  | None :: _ => markets
  | Some data :: rest =>
      match data with
      | [] => markets
      | _ =>
          let markets' := markets ++ parsed data in
          if (length data <? limit)%nat then markets'
          else fetch_pages rest markets'
      end
  end.

Definition fetch_active_markets (now : Q) (responses : list Response)
    (sc : MarketScanner) : list MarketInfo * MarketScanner :=
  if negb (match _cache sc with [] => true | _ => false end)
     && Qlt_bool (now - _last_full_fetch sc) 60
  then (_cache sc, sc)
  else
    let markets := fetch_pages responses [] in
    (markets,
     {| _known_market_ids :=
          fold_left add_id (map condition_id markets) (_known_market_ids sc);
        _last_full_fetch := now;
        _cache := markets |}).

Section WithClock.

Variable rest : config.rest.

(** [_iso_to_ts]: the timestamp [datetime.fromisoformat] reads, 0.0 when
    it raises. *)
Variable _iso_to_ts : string -> Q.

Definition is_new (old_ids : list string) (now : Q) (m : MarketInfo)
    : bool :=
  negb (known (condition_id m) old_ids)
  && Qlt_bool (now - _iso_to_ts (created_at m))
       (inject_Z (config.NEW_MARKET_AGE_LIMIT rest)).

Definition detect_new_markets (now : Q) (responses : list Response)
    (sc : MarketScanner) : list MarketInfo * MarketScanner :=
  let old_ids := _known_market_ids sc in
  let sc1 := {| _known_market_ids := _known_market_ids sc;
                _last_full_fetch := 0;
                _cache := _cache sc |} in
  let '(all_markets, sc2) := fetch_active_markets now responses sc1 in
  (filter (is_new old_ids now) all_markets, sc2).

(** Calls on one scanner, each with the clock and the API's answers. *)
Inductive call :=
| Fetch (now : Q) (responses : list Response)
| Detect (now : Q) (responses : list Response).

(** The scanner after the calls and what each [Detect] reported. *)
Fixpoint run (calls : list call) (sc : MarketScanner)
    : MarketScanner * list (list MarketInfo) :=
  match calls with
  | [] => (sc, [])
  | Fetch now responses :: more =>
      run more (snd (fetch_active_markets now responses sc))
  | Detect now responses :: more =>
      let '(reported, sc1) := detect_new_markets now responses sc in
      let '(sc2, later) := run more sc1 in
      (sc2, reported :: later)
  end.

End WithClock.



End market_scanner.

(** ** utils/pnl_tracker.py: the summary schedule *)

Module pnl_tracker.

Record PnLTracker := {
  _last_daily : option Q;
  _last_weekly : option Q;
  _starting_balance : Q
}.

(** [PnLTracker.__init__], without the journal file. *)
Definition init : PnLTracker :=
  {| _last_daily := None; _last_weekly := None; _starting_balance := 0 |}.

(** [datetime.fromtimestamp(ts, tz=timezone.utc).date()], as the number
    of the day since the epoch. *)
Definition utc_day (ts : Q) : Z := Qfloor (ts / 86400).

(** A call of [_emit_daily_summary] or [_emit_weekly_summary], with the
    time [check_daily_summary] read. *)
Inductive Summary := Daily (now : Q) | Weekly (now : Q).

Definition same_day_as_last (now : Q) (p : PnLTracker) : bool :=
  match _last_daily p with
  | Some last => (utc_day now =? utc_day last)%Z
  | None => false
  end.

Definition weekly_due (now : Q) (p : PnLTracker) : bool :=
  match _last_weekly p with
  | None => true
  | Some last => Qle_bool (7 * 86400) (now - last)
  end.

Definition check_daily_summary (now : Q) (p : PnLTracker)
    : PnLTracker * list Summary :=
  if same_day_as_last now p then (p, [])
  else if weekly_due now p
       then ({| _last_daily := Some now; _last_weekly := Some now;
                _starting_balance := _starting_balance p |},
             [Daily now; Weekly now])
       else ({| _last_daily := Some now; _last_weekly := _last_weekly p;
                _starting_balance := _starting_balance p |},
             [Daily now]).

(** The summaries of successive calls, one call per main-loop cycle. *)
Fixpoint checks (times : list Q) (p : PnLTracker) : list Summary :=
  match times with
  | [] => []
  | now :: later =>
      let '(p', out) := check_daily_summary now p in
      out ++ checks later p'
  end.

Definition daily_times (out : list Summary) : list Q :=
  flat_map (fun s => match s with Daily t => [t] | Weekly _ => [] end) out.

Definition weekly_times (out : list Summary) : list Q :=
  flat_map (fun s => match s with Weekly t => [t] | Daily _ => [] end) out.

(** The clock does not run backwards from call to call. *)
Definition nondecreasing (times : list Q) : Prop :=
  StronglySorted Qle times.

End pnl_tracker.

(** ** strategies/resolution_arb.py: evaluation and execution *)

Module resolution_trade.

Import position_tracker.

Definition STRATEGY_NAME : string := "resolution_arb".

(** The block of [_evaluate_market] between the confirmed price and the
    token lookup.  [abs(btc_price - strike) / strike] raises
    [ZeroDivisionError] on a zero strike; nothing in the strategy
    catches it. *)
Inductive Verdict := ZeroDivision | Skip | Wins (winning_side : string).

(** The state the strategy works on: the ledger, the risk manager and
    the journal of [PnLTracker.record_trade]. *)
Record Engine := {
  tracker : PositionTracker;
  risk : risk_manager.RiskManager;
  journal : list TradeRecord
}.

Definition with_risk (rm : risk_manager.RiskManager) (e : Engine) : Engine :=
  {| tracker := tracker e; risk := rm; journal := journal e |}.

Section WithConfig.

Variable cfg : config.t.
Variable rest : config.rest.
Variable client : order_manager.Client.

Definition winning_side (strike : Q) (above : bool) (btc_price : Q)
    : Verdict :=
  if Qeq_bool strike 0 then ZeroDivision
  else
    let pct_diff := Qabs (btc_price - strike) / strike in
    if Qlt_bool pct_diff (config.PRICE_BUFFER_PCT rest) then Skip
    else
      let btc_above_strike := Qlt_bool strike btc_price in
      if above
      then Wins (if btc_above_strike then "YES" else "NO")
      else Wins (if negb btc_above_strike then "YES" else "NO").

(** The request [_execute] hands to the risk manager. *)
Definition trade_req (token_id : string) (fill : book_analyzer.FillEstimate)
    (shares : Q) : risk_manager.TradeRequest := {|
  risk_manager.strategy := STRATEGY_NAME;
  risk_manager.token_id := token_id;
  risk_manager.side := "BUY";
  risk_manager.price := book_analyzer.average_price fill;
  risk_manager.size := shares;
  risk_manager.max_loss_usd := book_analyzer.total_cost fill * (5 # 100)
|}.

(** The locals [size_usd], [fill] and [shares] of [_execute], the last
    one as it stands after the [if not fill.fully_fillable] block. *)
Definition size_usd (balance : Q) (rm : risk_manager.RiskManager) : Q :=
  let base_size_usd :=
    py_min (balance * config.MAX_RESOLUTION_POSITION_PCT rest)
           (config.MAX_TRADE_USD cfg) in
  base_size_usd * risk_manager.get_position_multiplier cfg rm.

Definition planned_fill (ask_price : Q) (asks : list book_analyzer.Level)
    (balance : Q) (rm : risk_manager.RiskManager)
    : book_analyzer.FillEstimate :=
  book_analyzer.walk_book_asks asks (size_usd balance rm / ask_price).

Definition planned_shares (ask_price : Q) (asks : list book_analyzer.Level)
    (balance : Q) (rm : risk_manager.RiskManager) : Q :=
  let fill := planned_fill ask_price asks balance rm in
  if book_analyzer.fully_fillable fill then size_usd balance rm / ask_price
  else book_analyzer.total_filled fill.

(** [_execute]; [balance] is the answer of [get_balance].  [None]: the
    [ZeroDivisionError] of [size_usd / ask_price], raised before anything
    is changed. *)
Definition _execute (market : market_scanner.MarketInfo)
    (token_id side : string) (ask_price : Q)
    (asks : list book_analyzer.Level) (balance now : Q)
    (w : order_manager.World) (e : Engine)
    : option (order_manager.World * Engine) :=
  if Qlt_bool (size_usd balance (risk e)) (config.MIN_TRADE_USD cfg)
  then Some (w, e)
  else if Qeq_bool ask_price 0 then None
  else
    let fill := planned_fill ask_price asks balance (risk e) in
    let shares := planned_shares ask_price asks balance (risk e) in
    if negb (book_analyzer.fully_fillable fill)
       && Qlt_bool (shares * ask_price) (config.MIN_TRADE_USD cfg)
    then Some (w, e)
    else
      let '((approved, _), risk1) :=
        risk_manager.check_trade cfg (tracker e)
          (trade_req token_id fill shares) balance now (risk e) in
      if negb approved then Some (w, with_risk risk1 e)
      else
        let '(ticket, w1) :=
          order_manager.place_limit cfg client token_id "BUY"
            (book_analyzer.average_price fill) shares now w in
        if order_manager.Status_eqb (order_manager.status ticket)
             order_manager.submitted
           || order_manager.Status_eqb (order_manager.status ticket)
                order_manager.filled
        then
          let t1 :=
            snd (open_position token_id
                   (market_scanner.condition_id market)
                   (market_scanner.question market) side
                   (book_analyzer.average_price fill) shares
                   STRATEGY_NAME now (tracker e)) in
          if config.DRY_RUN cfg then
            let profit := (1 - book_analyzer.average_price fill) * shares in
            let new_balance := balance + profit in
            let '(record, t2) :=
              close_position token_id 1 new_balance 1%Z now t1 in
            match record with
            | Some r =>
                Some (w1,
                      {| tracker := t2;
                         risk := risk_manager.record_trade_completed cfg
                                   true now risk1;
                         journal := journal e ++ [r] |})
            | None =>
                Some (w1, {| tracker := t2; risk := risk1;
                             journal := journal e |})
            end
          else Some (w1, {| tracker := t1; risk := risk1;
                            journal := journal e |})
        else Some (w1, with_risk risk1 e).

(** [_evaluate_market].  [parsed] is the answer of
    [_parse_btc_question], [cg_price] and [bn_price] those of the two
    price endpoints, [get_order_book] the venue's book by token ([None]:
    the call raised; the list is [book.get("asks", [])]). *)
Definition _evaluate_market (market : market_scanner.MarketInfo)
    (parsed : option Q * bool) (cg_price bn_price : option Q)
    (get_order_book : string -> option (list book_analyzer.Level))
    (balance now : Q) (w : order_manager.World) (e : Engine)
    : option (order_manager.World * Engine) :=
  let '(strike, above) := parsed in
  match strike with
  | None => Some (w, e)
  | Some strike =>
  match resolution_arb._get_btc_price_confirmed cg_price bn_price with
  | None => Some (w, e)
  | Some btc_price =>
  match winning_side strike above btc_price with
  | ZeroDivision => None
  | Skip => Some (w, e)
  | Wins side =>
  match (if String.eqb side "YES" then market_scanner.yes_token_id market
         else market_scanner.no_token_id market) with
  | None => Some (w, e)
  | Some token_id =>
  if String.eqb token_id "" then Some (w, e)
  else
  match get_order_book token_id with
  | None => Some (w, e)
  | Some asks =>
  match book_analyzer.best_ask_price asks with
  | None => Some (w, e)
  | Some best =>
      let edge := 1 - best in
      if Qlt_bool edge (config.MIN_RESOLUTION_EDGE rest) then Some (w, e)
      else if Qlt_bool (97 # 100) best then Some (w, e)
      else _execute market token_id side best asks balance now w e
  end end end end end end.

End WithConfig.

End resolution_trade.

(** ** Sample data *)

Module samples.

Import position_tracker.

(** Two positions in the same token and one in another, all open. *)
Definition three_opens : list op :=
  [ Open "tok-a" "m1" "Will A happen?" "YES" (1 # 2) 10 "sum_to_one_arb" 1;
    Open "tok-a" "m1" "Will A happen?" "YES" (3 # 5) 10 "sum_to_one_arb" 2;
    Open "tok-b" "m2" "Will B happen?" "NO" (2 # 5) 5 "sum_to_one_arb" 3 ].

Definition ledger : PositionTracker := run three_opens.

(** A filled pair on a fresh engine. *)
Definition market : sum_to_one_arb.MarketInfo := {|
  sum_to_one_arb.condition_id := "cond-1";
  sum_to_one_arb.question := "Will it rain?";
  sum_to_one_arb.yes_token_id := "tok-y";
  sum_to_one_arb.no_token_id := "tok-n"
|}.

Definition ticket (tok sd : string) (p sz : Q) (id : string)
    (st : order_manager.Status) : order_manager.OrderTicket := {|
  order_manager.token_id := tok; order_manager.side := sd;
  order_manager.price := p; order_manager.size := sz;
  order_manager.order_id := Some id; order_manager.status := st;
  order_manager.submitted_at := 7
|}.

Definition both_filled : order_manager.PairedArbOrder := {|
  order_manager.yes_leg :=
    ticket "tok-y" "BUY" (48 # 100) 200 "id-y" order_manager.filled;
  order_manager.no_leg :=
    ticket "tok-n" "BUY" (1 # 2) 200 "id-n" order_manager.filled
|}.

Definition engine : sum_to_one_arb.Engine := {|
  sum_to_one_arb.tracker := position_tracker.init;
  sum_to_one_arb.risk := risk_manager.init 0;
  sum_to_one_arb.journal := []
|}.

(** An ask side with two levels, and a manager in cooldown after a
    drawdown. *)
Definition asks : list book_analyzer.Level :=
  [ {| book_analyzer.price := 48 # 100; book_analyzer.size := 100 |};
    {| book_analyzer.price := 1 # 2; book_analyzer.size := 200 |} ].

Definition request : risk_manager.TradeRequest := {|
  risk_manager.strategy := "sum_to_one_arb";
  risk_manager.token_id := "tok-y";
  risk_manager.side := "BUY";
  risk_manager.price := 5;
  risk_manager.size := 1;
  risk_manager.max_loss_usd := 1
|}.

(** A manager whose day started at 100. *)
Definition day_started : risk_manager.RiskManager :=
  risk_manager.set_day_start_balance 100 0 (risk_manager.init 0).

(** The same manager after a [check_trade] at balance 90: a 10% drawdown
    puts it in cooldown until second 1800. *)
Definition cooling : risk_manager.RiskManager :=
  snd (risk_manager.check_trade config.default position_tracker.init
         request 90 0 day_started).

Definition check_at (balance now : Q) : risk_manager.Check := {|
  risk_manager.ck_tracker := position_tracker.init;
  risk_manager.ck_trade := request;
  risk_manager.ck_balance := balance;
  risk_manager.ck_now := now
|}.


(** A venue that accepts every order under the id [side-token] and every
    cancel, and whose open-orders answer is always [still_open]. *)
Definition venue (still_open : list string) : order_manager.Client := {|
  order_manager.create_limit_order :=
    fun tok sd _ _ _ => Some (sd ++ "-" ++ tok)%string;
  order_manager.get_open_orders := fun _ => Some still_open;
  order_manager.cancel_order := fun _ => true
|}.

(** YES fills, NO stays open, the recovery sell fills. *)
Definition venue_sell_fills : order_manager.Client := venue ["BUY-tok-n"%string].

(** YES fills, NO stays open, the recovery sell stays open too. *)
Definition venue_sell_open : order_manager.Client :=
  venue ["BUY-tok-n"%string; "SELL-tok-y"%string].

(** A ledger holding 20 closed directional trades, 9 of them wins, and
    one winning trade of another strategy. *)
Definition trade (strat : string) (pnl_v : Q) : position_tracker.TradeRecord :=
  {| position_tracker.timestamp := 0;
     position_tracker.tr_strategy := strat;
     position_tracker.market_name := "Will BTC be above $65k?";
     position_tracker.tr_side := "YES";
     position_tracker.tr_entry_price := 1 # 2;
     position_tracker.tr_exit_price := if Qle_bool 0 pnl_v then 1 else 0;
     position_tracker.size_usd := 10;
     position_tracker.pnl_usd := pnl_v;
     position_tracker.tr_pnl_pct := pnl_v / 10;
     position_tracker.balance_after := 600;
     position_tracker.phase := 3 |}.

Definition losing_ledger : position_tracker.PositionTracker := {|
  position_tracker._positions := [];
  position_tracker._trade_history :=
    repeat (trade "directional_engine" 10) 9
    ++ [trade "sum_to_one_arb" 2]
    ++ repeat (trade "directional_engine" (-10)) 11;
  position_tracker._consecutive_losses := 11;
  position_tracker._consecutive_wins := 0;
  position_tracker._max_win_streak := 10;
  position_tracker._max_loss_streak := 11
|}.

(** Two catalog entries, both created at second 1000. *)
Definition catalog_market (id : string) (yes_label no_label : string)
    : market_scanner.MarketInfo := {|
  market_scanner.condition_id := id;
  market_scanner.question := "Will BTC be above $65k?";
  market_scanner.slug := id;
  market_scanner.active := true;
  market_scanner.closed := false;
  market_scanner.enable_order_book := true;
  market_scanner.tokens :=
    [ {| market_scanner.token_id := (id ++ "-no")%string;
         market_scanner.outcome := no_label |};
      {| market_scanner.token_id := (id ++ "-yes")%string;
         market_scanner.outcome := yes_label |} ];
  market_scanner.volume_24h := 1000;
  market_scanner.created_at := "2026-01-01T00:16:40Z";
  market_scanner.end_date := "2026-01-02T00:00:00Z";
  market_scanner.category := "crypto";
  market_scanner.description := ""
|}.



(** A BTC market of the catalog, a one-level and a two-level ask side,
    and the strategy state at start-up with the day started at 100. *)
Definition btc_market : market_scanner.MarketInfo :=
  catalog_market "m1" "Yes" "No".

Definition flat_asks : list book_analyzer.Level :=
  [ {| book_analyzer.price := 90 # 100; book_analyzer.size := 1000 |} ].


Definition flat_books (tok : string) : option (list book_analyzer.Level) :=
  Some flat_asks.

Definition resolver : resolution_trade.Engine := {|
  resolution_trade.tracker := position_tracker.init;
  resolution_trade.risk := day_started;
  resolution_trade.journal := []
|}.

End samples.

(** * Properties *)

(** ** Comparisons and list helpers *)

Lemma Qlt_bool_iff (x y : Q) : Qlt_bool x y = true <-> x < y.
Proof.
  unfold Qlt_bool. rewrite negb_true_iff.
  split; intro H.
  - apply Qnot_le_lt. intro Hle. apply Qle_bool_iff in Hle. congruence.
  - destruct (Qle_bool y x) eqn:E; [|reflexivity].
    apply Qle_bool_iff in E. lra.
Qed.

Lemma Qlt_bool_false_iff (x y : Q) : Qlt_bool x y = false <-> y <= x.
Proof.
  unfold Qlt_bool. rewrite negb_false_iff. apply Qle_bool_iff.
Qed.

Lemma Qle_bool_false_iff (x y : Q) : Qle_bool x y = false <-> y < x.
Proof.
  rewrite <- Qlt_bool_iff. unfold Qlt_bool.
  destruct (Qle_bool x y); simpl; intuition congruence.
Qed.

Lemma or_zero_Some (x : Q) : or_zero (Some x) == x.
Proof.
  unfold or_zero, truthy.
  destruct (Qeq_bool x 0) eqn:E; simpl; [|reflexivity].
  apply Qeq_bool_iff in E. symmetry. exact E.
Qed.

Lemma py_min_le_l (a b : Q) : py_min a b <= a.
Proof.
  unfold py_min. destruct (Qlt_bool b a) eqn:E.
  - apply Qlt_bool_iff in E. lra.
  - lra.
Qed.

Lemma py_min_le_r (a b : Q) : py_min a b <= b.
Proof.
  unfold py_min. destruct (Qlt_bool b a) eqn:E.
  - lra.
  - apply Qlt_bool_false_iff in E. exact E.
Qed.

Lemma update_nth_length {A} (f : A -> A) (l : list A) (i : nat) :
  length (update_nth i f l) = length l.
Proof.
  revert i. induction l as [|x tl IH]; intros [|j]; simpl; auto.
Qed.

Lemma update_nth_same {A} (f : A -> A) (l : list A) (i : nat) (x : A) :
  nth_error l i = Some x ->
  nth_error (update_nth i f l) i = Some (f x).
Proof.
  revert i. induction l as [|y tl IH]; intros [|j]; simpl; try discriminate.
  - congruence.
  - apply IH.
Qed.

Lemma update_nth_other {A} (f : A -> A) (l : list A) (i j : nat) :
  i <> j -> nth_error (update_nth i f l) j = nth_error l j.
Proof.
  revert i j. induction l as [|y tl IH]; intros [|i] [|j] Hne; simpl; auto.
  congruence.
Qed.

Lemma ledger_min_cases (a b : Q) : py_min a b = b \/ py_min a b = a.
Proof. unfold py_min. destruct (Qlt_bool b a); auto. Qed.

Lemma Qlt_bool_neg_le (x : Q) : Qlt_bool x 0 = negb (Qle_bool 0 x).
Proof. reflexivity. Qed.

Lemma leading_run_cons {A} (f : A -> bool) (x : A) (l : list A) :
  position_tracker.leading_run f (x :: l)
  = if f x then S (position_tracker.leading_run f l) else O.
Proof. reflexivity. Qed.

Lemma trailing_run_snoc {A} (f : A -> bool) (l : list A) (x : A) :
  position_tracker.trailing_run f (l ++ [x])
  = if f x then S (position_tracker.trailing_run f l) else O.
Proof.
  unfold position_tracker.trailing_run.
  rewrite rev_app_distr. reflexivity.
Qed.

(** ** PositionTracker *)

Module position_tracker_facts.

Import position_tracker.

Lemma find_last_None (f : Position -> bool) (l : list Position) :
  find_last f l = None <-> (forall p, In p l -> f p = false).
Proof.
  induction l as [|x tl IH]; simpl.
  - split; [intros _ p [] | reflexivity].
  - destruct (find_last f tl) as [i|] eqn:E.
    + split; [discriminate|]. intro H.
      assert (Hn : Some i = None) by (apply IH; intros p Hp; apply H; auto).
      discriminate.
    + destruct (f x) eqn:Fx.
      * split; [discriminate|]. intro H.
        specialize (H x (or_introl eq_refl)). congruence.
      * split; [|reflexivity]. intros _ p [<-|Hp]; [exact Fx|].
        apply IH; auto.
Qed.

Lemma find_last_Some (f : Position -> bool) (l : list Position) (i : nat) :
  find_last f l = Some i ->
  exists p, nth_error l i = Some p /\ f p = true
    /\ forall j q, (i < j)%nat -> nth_error l j = Some q -> f q = false.
Proof.
  revert i. induction l as [|x tl IH]; simpl; intros i H; [discriminate|].
  destruct (find_last f tl) as [k|] eqn:E.
  - injection H as <-. destruct (IH k eq_refl) as (p & Hp & Fp & Hlast).
    exists p. repeat split; auto.
    intros [|j] q Hj Hq; [lia|]. simpl in Hq.
    apply (Hlast j); [lia|exact Hq].
  - destruct (f x) eqn:Fx; [|discriminate]. injection H as <-.
    exists x. repeat split; auto.
    intros [|j] q Hj Hq; [lia|]. simpl in Hq.
    apply (proj1 (find_last_None f tl) E). eapply nth_error_In; eauto.
Qed.

Lemma matches_open_true (tok : string) (p : Position) :
  matches_open tok p = true <-> token_id p = tok /\ is_open p = true.
Proof.
  unfold matches_open. rewrite andb_true_iff, String.eqb_eq. reflexivity.
Qed.

Lemma matches_open_false (tok : string) (p : Position) :
  matches_open tok p = false <-> (token_id p = tok -> is_open p = false).
Proof.
  unfold matches_open. rewrite andb_false_iff, String.eqb_neq.
  split.
  - intros [H|H] E; [contradiction|exact H].
  - intro H. destruct (string_dec (token_id p) tok) as [E|E]; auto.
Qed.

(** What a successful [close_position] computes, field by field. *)
Lemma close_position_found tok exit bal ph now t i pos0 :
  _find_open tok t = Some i ->
  nth_error (_positions t) i = Some pos0 ->
  exists r t',
    close_position tok exit bal ph now t = (Some r, t')
    /\ _positions t' = update_nth i (mark_closed exit now) (_positions t)
    /\ _trade_history t' = _trade_history t ++ [r]
    /\ pnl_usd r = or_zero (Some ((exit - entry_price pos0) * size pos0))
    /\ tr_exit_price r = exit /\ tr_entry_price r = entry_price pos0
    /\ tr_strategy r = strategy pos0 /\ tr_side r = side pos0
    /\ market_name r = market_question pos0
    /\ size_usd r = cost_basis pos0 /\ timestamp r = now
    /\ balance_after r = bal /\ phase r = ph
    /\ _consecutive_wins t'
       = (if is_win r then _consecutive_wins t + 1 else 0)%Z
    /\ _consecutive_losses t'
       = (if is_win r then 0 else _consecutive_losses t + 1)%Z
    /\ _max_win_streak t'
       = (if is_win r
          then Z.max (_max_win_streak t) (_consecutive_wins t + 1)
          else _max_win_streak t)%Z
    /\ _max_loss_streak t'
       = (if is_win r then _max_loss_streak t
          else Z.max (_max_loss_streak t) (_consecutive_losses t + 1))%Z.
Proof.
  intros Hf Hn. unfold close_position. rewrite Hf, Hn.
  eexists. eexists. split; [reflexivity|].
  cbn [_positions _trade_history pnl_usd tr_exit_price tr_entry_price
       tr_strategy tr_side market_name size_usd timestamp balance_after
       phase _consecutive_wins _consecutive_losses _max_win_streak
       _max_loss_streak].
  repeat split; try reflexivity;
    unfold is_win; cbn [pnl_usd];
    destruct (Qle_bool 0 (or_zero (pnl (mark_closed exit now pos0))));
    reflexivity.
Qed.

Lemma close_position_not_found tok exit bal ph now t :
  _find_open tok t = None ->
  close_position tok exit bal ph now t = (None, t).
Proof. intro H. unfold close_position. rewrite H. reflexivity. Qed.

Lemma is_win_iff (r : TradeRecord) : is_win r = true <-> 0 <= pnl_usd r.
Proof. unfold is_win. apply Qle_bool_iff. Qed.

Lemma is_win_false_iff (r : TradeRecord) : is_win r = false <-> pnl_usd r < 0.
Proof. unfold is_win. apply Qle_bool_false_iff. Qed.

Lemma is_loss_negb (r : TradeRecord) : is_loss r = negb (is_win r).
Proof. reflexivity. Qed.

(** Every case of [close_position] on a ledger: either nothing was found
    and the ledger is returned as it was, or the found position is in the
    list and the call succeeds. *)
Lemma close_position_cases tok exit bal ph now t :
  (_find_open tok t = None
   /\ close_position tok exit bal ph now t = (None, t))
  \/ (exists i pos0 r t',
        _find_open tok t = Some i
        /\ nth_error (_positions t) i = Some pos0
        /\ close_position tok exit bal ph now t = (Some r, t')).
Proof.
  destruct (_find_open tok t) as [i|] eqn:Hf.
  - right. destruct (find_last_Some _ _ _ Hf) as (p & Hp & _).
    destruct (close_position_found tok exit bal ph now t i p Hf Hp)
      as (r & t' & Hc & _).
    exists i, p, r, t'. auto.
  - left. split; [reflexivity|]. apply close_position_not_found; exact Hf.
Qed.

Lemma streak_inv_init : streak_inv init.
Proof. unfold streak_inv; cbn. repeat split; lia. Qed.

Lemma streak_inv_close tok exit bal ph now t :
  streak_inv t -> streak_inv (snd (close_position tok exit bal ph now t)).
Proof.
  intros (Hl & Hw & Hmw & Hml).
  destruct (close_position_cases tok exit bal ph now t)
    as [[_ ->] | (i & p & r & t' & Hf & Hp & Hc)].
  - repeat split; assumption.
  - destruct (close_position_found tok exit bal ph now t i p Hf Hp)
      as (r0 & t0 & Hc0 & _ & Hh & _ & _ & _ & _ & _ & _ & _ & _ & _ & _
          & Hw' & Hl' & Hmw' & Hml').
    rewrite Hc0. cbn [snd].
    unfold streak_inv, consecutive_losses, consecutive_wins, trade_history
      in *.
    rewrite Hh, !trailing_run_snoc, is_loss_negb, Hw', Hl', Hmw', Hml'.
    destruct (is_win r0); cbn [negb]; repeat split; lia.
Qed.

Lemma streak_inv_step t o : streak_inv t -> streak_inv (step t o).
Proof.
  destruct o; cbn [step].
  - intro H; exact H.
  - apply streak_inv_close.
Qed.

Lemma streak_inv_fold ops t :
  streak_inv t -> streak_inv (fold_left step ops t).
Proof.
  revert t. induction ops as [|o ops IH]; intros t H; cbn [fold_left].
  - exact H.
  - apply IH, streak_inv_step, H.
Qed.

Lemma peaks_step t o :
  (_max_win_streak t <= _max_win_streak (step t o))%Z
  /\ (_max_loss_streak t <= _max_loss_streak (step t o))%Z.
Proof.
  destruct o as [|tok exit bal ph now]; cbn [step].
  - cbn. lia.
  - destruct (close_position_cases tok exit bal ph now t)
      as [[_ ->] | (i & p & r & t' & Hf & Hp & Hc)].
    + cbn. lia.
    + destruct (close_position_found tok exit bal ph now t i p Hf Hp)
        as (r0 & t0 & Hc0 & _ & _ & _ & _ & _ & _ & _ & _ & _ & _ & _ & _
            & _ & _ & Hmw' & Hml').
      rewrite Hc0. cbn [snd]. rewrite Hmw', Hml'.
      destruct (is_win r0); lia.
Qed.

(** C9. [close_position] on a token with no still-open position returns
    [None] and returns the ledger as it was (so every query answers as
    before).  When some open position holds the token, the call closes
    the one at the greatest index of [_positions] (positions are appended
    as they are opened, so the most recently opened one), sets its exit
    price and close time, appends one [TradeRecord] built from it, and
    leaves every other position and the length of the list unchanged. *)
Theorem close_position_closes_latest_open tok exit bal ph now t :
  ((forall p, In p (_positions t) -> token_id p = tok -> is_open p = false)
   -> close_position tok exit bal ph now t = (None, t))
  /\ ((exists p, In p (_positions t) /\ token_id p = tok /\ is_open p = true)
      -> exists i pos r t',
           close_position tok exit bal ph now t = (Some r, t')
           /\ nth_error (_positions t) i = Some pos
           /\ token_id pos = tok /\ is_open pos = true
           /\ (forall j q, (i < j)%nat ->
                 nth_error (_positions t) j = Some q ->
                 token_id q = tok -> is_open q = false)
           /\ nth_error (_positions t') i = Some (mark_closed exit now pos)
           /\ (forall j, j <> i ->
                 nth_error (_positions t') j = nth_error (_positions t) j)
           /\ length (_positions t') = length (_positions t)
           /\ trade_history t' = trade_history t ++ [r]
           /\ tr_entry_price r = entry_price pos
           /\ tr_exit_price r = exit
           /\ tr_strategy r = strategy pos
           /\ size_usd r = cost_basis pos
           /\ pnl_usd r == (exit - entry_price pos) * size pos).
Proof.
  split.
  - intro Hnone. apply close_position_not_found.
    unfold _find_open. apply find_last_None.
    intros p Hp. apply matches_open_false. auto.
  - intros (p & Hp & Htok & Hopen).
    destruct (_find_open tok t) as [i|] eqn:Hf.
    + destruct (find_last_Some _ _ _ Hf) as (pos & Hn & Hm & Hlast).
      apply matches_open_true in Hm. destruct Hm as [Hmt Hmo].
      destruct (close_position_found tok exit bal ph now t i pos Hf Hn)
        as (r & t' & Hc & Hps & Hh & Hpnl & Hex & Hen & Hst & _ & _ & Hsz
            & _).
      exists i, pos, r, t'. rewrite Hps.
      repeat split; auto.
      * intros j q Hj Hq. apply matches_open_false. eapply Hlast; eauto.
      * apply update_nth_same. exact Hn.
      * intros j Hj. apply update_nth_other. congruence.
      * apply update_nth_length.
      * rewrite Hpnl. apply or_zero_Some.
    + exfalso. unfold _find_open in Hf.
      pose proof (proj1 (find_last_None _ _) Hf p Hp) as Hm.
      apply matches_open_false in Hm; [congruence|exact Htok].
Qed.

(** C8. A close whose realised PnL is non-negative adds one to the win
    streak and zeroes the loss streak; a close with negative PnL adds one
    to the loss streak and zeroes the win streak.  Peak streaks are the
    maximum of the old peak and the new streak, and no ledger operation
    lowers them.  After any sequence of opens and closes from a fresh
    ledger, [consecutive_losses] is the length of the trailing run of
    negative-PnL records of the trade history, [consecutive_wins] the
    length of the trailing run of non-negative ones, and each streak is
    at most its peak. *)
Theorem streaks_are_trailing_runs :
  (forall tok exit bal ph now t r t',
      close_position tok exit bal ph now t = (Some r, t') ->
      (0 <= pnl_usd r ->
         consecutive_wins t' = (consecutive_wins t + 1)%Z
         /\ consecutive_losses t' = 0%Z
         /\ _max_win_streak t'
            = Z.max (_max_win_streak t) (consecutive_wins t + 1)
         /\ _max_loss_streak t' = _max_loss_streak t)
      /\ (pnl_usd r < 0 ->
         consecutive_losses t' = (consecutive_losses t + 1)%Z
         /\ consecutive_wins t' = 0%Z
         /\ _max_loss_streak t'
            = Z.max (_max_loss_streak t) (consecutive_losses t + 1)
         /\ _max_win_streak t' = _max_win_streak t))
  /\ (forall t o,
        (_max_win_streak t <= _max_win_streak (step t o))%Z
        /\ (_max_loss_streak t <= _max_loss_streak (step t o))%Z)
  /\ (forall ops,
        consecutive_losses (run ops)
          = Z.of_nat (trailing_run is_loss (trade_history (run ops)))
        /\ consecutive_wins (run ops)
          = Z.of_nat (trailing_run is_win (trade_history (run ops)))
        /\ (consecutive_wins (run ops) <= _max_win_streak (run ops))%Z
        /\ (consecutive_losses (run ops) <= _max_loss_streak (run ops))%Z).
Proof.
  split; [|split].
  - intros tok exit bal ph now t r t' Hc.
    destruct (close_position_cases tok exit bal ph now t)
      as [[_ Hnone] | (i & p & r1 & t1 & Hf & Hp & _)];
      [congruence|].
    destruct (close_position_found tok exit bal ph now t i p Hf Hp)
      as (r0 & t0 & Hc0 & _ & _ & _ & _ & _ & _ & _ & _ & _ & _ & _ & _
          & Hw' & Hl' & Hmw' & Hml').
    rewrite Hc in Hc0. injection Hc0 as <- <-.
    unfold consecutive_wins, consecutive_losses.
    split; intro Hsign.
    + apply is_win_iff in Hsign. rewrite Hsign in *. auto.
    + apply is_win_false_iff in Hsign. rewrite Hsign in *. auto.
  - apply peaks_step.
  - intro ops. apply (streak_inv_fold ops init streak_inv_init).
Qed.

Lemma close_position_closes_latest_open_witness :
  close_position "tok-c" 1 100 0%Z 9 samples.ledger = (None, samples.ledger)
  /\ exists i pos r t',
       close_position "tok-a" 1 100 0%Z 9 samples.ledger = (Some r, t')
       /\ nth_error (_positions samples.ledger) i = Some pos
       /\ token_id pos = "tok-a"%string /\ is_open pos = true
       /\ (forall j q, (i < j)%nat ->
             nth_error (_positions samples.ledger) j = Some q ->
             token_id q = "tok-a"%string -> is_open q = false)
       /\ nth_error (_positions t') i = Some (mark_closed 1 9 pos)
       /\ (forall j, j <> i ->
             nth_error (_positions t') j
             = nth_error (_positions samples.ledger) j)
       /\ length (_positions t') = length (_positions samples.ledger)
       /\ trade_history t' = trade_history samples.ledger ++ [r]
       /\ tr_entry_price r = entry_price pos
       /\ tr_exit_price r = 1
       /\ tr_strategy r = strategy pos
       /\ size_usd r = cost_basis pos
       /\ pnl_usd r == (1 - entry_price pos) * size pos.
Proof.
  split.
  - apply (proj1 (close_position_closes_latest_open
                    "tok-c" 1 100 0%Z 9 samples.ledger)).
    intros p Hp Htok. cbn in Hp.
    destruct Hp as [<-|[<-|[<-|[]]]]; discriminate Htok.
  - apply (proj2 (close_position_closes_latest_open
                    "tok-a" 1 100 0%Z 9 samples.ledger)).
    eexists. split; [cbn; left; reflexivity|]. split; reflexivity.
Defined.

Lemma streaks_are_trailing_runs_witness :
  (exists r t',
     close_position "tok-a" 1 100 0%Z 9 samples.ledger = (Some r, t')
     /\ 0 <= pnl_usd r
     /\ consecutive_wins t' = 1%Z /\ consecutive_losses t' = 0%Z)
  /\ (exists r t',
     close_position "tok-b" 0 100 0%Z 9 samples.ledger = (Some r, t')
     /\ pnl_usd r < 0
     /\ consecutive_losses t' = 1%Z /\ consecutive_wins t' = 0%Z).
Proof.
  destruct streaks_are_trailing_runs as [Hclose _].
  split.
  - eexists. eexists. split; [vm_compute; reflexivity|].
    match goal with
    | |- _ /\ consecutive_wins ?t' = _ /\ _ =>
        pose proof (Hclose "tok-a"%string 1 100 0%Z 9 samples.ledger _ t'
                      eq_refl) as [Hwin _]
    end.
    assert (Hsign : 0 <= 4) by (vm_compute; discriminate).
    split; [exact Hsign|].
    destruct (Hwin Hsign) as (Hw & Hl & _). split; [exact Hw|exact Hl].
  - eexists. eexists. split; [vm_compute; reflexivity|].
    match goal with
    | |- _ /\ consecutive_losses ?t' = _ /\ _ =>
        pose proof (Hclose "tok-b"%string 0 100 0%Z 9 samples.ledger _ t'
                      eq_refl) as [_ Hloss]
    end.
    assert (Hsign : -2 < 0) by (vm_compute; reflexivity).
    split; [exact Hsign|].
    destruct (Hloss Hsign) as (Hl & Hw & _). split; [exact Hl|exact Hw].
Defined.

End position_tracker_facts.

(** ** Sum-to-one arbitrage: bookkeeping of a filled pair *)

Module sum_to_one_arb_facts.

Import position_tracker position_tracker_facts sum_to_one_arb.

Lemma find_last_snoc (f : Position -> bool) (l : list Position) (x : Position) :
  find_last f (l ++ [x]) = if f x then Some (length l) else find_last f l.
Proof.
  induction l as [|y tl IH]; cbn [app find_last length].
  - destruct (f x); reflexivity.
  - rewrite IH. destruct (f x); reflexivity.
Qed.

Lemma nth_error_middle {A} (l : list A) (x : A) (tl : list A) :
  nth_error (l ++ x :: tl) (length l) = Some x.
Proof. induction l as [|y l IH]; cbn; auto. Qed.

Lemma update_nth_middle {A} (f : A -> A) (l : list A) (x : A) (tl : list A) :
  update_nth (length l) f (l ++ x :: tl) = l ++ f x :: tl.
Proof. induction l as [|y l IH]; cbn; [reflexivity|]. now rewrite IH. Qed.

(** Closing a token whose latest open position sits at the end of the
    list, possibly followed by positions [tl] in other tokens. *)
Lemma close_position_at tok exit bal ph now t l pos tl :
  _positions t = l ++ pos :: tl ->
  matches_open tok pos = true ->
  (forall q, In q tl -> matches_open tok q = false) ->
  exists r t',
    close_position tok exit bal ph now t = (Some r, t')
    /\ _positions t' = l ++ mark_closed exit now pos :: tl
    /\ _trade_history t' = _trade_history t ++ [r]
    /\ pnl_usd r = or_zero (Some ((exit - entry_price pos) * size pos))
    /\ tr_exit_price r = exit /\ tr_side r = side pos
    /\ _consecutive_wins t'
       = (if is_win r then _consecutive_wins t + 1 else 0)%Z
    /\ _consecutive_losses t'
       = (if is_win r then 0 else _consecutive_losses t + 1)%Z.
Proof.
  intros Hps Hm Htl.
  assert (Hf : _find_open tok t = Some (length l)).
  { unfold _find_open. rewrite Hps. clear Hps.
    induction l as [|y l IH]; cbn [app find_last length].
    - rewrite (proj2 (find_last_None _ tl) Htl), Hm. reflexivity.
    - rewrite IH. reflexivity. }
  assert (Hn : nth_error (_positions t) (length l) = Some pos)
    by (rewrite Hps; apply nth_error_middle).
  destruct (close_position_found tok exit bal ph now t _ pos Hf Hn)
    as (r & t' & Hc & Hp' & Hh & Hpnl & Hex & _ & _ & Hsd & _ & _ & _ & _
        & _ & Hw & Hl & _).
  exists r, t'. rewrite Hp', Hps, update_nth_middle. repeat split; auto.
Qed.

(** C10. When both legs of a pair are reported filled, with distinct
    tokens, positive entry prices summing below 1 and a positive share
    count, the strategy opens YES and NO, closes YES at 1.0 with
    non-negative PnL and then NO at 0.0 with negative PnL.  The trade
    history gains exactly these two records, in this order; afterwards
    [consecutive_wins] is 0 and [consecutive_losses] is 1, the value the
    consecutive-loss gate of [check_trade] reads.  Only the YES record
    goes to the journal, the risk manager is told of one win, and the
    open positions of the ledger are those it had before. *)
Theorem filled_pair_registers_trailing_loss (cfg : config.t)
    (market : MarketInfo) (placed : order_manager.PairedArbOrder)
    (yes_price no_price shares balance total_profit now : Q) (e : Engine) :
  order_manager.status (order_manager.yes_leg placed) = order_manager.filled ->
  order_manager.status (order_manager.no_leg placed) = order_manager.filled ->
  yes_token_id market <> no_token_id market ->
  0 < yes_price -> 0 < no_price -> yes_price + no_price < 1 -> 0 < shares ->
  let e' := track_pair cfg market placed yes_price no_price shares balance
              total_profit now e in
  exists yes_record no_record,
    trade_history (tracker e')
      = trade_history (tracker e) ++ [yes_record; no_record]
    /\ tr_side yes_record = "YES"%string /\ tr_exit_price yes_record = 1
    /\ 0 <= pnl_usd yes_record
    /\ tr_side no_record = "NO"%string /\ tr_exit_price no_record = 0
    /\ pnl_usd no_record < 0
    /\ consecutive_wins (tracker e') = 0%Z
    /\ consecutive_losses (tracker e') = 1%Z
    /\ journal e' = journal e ++ [yes_record]
    /\ risk e' = risk_manager.record_trade_completed cfg true now (risk e)
    /\ open_positions (tracker e') = open_positions (tracker e).
Proof.
  intros Hy Hn Hne Hyp Hnp Hsum Hsh e'. subst e'.
  unfold track_pair. rewrite Hy, Hn. cbn [order_manager.Status_eqb andb].
  set (yes_pos := fst (open_position (yes_token_id market)
                         (condition_id market) (question market) "YES"
                         yes_price shares STRATEGY_NAME now (tracker e))).
  set (t1 := snd (open_position (yes_token_id market) (condition_id market)
                    (question market) "YES" yes_price shares STRATEGY_NAME
                    now (tracker e))).
  set (no_pos := fst (open_position (no_token_id market)
                        (condition_id market) (question market) "NO"
                        no_price shares STRATEGY_NAME now t1)).
  set (t2 := snd (open_position (no_token_id market) (condition_id market)
                    (question market) "NO" no_price shares STRATEGY_NAME
                    now t1)).
  assert (Hps2 : _positions t2
                 = _positions (tracker e) ++ yes_pos :: [no_pos]).
  { unfold t2, t1. cbn. rewrite <- app_assoc. reflexivity. }
  assert (Hm_yes : matches_open (yes_token_id market) yes_pos = true).
  { apply matches_open_true. split; reflexivity. }
  assert (Hm_no_yes : forall q, In q [no_pos] ->
                        matches_open (yes_token_id market) q = false).
  { intros q [<-|[]]. apply matches_open_false. intro E. cbn in E.
    congruence. }
  destruct (close_position_at (yes_token_id market) 1 (balance + total_profit)
              0%Z now t2 _ yes_pos [no_pos] Hps2 Hm_yes Hm_no_yes)
    as (ry & t3 & Hc3 & Hps3 & Hh3 & Hpnl3 & Hex3 & Hsd3 & Hw3 & Hl3).
  rewrite Hc3.
  assert (Hps3' : _positions t3
                  = (_positions (tracker e) ++ [mark_closed 1 now yes_pos])
                    ++ no_pos :: []).
  { rewrite Hps3, <- app_assoc. reflexivity. }
  assert (Hm_no : matches_open (no_token_id market) no_pos = true).
  { apply matches_open_true. split; reflexivity. }
  destruct (close_position_at (no_token_id market) 0 (balance + total_profit)
              0%Z now t3 _ no_pos [] Hps3' Hm_no
              (fun q (H : In q []) => match H with end))
    as (rn & t4 & Hc4 & Hps4 & Hh4 & Hpnl4 & Hex4 & Hsd4 & Hw4 & Hl4).
  rewrite Hc4.
  assert (Hywin : 0 <= pnl_usd ry).
  { rewrite Hpnl3, or_zero_Some. cbn [entry_price size yes_pos fst
      open_position]. nra. }
  assert (Hnloss : pnl_usd rn < 0).
  { rewrite Hpnl4, or_zero_Some. cbn [entry_price size no_pos fst
      open_position]. nra. }
  pose proof (proj2 (is_win_iff ry) Hywin) as Hyw.
  pose proof (proj2 (is_win_false_iff rn) Hnloss) as Hnw.
  rewrite Hyw in Hw3, Hl3. rewrite Hnw in Hw4, Hl4.
  exists ry, rn. cbn [tracker risk journal].
  unfold trade_history, consecutive_wins, consecutive_losses, open_positions.
  rewrite Hh4, Hh3, Hw4, Hl4, Hl3, Hps4.
  repeat split; auto.
  - rewrite <- app_assoc. reflexivity.
  - rewrite !filter_app. cbn. rewrite !app_nil_r. reflexivity.
Qed.

Lemma filled_pair_registers_trailing_loss_witness :
  exists yes_record no_record,
    let e' := track_pair config.default samples.market samples.both_filled
                (48 # 100) (1 # 2) 200 1000 2 7 samples.engine in
    trade_history (tracker e') = [yes_record; no_record]
    /\ 0 <= pnl_usd yes_record /\ pnl_usd no_record < 0
    /\ consecutive_wins (tracker e') = 0%Z
    /\ consecutive_losses (tracker e') = 1%Z.
Proof.
  destruct (filled_pair_registers_trailing_loss config.default
              samples.market samples.both_filled
              (48 # 100) (1 # 2) 200 1000 2 7 samples.engine)
    as (ry & rn & Hh & _ & _ & Hy & _ & _ & Hn & Hw & Hl & _);
    try reflexivity.
  - discriminate.
  - exists ry, rn. cbv zeta. repeat split; assumption.
Defined.

End sum_to_one_arb_facts.

(** ** BookAnalyzer *)

Module book_analyzer_facts.

Import book_analyzer.

Lemma Qsum_cons (x : Q) (l : list Q) : Qsum (x :: l) = x + Qsum l.
Proof. reflexivity. Qed.










End book_analyzer_facts.

(** ** RiskManager *)

Module risk_manager_facts.

Import position_tracker risk_manager.

(** Split on every test of a chain of [if]s and close the branches. *)
Ltac case_ifs :=
  repeat match goal with
         | |- context [if ?b then _ else _] => destruct b; cbn [fst]
         end; reflexivity.

Section WithConfig.

Variable cfg : config.t.

(** Dividing by a positive balance or multiplying the limit by it is the
    same test. *)
Lemma div_gate (limit x balance : Q) :
  0 < balance ->
  Qlt_bool limit (x / balance) = Qlt_bool (limit * balance) x.
Proof.
  intro Hb.
  destruct (Qlt_bool (limit * balance) x) eqn:E.
  - apply Qlt_bool_iff. apply Qlt_bool_iff in E.
    apply Qlt_shift_div_l; assumption.
  - apply Qlt_bool_false_iff. apply Qlt_bool_false_iff in E.
    apply Qle_shift_div_r; assumption.
Qed.

Lemma size_gates_guarded tracker trade balance now rm :
  size_gates cfg tracker trade balance
  = first_triggered
      (skipn 3 (gate_list cfg (Qlt_bool 0 balance) tracker trade balance
                  now rm)).
Proof.
  unfold size_gates, gate_list. cbn [skipn first_triggered].
  destruct (Qlt_bool 0 balance) eqn:Hb; cbn [andb].
  - apply Qlt_bool_iff in Hb. rewrite !(div_gate _ _ _ Hb).
    case_ifs.
  - case_ifs.
Qed.

Lemma after_cooldown_check_guarded tracker trade balance now rm now' rm' :
  _day_start_balance rm = _day_start_balance rm' ->
  _state rm = gate_state now' rm' ->
  fst (after_cooldown_check cfg tracker trade balance now rm)
  = first_triggered
      (skipn 1 (gate_list cfg (Qlt_bool 0 balance) tracker trade balance
                  now' rm')).
Proof.
  intros Hd Hs.
  unfold after_cooldown_check.
  rewrite (size_gates_guarded tracker trade balance now' rm').
  unfold gate_list. cbn [skipn first_triggered].
  unfold drawdown_hit, daily_drawdown. rewrite <- Hd, <- Hs.
  case_ifs.
Qed.

(** The result of [check_trade] is the first triggered gate of the
    guarded list, whatever the balance. *)
Lemma check_trade_guarded tracker trade balance now rm :
  fst (check_trade cfg tracker trade balance now rm)
  = guarded_check_trade cfg tracker trade balance now rm.
Proof.
  unfold check_trade, guarded_check_trade.
  cbn [_state with_last_known_balance _cooldown_until].
  destruct (_state rm) eqn:Hs.
  - rewrite (after_cooldown_check_guarded _ _ _ _ _ now rm); try reflexivity.
    + unfold gate_list, gate_state. rewrite Hs. reflexivity.
    + cbn. unfold gate_state. rewrite Hs. reflexivity.
  - destruct (Qlt_bool now (_cooldown_until rm)) eqn:Hc.
    + unfold gate_list, gate_state. rewrite Hs, Hc. reflexivity.
    + rewrite (after_cooldown_check_guarded _ _ _ _ _ now rm);
        try reflexivity.
      * unfold gate_list, gate_state. rewrite Hs, Hc. reflexivity.
      * cbn. unfold gate_state. rewrite Hs, Hc. reflexivity.
  - rewrite (after_cooldown_check_guarded _ _ _ _ _ now rm); try reflexivity.
    + unfold gate_list, gate_state. rewrite Hs. reflexivity.
    + cbn. unfold gate_state. rewrite Hs. reflexivity.
Qed.

(** *** Cooldown *)

Lemma check_trade_in_cooldown (c : Check) (rm : RiskManager) :
  _state rm = COOLDOWN ->
  ck_now c < _cooldown_until rm ->
  do_check cfg c rm
  = ((false, InCooldown (py_int (_cooldown_until rm - ck_now c))),
     with_last_known_balance (ck_balance c) rm).
Proof.
  intros Hs Hlt. unfold do_check, check_trade.
  cbn [_state with_last_known_balance _cooldown_until]. rewrite Hs.
  apply Qlt_bool_iff in Hlt. rewrite Hlt. reflexivity.
Qed.

Lemma check_trade_cooldown_expired (c : Check) (rm : RiskManager) :
  _state rm = COOLDOWN ->
  _cooldown_until rm <= ck_now c ->
  do_check cfg c rm
  = after_cooldown_check cfg (ck_tracker c) (ck_trade c) (ck_balance c)
      (ck_now c)
      (_enter_recovery cfg (with_last_known_balance (ck_balance c) rm)).
Proof.
  intros Hs Hle. unfold do_check, check_trade.
  cbn [_state with_last_known_balance _cooldown_until]. rewrite Hs.
  apply Qlt_bool_false_iff in Hle. rewrite Hle. reflexivity.
Qed.

Lemma check_trades_in_cooldown (cs : list Check) :
  forall rm,
    _state rm = COOLDOWN ->
    Forall (fun k => ck_now k < _cooldown_until rm) cs ->
    let rs := fst (check_trades cfg cs rm) in
    let rm1 := snd (check_trades cfg cs rm) in
    length rs = length cs
    /\ Forall (fun r => fst r = false /\ exists n, snd r = InCooldown n) rs
    /\ _state rm1 = COOLDOWN
    /\ _cooldown_until rm1 = _cooldown_until rm
    /\ _recovery_trades_remaining rm1 = _recovery_trades_remaining rm
    /\ _day_start_balance rm1 = _day_start_balance rm.
Proof.
  induction cs as [|c cs IH]; intros rm Hs Hall; cbn [check_trades].
  - cbn. repeat split; auto.
  - inversion Hall as [|c' cs' Hc Hcs]; subst.
    rewrite (check_trade_in_cooldown c rm Hs Hc).
    specialize (IH (with_last_known_balance (ck_balance c) rm) Hs Hcs).
    cbv zeta in IH.
    destruct (check_trades cfg cs
                (with_last_known_balance (ck_balance c) rm)) as [rs rm1].
    cbn [fst snd] in *.
    destruct IH as (Hlen & Hrs & Hs1 & Hu & Hr & Hd).
    repeat split; auto.
    + cbn. rewrite Hlen. reflexivity.
    + constructor; [|exact Hrs]. cbn. split; [reflexivity|eauto].
Qed.

Lemma do_other_keeps_cooldown (o : other_call) (rm : RiskManager) :
  _state rm = COOLDOWN -> _state (do_other cfg o rm) = COOLDOWN.
Proof.
  intro Hs. destruct o; cbn [do_other]; auto.
  unfold record_trade_completed. rewrite Hs. exact Hs.
Qed.

(** C1 (as the code has it).  From a manager in COOLDOWN, every
    [check_trade] before the deadline is rejected with the cooldown
    reason and leaves state, deadline, recovery count and day-start
    balance as they were.  The first call at or after the deadline
    behaves as the rest of [check_trade] run on the manager
    [_enter_recovery] produces, so it sets the recovery count to
    [RECOVERY_TRADE_COUNT]; it ends in RECOVERY, answering with the size
    gates, unless the daily-drawdown gate fires in that same call, in
    which case it is rejected and ends in COOLDOWN again for the base
    duration.  No other call of the public API takes a manager out of
    COOLDOWN. *)
Theorem cooldown_is_left_lazily (cs : list Check) (c : Check)
    (rm : RiskManager) :
  _state rm = COOLDOWN ->
  Forall (fun k => ck_now k < _cooldown_until rm) cs ->
  _cooldown_until rm <= ck_now c ->
  let rs := fst (check_trades cfg cs rm) in
  let rm1 := snd (check_trades cfg cs rm) in
  let r := fst (do_check cfg c rm1) in
  let rm2 := snd (do_check cfg c rm1) in
  (length rs = length cs
   /\ Forall (fun r => fst r = false /\ exists n, snd r = InCooldown n) rs
   /\ _state rm1 = COOLDOWN
   /\ _cooldown_until rm1 = _cooldown_until rm
   /\ _recovery_trades_remaining rm1 = _recovery_trades_remaining rm)
  /\ do_check cfg c rm1
     = after_cooldown_check cfg (ck_tracker c) (ck_trade c) (ck_balance c)
         (ck_now c)
         (_enter_recovery cfg (with_last_known_balance (ck_balance c) rm1))
  /\ _recovery_trades_remaining rm2 = config.RECOVERY_TRADE_COUNT cfg
  /\ (drawdown_hit cfg (ck_balance c) rm = false ->
      _state rm2 = RECOVERY
      /\ r = size_gates cfg (ck_tracker c) (ck_trade c) (ck_balance c))
  /\ (drawdown_hit cfg (ck_balance c) rm = true ->
      _state rm2 = COOLDOWN
      /\ r = (false, DailyDrawdown (daily_drawdown (ck_balance c) rm))
      /\ _cooldown_until rm2
         = ck_now c + inject_Z (cooldown_minutes cfg false * 60))
  /\ (forall o rm', _state rm' = COOLDOWN ->
        _state (do_other cfg o rm') = COOLDOWN).
Proof.
  intros Hs Hall Hle. cbv zeta.
  destruct (check_trades_in_cooldown cs rm Hs Hall)
    as (Hlen & Hrs & Hs1 & Hu & Hr & Hd).
  set (rm1 := snd (check_trades cfg cs rm)) in *.
  assert (Hle1 : _cooldown_until rm1 <= ck_now c) by (rewrite Hu; exact Hle).
  pose proof (check_trade_cooldown_expired c rm1 Hs1 Hle1) as Hexp.
  split; [repeat split; assumption|].
  split; [exact Hexp|].
  rewrite Hexp. unfold after_cooldown_check.
  cbn [_state _enter_recovery with_last_known_balance _day_start_balance
       RiskState_eqb negb andb].
  rewrite andb_false_r.
  unfold drawdown_hit, daily_drawdown. rewrite Hd.
  destruct (Qlt_bool 0 (_day_start_balance rm)
            && Qle_bool (config.MAX_DAILY_DRAWDOWN_PCT cfg)
                 ((_day_start_balance rm - ck_balance c)
                  / _day_start_balance rm)) eqn:Hit;
    cbn [fst snd _state _enter_cooldown _enter_recovery
         _recovery_trades_remaining _cooldown_until];
    (split; [reflexivity|]);
    (split; [intro H; try discriminate H; auto|]);
    (split; [intro H; try discriminate H; auto|]);
    apply do_other_keeps_cooldown.
Qed.

(** *** Recovery *)





(** *** Gate order *)


End WithConfig.

Lemma cooldown_is_left_lazily_witness :
  let cs := [samples.check_at 90 10; samples.check_at 95 1799] in
  let c := samples.check_at 100 1800 in
  let rs := fst (check_trades config.default cs samples.cooling) in
  let rm1 := snd (check_trades config.default cs samples.cooling) in
  let rm2 := snd (do_check config.default c rm1) in
  _state samples.cooling = COOLDOWN
  /\ Forall (fun r => fst r = false /\ exists n, snd r = InCooldown n) rs
  /\ _state rm1 = COOLDOWN
  /\ _recovery_trades_remaining rm2 = 5%Z
  /\ _state rm2 = RECOVERY.
Proof.
  cbv zeta.
  assert (Hs : _state samples.cooling = COOLDOWN) by reflexivity.
  assert (Hall : Forall (fun k => ck_now k < _cooldown_until samples.cooling)
                   [samples.check_at 90 10; samples.check_at 95 1799])
    by (repeat constructor).
  assert (Hle : _cooldown_until samples.cooling
                <= ck_now (samples.check_at 100 1800))
    by (vm_compute; discriminate).
  destruct (cooldown_is_left_lazily config.default _ _ _ Hs Hall Hle)
    as ((_ & Hrs & Hs1 & _) & _ & Hcount & Hrec & _).
  assert (Hno : drawdown_hit config.default
                  (ck_balance (samples.check_at 100 1800)) samples.cooling
                = false) by reflexivity.
  destruct (Hrec Hno) as [Hs2 _].
  repeat split; assumption.
Defined.

(** C1 as stated fails when the drawdown persists: a manager put in
    cooldown by a 10% drawdown is checked again at the deadline with the
    same balance, and is in COOLDOWN, not RECOVERY, after that call. *)
Lemma cooldown_reentered_on_expiry :
  _state samples.cooling = COOLDOWN
  /\ _cooldown_until samples.cooling <= 1800
  /\ _state (snd (check_trade config.default position_tracker.init
                    samples.request 90 1800 samples.cooling))
     <> RECOVERY.
Proof.
  split; [reflexivity|]. split; [vm_compute; discriminate|].
  vm_compute. discriminate.
Qed.




End risk_manager_facts.

(** ** Resolution arbitrage: price confirmation *)

Module resolution_arb_facts.

Import resolution_arb.

(** With one endpoint silent, the other endpoint's non-zero price is
    returned as it is. *)
Lemma single_source_fallback (p : Q) :
  truthy p = true ->
  _get_btc_price_confirmed (Some p) None = Some p
  /\ _get_btc_price_confirmed None (Some p) = Some p.
Proof.
  intro Hp. unfold _get_btc_price_confirmed, py_or. rewrite Hp. auto.
Qed.

(** With both endpoints answering non-zero prices, the result is their
    average when they differ by less than 0.5% of the larger, and
    nothing otherwise. *)
Lemma two_sources (cg bn : Q) :
  truthy cg = true -> truthy bn = true ->
  _get_btc_price_confirmed (Some cg) (Some bn)
  = if Qlt_bool (Qabs (cg - bn) / py_max cg bn) (5 # 1000)
    then Some ((cg + bn) / 2) else None.
Proof.
  intros Hc Hb. unfold _get_btc_price_confirmed. rewrite Hc, Hb.
  reflexivity.
Qed.

(** C6, the code at the failing input.  With CoinGecko answering 60000
    and Binance not answering (and the other way round),
    [_get_btc_price_confirmed] returns 60000 and the strategy goes on
    with the market; two answers 1% apart give nothing. *)
Theorem single_oracle_price_is_used :
  _get_btc_price_confirmed (Some 60000) None = Some 60000
  /\ _get_btc_price_confirmed None (Some 60000) = Some 60000
  /\ acts_on_price (Some 60000) None = true
  /\ _get_btc_price_confirmed (Some 60000) (Some 60600) = None.
Proof. repeat split; reflexivity. Qed.

End resolution_arb_facts.

(** ** New-market sniper: classification *)

Module new_market_sniper_facts.

Import new_market_sniper.




End new_market_sniper_facts.

(** ** OrderManager: timeout with one leg filled *)

Module order_manager_facts.

Import order_manager.

Section WithClient.

Variable cfg : config.t.
Variable client : Client.

(** [_recover_filled_leg] returns nothing and leaves the ticket alone,
    so the pair [_monitor_arb_fills] hands back after a YES-only timeout
    is the same whether or not the recovery sell filled. *)
Lemma on_timeout_yes_only (placed : PairedArbOrder) (now : Q) (w : World) :
  fst (on_timeout cfg client true false placed now w)
  = {| yes_leg := with_status filled (yes_leg placed);
       no_leg :=
         with_status cancelled
           (fst (_cancel_if_submitted client (no_leg placed) w)) |}.
Proof.
  unfold on_timeout. cbn [andb negb].
  destruct (_cancel_if_submitted client (no_leg placed) w) as [no1 w1].
  reflexivity.
Qed.

Lemma on_timeout_no_only (placed : PairedArbOrder) (now : Q) (w : World) :
  fst (on_timeout cfg client false true placed now w)
  = {| yes_leg :=
         with_status cancelled
           (fst (_cancel_if_submitted client (yes_leg placed) w));
       no_leg := with_status filled (no_leg placed) |}.
Proof.
  unfold on_timeout. cbn [andb negb].
  destruct (_cancel_if_submitted client (yes_leg placed) w) as [yes1 w1].
  reflexivity.
Qed.

End WithClient.

End order_manager_facts.

(** ** Paired order: what the ledger holds after a one-leg timeout *)

Module paired_order_facts.

Import position_tracker order_manager sum_to_one_arb.

(** With YES reported filled and NO not, the strategy opens the YES
    position and does nothing else to the ledger. *)
Lemma track_pair_yes_only (cfg : config.t) (market : MarketInfo)
    (placed : PairedArbOrder)
    (yes_price no_price shares balance total_profit now : Q) (e : Engine) :
  status (yes_leg placed) = filled ->
  status (no_leg placed) <> filled ->
  tracker (track_pair cfg market placed yes_price no_price shares balance
             total_profit now e)
  = snd (open_position (yes_token_id market) (condition_id market)
           (question market) "YES" yes_price shares STRATEGY_NAME now
           (tracker e)).
Proof.
  intros Hy Hn. unfold track_pair. rewrite Hy.
  destruct (status (no_leg placed)); try congruence; reflexivity.
Qed.

(** C5, the code at the failing input.  Live mode, 15 polls before the
    deadline; the venue accepts all orders, reports the YES buy as no
    longer open and the NO buy as open throughout, and reports the
    recovery sell as no longer open (filled).  The NO leg is cancelled at
    the venue and a SELL of the YES token is submitted at the entry price
    0.48 for the 200 shares; no recovery warning is raised.  The pair
    comes back as (filled, cancelled), and the ledger ends with one open
    YES position of cost basis 96 for this market, the same ledger as
    when the recovery sell does not fill. *)
Theorem recovered_leg_stays_on_ledger :
  let run_with venue :=
    execute_pair config.live venue 15 samples.market (48 # 100) (1 # 2) 200
      1000 2 7 world0 samples.engine in
  let placed := fst (fst (run_with samples.venue_sell_fills)) in
  let w := snd (fst (run_with samples.venue_sell_fills)) in
  let e' := snd (run_with samples.venue_sell_fills) in
  status (yes_leg placed) = filled
  /\ status (no_leg placed) = cancelled
  /\ skipn 2 (events w)
     = [ CancelSent "BUY-tok-n" true;
         OrderSubmitted "tok-y" "SELL" (48 # 100) 200 "SELL-tok-y" ]
  /\ map position_tracker.token_id (residual samples.market (tracker e'))
     = ["tok-y"%string]
  /\ map cost_basis (residual samples.market (tracker e'))
     = [(48 # 100) * 200]
  /\ tracker e' = tracker (snd (run_with samples.venue_sell_open))
  /\ events (snd (fst (run_with samples.venue_sell_open)))
     = events w ++ [RecoverySellNotFilled "tok-y"].
Proof. vm_compute. repeat split; reflexivity. Qed.

End paired_order_facts.

(** ** BookAnalyzer: depth, price bounds and liquidity *)

Module book_depth_facts.

Import book_analyzer book_analyzer_facts.





Lemma py_min_cases (a b : Q) :
  (b < a /\ py_min a b = b) \/ (a <= b /\ py_min a b = a).
Proof.
  unfold py_min. destruct (Qlt_bool b a) eqn:E.
  - left. apply Qlt_bool_iff in E. auto.
  - right. apply Qlt_bool_false_iff in E. auto.
Qed.


























End book_depth_facts.

(** ** PositionTracker: exposure, accounting and history *)

Module ledger_facts.

Import position_tracker position_tracker_facts sum_to_one_arb_facts.

Local Abbreviation Qsum := book_analyzer.Qsum.

Lemma Qsum_nil : Qsum [] = 0.
Proof. reflexivity. Qed.

Lemma fold_left_Qplus (l : list Q) :
  forall a, fold_left Qplus l a == a + Qsum l.
Proof.
  induction l as [|x l IH]; intro a; cbn [fold_left].
  - rewrite Qsum_nil. lra.
  - rewrite IH, book_analyzer_facts.Qsum_cons. lra.
Qed.




Lemma total_exposure_sum (t : PositionTracker) :
  total_exposure t == Qsum (map cost_basis (filter is_open (_positions t))).
Proof. unfold total_exposure. rewrite fold_left_Qplus. lra. Qed.

Lemma strategy_exposure_sum (strat : string) (t : PositionTracker) :
  strategy_exposure strat t
  == Qsum (map cost_basis
             (filter (fun p => is_open p && String.eqb (strategy p) strat)
                (_positions t))).
Proof. unfold strategy_exposure. rewrite fold_left_Qplus. lra. Qed.

Lemma is_open_mark_closed (exit now : Q) (p : Position) :
  is_open (mark_closed exit now p) = false.
Proof. reflexivity. Qed.

(** A successful close, with the position it found. *)
Lemma close_position_inv tok exit bal ph now t r t' :
  close_position tok exit bal ph now t = (Some r, t') ->
  exists i pos,
    nth_error (_positions t) i = Some pos
    /\ token_id pos = tok /\ is_open pos = true
    /\ _positions t' = update_nth i (mark_closed exit now) (_positions t)
    /\ _trade_history t' = _trade_history t ++ [r]
    /\ size_usd r = cost_basis pos /\ tr_strategy r = strategy pos
    /\ tr_entry_price r = entry_price pos
    /\ pnl_usd r == (exit - entry_price pos) * size pos.
Proof.
  intro Hc.
  destruct (close_position_cases tok exit bal ph now t)
    as [[_ Hnone] | (i & pos & r1 & t1 & Hf & Hp & _)]; [congruence|].
  destruct (find_last_Some _ _ _ Hf) as (pos' & Hp' & Hm & _).
  rewrite Hp in Hp'. injection Hp' as <-.
  apply matches_open_true in Hm. destruct Hm as [Htok Hopen].
  destruct (close_position_found tok exit bal ph now t i pos Hf Hp)
    as (r0 & t0 & Hc0 & Hps & Hh & Hpnl & _ & Hen & Hst & _ & _ & Hsz & _).
  rewrite Hc in Hc0. injection Hc0 as <- <-.
  exists i, pos. repeat split; auto.
  rewrite Hpnl. apply or_zero_Some.
Qed.



Lemma count_update (f : Position -> bool) (g : Position -> Position)
    (l : list Position) :
  forall i pos,
    nth_error l i = Some pos -> f pos = true -> f (g pos) = false ->
    S (length (filter f (update_nth i g l))) = length (filter f l).
Proof.
  induction l as [|x l IH]; intros [|i] pos Hn Hf Hg; cbn in Hn;
    try discriminate.
  - injection Hn as ->. cbn [update_nth filter]. rewrite Hf, Hg. reflexivity.
  - cbn [update_nth filter].
    destruct (f x); cbn [length]; rewrite <- (IH i pos Hn Hf Hg); reflexivity.
Qed.

(** X7.  A successful close takes exactly one position out of the open
    ones and adds exactly one trade record; an open adds one open
    position.  So on every ledger built from a fresh one the number of
    positions is the number of open positions plus the number of trade
    records: every closed position has its record. *)
Theorem every_closed_position_has_a_record :
  (forall tok exit bal ph now t r t',
     close_position tok exit bal ph now t = (Some r, t') ->
     S (length (open_positions t')) = length (open_positions t)
     /\ length (trade_history t') = S (length (trade_history t))
     /\ length (_positions t') = length (_positions t))
  /\ (forall ops,
     length (_positions (run ops))
     = (length (open_positions (run ops))
        + length (trade_history (run ops)))%nat).
Proof.
  assert (Hclose : forall tok exit bal ph now t r t',
     close_position tok exit bal ph now t = (Some r, t') ->
     S (length (open_positions t')) = length (open_positions t)
     /\ length (trade_history t') = S (length (trade_history t))
     /\ length (_positions t') = length (_positions t)).
  { intros tok exit bal ph now t r t' Hc.
    destruct (close_position_inv _ _ _ _ _ _ _ _ Hc)
      as (i & pos & Hn & _ & Hopen & Hps & Hh & _).
    unfold open_positions, trade_history. rewrite Hps, Hh.
    split; [apply (count_update is_open _ _ i pos); auto|].
    split; [rewrite length_app; cbn; lia|apply update_nth_length]. }
  split; [exact Hclose|].
  intro ops. unfold run.
  assert (Hinv : forall l t,
            length (_positions t)
            = (length (open_positions t) + length (trade_history t))%nat ->
            length (_positions (fold_left step l t))
            = (length (open_positions (fold_left step l t))
               + length (trade_history (fold_left step l t)))%nat).
  { induction l as [|o l IH]; intros t Ht; cbn [fold_left]; [exact Ht|].
    apply IH. destruct o as [tok mkt q sd price sz strat now
                            |tok exit bal ph now]; cbn [step].
    - unfold open_positions, trade_history in *. cbn.
      rewrite filter_app, !length_app. cbn. lia.
    - destruct (close_position tok exit bal ph now t) as [[r|] t'] eqn:Hc.
      + destruct (Hclose _ _ _ _ _ _ _ _ Hc) as (H1 & H2 & H3).
        cbn [snd]. lia.
      + destruct (close_position_cases tok exit bal ph now t)
          as [[_ Hnone] | (i & p & r1 & t1 & _ & _ & Hsome)];
          [|congruence].
        rewrite Hc in Hnone. injection Hnone as ->. exact Ht. }
  apply Hinv. reflexivity.
Qed.

Lemma every_closed_position_has_a_record_witness :
  exists r t',
    close_position "tok-a" 1 100 0%Z 9 samples.ledger = (Some r, t')
    /\ length (open_positions t') = 2%nat
    /\ length (trade_history t') = 1%nat.
Proof.
  eexists. eexists. split; [vm_compute; reflexivity|].
  match goal with
  | |- length (open_positions ?t') = _ /\ _ =>
      destruct (proj1 every_closed_position_has_a_record
                  "tok-a"%string 1 100 0%Z 9 samples.ledger _ t' eq_refl)
        as (H1 & H2 & _)
  end.
  assert (H3 : length (open_positions samples.ledger) = 3%nat)
    by reflexivity.
  split; [lia|rewrite H2; reflexivity].
Defined.

(** A position opened and closed at once. *)
Lemma open_close_round_trip tok mkt question sd price sz strat now
    exit bal ph now' t :
  let t1 := snd (open_position tok mkt question sd price sz strat now t) in
  exists r t2,
    close_position tok exit bal ph now' t1 = (Some r, t2)
    /\ tr_entry_price r = price /\ tr_exit_price r = exit
    /\ tr_strategy r = strat /\ tr_side r = sd
    /\ pnl_usd r == (exit - price) * sz
    /\ open_positions t2 = open_positions t
    /\ total_exposure t2 = total_exposure t
    /\ trade_history t2 = trade_history t ++ [r].
Proof.
  cbv zeta.
  set (pos := fst (open_position tok mkt question sd price sz strat now t)).
  set (t1 := snd (open_position tok mkt question sd price sz strat now t)).
  assert (Hps : _positions t1 = _positions t ++ pos :: []) by reflexivity.
  assert (Hm : matches_open tok pos = true).
  { apply matches_open_true. split; reflexivity. }
  destruct (close_position_at tok exit bal ph now' t1 _ pos [] Hps Hm
              (fun q (H : In q []) => match H with end))
    as (r & t2 & Hc & Hps2 & Hh & Hpnl & Hex & Hsd & _).
  destruct (close_position_inv _ _ _ _ _ _ _ _ Hc)
    as (i & pos' & Hn & _ & _ & _ & _ & _ & Hst & Hen & _).
  exists r, t2.
  assert (Hopen : open_positions t2 = open_positions t).
  { unfold open_positions. rewrite Hps2, filter_app. cbn.
    apply app_nil_r. }
  repeat split; auto.
  - pose proof (close_position_found tok exit bal ph now' t1) as Hfound.
    destruct (close_position_cases tok exit bal ph now' t1)
      as [[_ Hnone] | (j & p & r1 & tt & Hf & Hp & Hsome)]; [congruence|].
    destruct (Hfound j p Hf Hp)
      as (r0 & t0 & Hc0 & _ & _ & _ & _ & Hen0 & _).
    rewrite Hc in Hc0. injection Hc0 as <- <-.
    assert (Hj : j = length (_positions t)).
    { unfold _find_open in Hf. rewrite Hps, find_last_snoc, Hm in Hf.
      congruence. }
    subst j. rewrite Hps, nth_error_middle in Hp. injection Hp as <-.
    exact Hen0.
  - pose proof (close_position_found tok exit bal ph now' t1) as Hfound.
    destruct (close_position_cases tok exit bal ph now' t1)
      as [[_ Hnone] | (j & p & r1 & tt & Hf & Hp & Hsome)]; [congruence|].
    destruct (Hfound j p Hf Hp)
      as (r0 & t0 & Hc0 & _ & _ & _ & _ & _ & Hst0 & _).
    rewrite Hc in Hc0. injection Hc0 as <- <-.
    assert (Hj : j = length (_positions t)).
    { unfold _find_open in Hf. rewrite Hps, find_last_snoc, Hm in Hf.
      congruence. }
    subst j. rewrite Hps, nth_error_middle in Hp. injection Hp as <-.
    exact Hst0.
  - rewrite Hpnl, or_zero_Some. reflexivity.
  - unfold total_exposure. fold (open_positions t2).
    fold (open_positions t). rewrite Hopen. reflexivity.
Qed.

(** X8.  Opening a position and then closing its token returns the
    record of that very position: entry price, strategy and side as
    opened, PnL [(exit - entry) * size].  The open positions (hence
    total exposure) are those from before the pair of calls, and the
    trade history has gained that one record. *)
Theorem open_then_close_round_trip tok mkt question sd price sz strat now
    exit bal ph now' t :
  let t1 := snd (open_position tok mkt question sd price sz strat now t) in
  exists r t2,
    close_position tok exit bal ph now' t1 = (Some r, t2)
    /\ tr_entry_price r = price /\ tr_exit_price r = exit
    /\ tr_strategy r = strat /\ tr_side r = sd
    /\ pnl_usd r == (exit - price) * sz
    /\ open_positions t2 = open_positions t
    /\ total_exposure t2 = total_exposure t
    /\ trade_history t2 = trade_history t ++ [r].
Proof. apply open_close_round_trip. Qed.

Lemma step_position (t : PositionTracker) (o : op) :
  forall i p,
    nth_error (_positions t) i = Some p ->
    exists p',
      nth_error (_positions (step t o)) i = Some p'
      /\ same_entry p p'
      /\ (is_open p = false -> p' = p).
Proof.
  intros i p Hn.
  assert (Hsame : same_entry p p) by (repeat split).
  destruct o as [tok mkt q sd price sz strat now|tok exit bal ph now];
    cbn [step].
  - exists p. split; [|auto]. cbn.
    rewrite nth_error_app1; [exact Hn|].
    apply nth_error_Some. congruence.
  - destruct (close_position tok exit bal ph now t) as [[r|] t'] eqn:Hc.
    + destruct (close_position_inv _ _ _ _ _ _ _ _ Hc)
        as (j & pos & Hj & _ & Hopen & Hps & _).
      cbn [snd]. rewrite Hps.
      destruct (Nat.eq_dec j i) as [->|Hne].
      * rewrite Hn in Hj. injection Hj as <-.
        exists (mark_closed exit now p).
        split; [apply update_nth_same; exact Hn|].
        split; [repeat split|]. congruence.
      * exists p. rewrite update_nth_other by exact Hne. auto.
    + destruct (close_position_cases tok exit bal ph now t)
        as [[_ Hnone] | (j & q & r1 & t1 & _ & _ & Hsome)]; [|congruence].
      rewrite Hc in Hnone. injection Hnone as ->. exists p. auto.
Qed.

Lemma step_history (t : PositionTracker) (o : op) :
  exists newer, trade_history (step t o) = trade_history t ++ newer.
Proof.
  destruct o as [tok mkt q sd price sz strat now|tok exit bal ph now];
    cbn [step].
  - exists []. cbn. symmetry. apply app_nil_r.
  - destruct (close_position tok exit bal ph now t) as [[r|] t'] eqn:Hc.
    + destruct (close_position_inv _ _ _ _ _ _ _ _ Hc)
        as (j & pos & _ & _ & _ & _ & Hh & _).
      exists [r]. exact Hh.
    + destruct (close_position_cases tok exit bal ph now t)
        as [[_ Hnone] | (j & q & r1 & t1 & _ & _ & Hsome)]; [|congruence].
      rewrite Hc in Hnone. injection Hnone as ->.
      exists []. symmetry. apply app_nil_r.
Qed.

(** X9.  The ledger only grows.  Whatever opens and closes follow, the
    trade history keeps its records as a prefix; every position stays
    at its index with the token, market, side, entry price, size,
    strategy and open time it was opened with; and a position that is
    closed stays exactly as it is (exit price and close time
    included): nothing is reopened, rewritten or removed. *)
Theorem ledger_only_grows (ops : list op) (t : PositionTracker) :
  let t' := fold_left step ops t in
  (exists newer, trade_history t' = trade_history t ++ newer)
  /\ (forall i p,
        nth_error (_positions t) i = Some p ->
        exists p',
          nth_error (_positions t') i = Some p'
          /\ same_entry p p'
          /\ (is_open p = false -> p' = p)).
Proof.
  revert t. induction ops as [|o ops IH]; intro t; cbn [fold_left].
  - split; [exists []; symmetry; apply app_nil_r|].
    intros i p Hn. exists p. repeat split; auto.
  - destruct (IH (step t o)) as [[newer Hh] Hpos]. cbv zeta. split.
    + destruct (step_history t o) as [n1 Hn1].
      exists (n1 ++ newer). rewrite Hh, Hn1, app_assoc. reflexivity.
    + intros i p Hn.
      destruct (step_position t o i p Hn) as (p1 & Hn1 & Hs1 & Hc1).
      destruct (Hpos i p1 Hn1) as (p2 & Hn2 & Hs2 & Hc2).
      exists p2. split; [exact Hn2|]. split.
      * unfold same_entry in *. intuition congruence.
      * intro Hcl. specialize (Hc1 Hcl). subst p1. auto.
Qed.

Lemma ledger_only_grows_witness :
  let t := snd (close_position "tok-b" 0 100 0%Z 9 samples.ledger) in
  let t' := fold_left step
              [Close "tok-b" 1 100 0%Z 10; Close "tok-a" 1 100 0%Z 11] t in
  exists closed,
    nth_error (_positions t) 2 = Some closed /\ is_open closed = false
    /\ nth_error (_positions t') 2 = Some closed.
Proof.
  cbv zeta.
  destruct (ledger_only_grows
              [Close "tok-b" 1 100 0%Z 10; Close "tok-a" 1 100 0%Z 11]
              (snd (close_position "tok-b" 0 100 0%Z 9 samples.ledger)))
    as [_ Hpos].
  destruct (Hpos 2%nat _ eq_refl) as (p' & Hn' & _ & Hsame).
  eexists. split; [reflexivity|]. split; [reflexivity|].
  rewrite Hn'. f_equal. apply Hsame. reflexivity.
Defined.

Lemma strategy_filter_le (f g : Position -> bool) (l : list Position) :
  Forall (fun p => 0 <= cost_basis p) (filter f l) ->
  Qsum (map cost_basis (filter (fun p => f p && g p) l))
  <= Qsum (map cost_basis (filter f l))
  /\ (length (filter (fun p => f p && g p) l) <= length (filter f l))%nat.
Proof.
  induction l as [|x l IH]; cbn [filter]; intro H.
  - cbn [map length]. rewrite Qsum_nil. split; [lra|lia].
  - destruct (f x) eqn:Fx; cbn [andb].
    + inversion H as [|y ys Hx Hrest]; subst.
      destruct (IH Hrest) as [IH1 IH2].
      destruct (g x); cbn [map length];
        rewrite ?book_analyzer_facts.Qsum_cons; split; try lra; lia.
    + exact (IH H).
Qed.

(** X10.  When no open position has a negative cost basis, the exposure
    of any one strategy is at most the total exposure, and its count of
    open positions at most the number of open positions: the
    per-strategy figures the risk gates read never exceed the totals. *)
Theorem strategy_exposure_within_total (strat : string)
    (t : PositionTracker) :
  Forall (fun p => 0 <= cost_basis p) (open_positions t) ->
  strategy_exposure strat t <= total_exposure t
  /\ (strategy_position_count strat t <= length (open_positions t))%nat.
Proof.
  intro H.
  destruct (strategy_filter_le is_open
              (fun p => String.eqb (strategy p) strat) (_positions t) H)
    as [H1 H2].
  rewrite strategy_exposure_sum, total_exposure_sum. split; assumption.
Qed.

Lemma strategy_exposure_within_total_witness :
  strategy_exposure "sum_to_one_arb" samples.ledger
  <= total_exposure samples.ledger
  /\ (strategy_position_count "sum_to_one_arb" samples.ledger
      <= length (open_positions samples.ledger))%nat.
Proof.
  apply (strategy_exposure_within_total "sum_to_one_arb" samples.ledger).
  repeat constructor; vm_compute; discriminate.
Defined.

Lemma Forall_impl_iff (trades : list TradeRecord) :
  Forall (fun r => is_win r = true) trades
  <-> Forall (fun r => 0 <= pnl_usd r) trades.
Proof.
  split; intro H; eapply Forall_impl; try exact H;
    intros r Hr; apply is_win_iff; exact Hr.
Qed.

Lemma Forall_impl_iff_loss (trades : list TradeRecord) :
  Forall (fun r => is_win r = false) trades
  <-> Forall (fun r => pnl_usd r < 0) trades.
Proof.
  split; intro H; eapply Forall_impl; try exact H;
    intros r Hr; apply is_win_false_iff; exact Hr.
Qed.

Lemma filter_length_all {A} (f : A -> bool) (l : list A) :
  length (filter f l) = length l <-> Forall (fun x => f x = true) l.
Proof.
  induction l as [|x l IH]; cbn [filter length].
  - split; [constructor|reflexivity].
  - pose proof (filter_length_le f l) as Hle.
    destruct (f x) eqn:Fx; cbn [length].
    + split.
      * intro H. constructor; [exact Fx|]. apply IH. lia.
      * intro H. inversion H; subst. f_equal. apply IH. assumption.
    + split; [lia|]. intro H. inversion H; subst. congruence.
Qed.

Lemma filter_length_none {A} (f : A -> bool) (l : list A) :
  length (filter f l) = O <-> Forall (fun x => f x = false) l.
Proof.
  induction l as [|x l IH]; cbn [filter length].
  - split; [constructor|reflexivity].
  - destruct (f x) eqn:Fx; cbn [length].
    + split; [discriminate|]. intro H. inversion H; subst. congruence.
    + rewrite IH. split; [constructor; assumption|].
      intro H. inversion H; assumption.
Qed.

Lemma inject_nat_pos (n : nat) : (0 < n)%nat -> 0 < inject_Z (Z.of_nat n).
Proof.
  intro H. change 0 with (inject_Z 0). rewrite <- Zlt_Qlt. lia.
Qed.

Lemma inject_nat_le (a b : nat) :
  (a <= b)%nat -> inject_Z (Z.of_nat a) <= inject_Z (Z.of_nat b).
Proof. intro H. rewrite <- Zle_Qle. lia. Qed.

(** The rate as [wins / n] over a non-empty list of trades. *)
Lemma strategy_win_rate_value (strat : string) (t : PositionTracker) :
  let trades := strategy_trade_history strat t in
  (trades = [] /\ strategy_win_rate strat t = None)
  \/ ((0 < length trades)%nat
      /\ strategy_win_rate strat t
         = Some (inject_Z (Z.of_nat (length (filter is_win trades)))
                 / inject_Z (Z.of_nat (length trades)))).
Proof.
  cbv zeta. unfold strategy_win_rate.
  destruct (strategy_trade_history strat t) as [|r rest] eqn:E.
  - left. auto.
  - right. split; [cbn; lia|reflexivity].
Qed.

(** X11.  [strategy_win_rate] is [None] exactly when the strategy has no
    trade record.  Otherwise it is a fraction between 0 and 1, equal to
    1 exactly when none of the strategy's trades has negative PnL and to
    0 exactly when all of them have. *)
Theorem strategy_win_rate_is_a_fraction (strat : string)
    (t : PositionTracker) :
  (strategy_win_rate strat t = None <-> strategy_trade_history strat t = [])
  /\ (forall w, strategy_win_rate strat t = Some w ->
        0 <= w /\ w <= 1
        /\ (w == 1 <-> Forall (fun r => 0 <= pnl_usd r)
                         (strategy_trade_history strat t))
        /\ (w == 0 <-> Forall (fun r => pnl_usd r < 0)
                         (strategy_trade_history strat t))).
Proof.
  destruct (strategy_win_rate_value strat t) as [[He Hn]|[Hpos Hs]];
    cbv zeta in *.
  - rewrite Hn, He. split; [tauto|discriminate].
  - rewrite Hs. split.
    + split; [discriminate|]. intro He. rewrite He in Hpos. cbn in Hpos. lia.
    + intros w Hw. injection Hw as <-.
      set (trades := strategy_trade_history strat t) in *.
      pose proof (inject_nat_pos _ Hpos) as Hn.
      pose proof (inject_nat_le _ _ (filter_length_le is_win trades)) as Hle.
      pose proof (inject_nat_le 0 (length (filter is_win trades))
                    ltac:(lia)) as Hge.
      change (inject_Z (Z.of_nat 0)) with 0 in Hge.
      split; [apply Qle_shift_div_l; [exact Hn|lra]|].
      split; [apply Qle_shift_div_r; [exact Hn|lra]|].
      assert (Hone : inject_Z (Z.of_nat (length (filter is_win trades)))
                     / inject_Z (Z.of_nat (length trades)) == 1
                     <-> length (filter is_win trades) = length trades).
      { split; intro H.
        - assert (Heq : inject_Z (Z.of_nat (length (filter is_win trades)))
                        == inject_Z (Z.of_nat (length trades))).
          { apply Qle_antisym; [exact Hle|].
            rewrite <- (Qmult_1_l (inject_Z (Z.of_nat (length trades)))).
            rewrite <- H. unfold Qdiv. rewrite <- Qmult_assoc.
            rewrite (Qmult_comm (/ _)), Qmult_inv_r by lra. lra. }
          rewrite inject_Z_injective in Heq. lia.
        - rewrite H. unfold Qdiv. apply Qmult_inv_r. lra. }
      assert (Hzero : inject_Z (Z.of_nat (length (filter is_win trades)))
                      / inject_Z (Z.of_nat (length trades)) == 0
                      <-> length (filter is_win trades) = O).
      { split; intro H.
        - assert (Heq : inject_Z (Z.of_nat (length (filter is_win trades)))
                        == inject_Z 0).
          { apply Qle_antisym; [|exact Hge].
            rewrite <- (Qmult_0_l (inject_Z (Z.of_nat (length trades)))).
            rewrite <- H. unfold Qdiv. rewrite <- Qmult_assoc.
            rewrite (Qmult_comm (/ _)), Qmult_inv_r by lra. lra. }
          rewrite inject_Z_injective in Heq. lia.
        - rewrite H. reflexivity. }
      split.
      * rewrite Hone, filter_length_all. apply Forall_impl_iff.
      * rewrite Hzero, filter_length_none. apply Forall_impl_iff_loss.
Qed.

Lemma strategy_win_rate_is_a_fraction_witness :
  exists w,
    strategy_win_rate "directional_engine" samples.losing_ledger = Some w
    /\ 0 <= w /\ w <= 1 /\ w == 9 # 20.
Proof.
  eexists. split; [reflexivity|].
  match goal with
  | |- 0 <= ?w /\ _ =>
      destruct (proj2 (strategy_win_rate_is_a_fraction "directional_engine"
                         samples.losing_ledger) w eq_refl)
        as (H0 & H1 & _)
  end.
  split; [exact H0|]. split; [exact H1|]. vm_compute. reflexivity.
Defined.

End ledger_facts.

(** ** Directional engine: auto-disable and sizing *)

Module directional_engine_facts.

Import position_tracker directional_engine.

Section WithConfig.

Variable cfg : config.t.
Variable rest : config.rest.

(** Comparing a ratio with a limit, or the numerator with the limit
    times a positive denominator, is the same test. *)
Lemma ratio_below (x n limit : Q) :
  0 < n -> Qlt_bool (x / n) limit = Qlt_bool x (limit * n).
Proof.
  intro Hn. destruct (Qlt_bool x (limit * n)) eqn:E.
  - apply Qlt_bool_iff. apply Qlt_bool_iff in E.
    apply Qlt_shift_div_r; assumption.
  - apply Qlt_bool_false_iff. apply Qlt_bool_false_iff in E.
    apply Qle_shift_div_l; assumption.
Qed.

(** X12.  With [n] trade records of the directional strategy, [w] of
    them with non-negative PnL, and a minimum sample of at least 1, the
    check sets the flag exactly when it was set already or
    [n >= DIRECTIONAL_MIN_SAMPLE] and
    [w < DIRECTIONAL_AUTO_DISABLE_WINRATE * n]; records of other
    strategies do not count.  The check never clears the flag, and a
    scan that starts with the flag set stops at once.  A scan that
    starts with the flag clear goes on to the markets whenever the open
    directional positions are below the limit, also when this very
    check sets the flag. *)
Theorem auto_disable_rule (tracker : PositionTracker) (disabled : bool) :
  let trades := strategy_trade_history STRATEGY_NAME tracker in
  let n := Z.of_nat (length trades) in
  let w := Z.of_nat (length (filter is_win trades)) in
  (1 <= config.DIRECTIONAL_MIN_SAMPLE rest)%Z ->
  _check_auto_disable rest tracker disabled
  = disabled
    || ((config.DIRECTIONAL_MIN_SAMPLE rest <=? n)%Z
        && Qlt_bool (inject_Z w)
             (config.DIRECTIONAL_AUTO_DISABLE_WINRATE rest * inject_Z n))
  /\ _check_auto_disable rest tracker true = true
  /\ scan_head rest tracker true = (true, false)
  /\ scan_head rest tracker false
     = (_check_auto_disable rest tracker false,
        negb (config.MAX_CONCURRENT_DIRECTIONAL rest
              <=? Z.of_nat (strategy_position_count STRATEGY_NAME tracker))%Z).
Proof.
  cbv zeta. intro Hmin.
  assert (Hkeep : _check_auto_disable rest tracker true = true).
  { unfold _check_auto_disable.
    destruct (_ <? _)%Z; [reflexivity|].
    destruct (strategy_win_rate STRATEGY_NAME tracker) as [w|];
      [destruct (Qlt_bool _ _)|]; reflexivity. }
  split; [|split; [exact Hkeep|split; [reflexivity|]]].
  - unfold _check_auto_disable.
    destruct (ledger_facts.strategy_win_rate_value STRATEGY_NAME tracker)
      as [[He Hn]|[Hpos Hs]]; cbv zeta in *.
    + rewrite He, Hn. cbn [length].
      destruct (Z.ltb_spec (Z.of_nat 0) (config.DIRECTIONAL_MIN_SAMPLE rest));
        [|lia].
      destruct (Z.leb_spec (config.DIRECTIONAL_MIN_SAMPLE rest) (Z.of_nat 0));
        [lia|].
      cbn [andb]. rewrite orb_false_r. reflexivity.
    + rewrite Hs.
      rewrite (ratio_below _ _ _ (ledger_facts.inject_nat_pos _ Hpos)).
      rewrite Z.ltb_antisym.
      destruct (_ <=? _)%Z; cbn [negb andb];
        [|rewrite orb_false_r; reflexivity].
      destruct (Qlt_bool _ _); destruct disabled; reflexivity.
  - unfold scan_head. destruct (_ <=? _)%Z; reflexivity.
Qed.

(** X13.  A directional trade that passes the sizing block (with
    [MIN_TRADE_USD <= MAX_TRADE_USD]) has a cash size between
    [MIN_TRADE_USD] and [MAX_TRADE_USD], at most
    [MAX_DIRECTIONAL_POSITION_PCT] of the balance times the risk
    multiplier (for a non-negative product of the two), and keeps the
    directional exposure within [MAX_TOTAL_DIRECTIONAL_PCT] of a
    positive balance.  With an ask price at or below 0, or at or above
    1, the Kelly fraction is 0 and the block returns without a trade
    (for a positive minimum trade and a non-negative position cap). *)
Theorem directional_size_within_caps
    (edge buy_price balance multiplier dir_exposure : Q) :
  (forall s,
     size_trade cfg rest edge buy_price balance multiplier dir_exposure
     = Some s ->
     config.MIN_TRADE_USD cfg <= config.MAX_TRADE_USD cfg ->
     config.MIN_TRADE_USD cfg <= s /\ s <= config.MAX_TRADE_USD cfg
     /\ (0 <= balance * multiplier ->
         s <= balance * config.MAX_DIRECTIONAL_POSITION_PCT rest * multiplier)
     /\ (0 < balance ->
         dir_exposure + s <= config.MAX_TOTAL_DIRECTIONAL_PCT rest * balance))
  /\ (buy_price <= 0 \/ 1 <= buy_price ->
      0 <= config.MAX_DIRECTIONAL_POSITION_PCT rest ->
      0 < config.MIN_TRADE_USD cfg ->
      size_trade cfg rest edge buy_price balance multiplier dir_exposure
      = None).
Proof.
  split.
  - intros s Hs Hmm. unfold size_trade in Hs.
    set (odds := if Qlt_bool 0 buy_price then 1 / buy_price - 1 else 0) in *.
    set (kelly := if Qlt_bool 0 odds then edge / odds else 0) in *.
    set (sp := py_min (kelly * (1 # 2))
                 (config.MAX_DIRECTIONAL_POSITION_PCT rest)) in *.
    pose proof (py_min_le_r (kelly * (1 # 2))
                  (config.MAX_DIRECTIONAL_POSITION_PCT rest)) as Hsp.
    fold sp in Hsp.
    destruct (Qlt_bool 0 balance
              && Qlt_bool (config.MAX_TOTAL_DIRECTIONAL_PCT rest)
                   ((dir_exposure + balance * sp * multiplier) / balance))
      eqn:Hexp; [discriminate|].
    destruct (Qlt_bool (balance * sp * multiplier) (config.MIN_TRADE_USD cfg))
      eqn:Hmin; [discriminate|].
    injection Hs as <-. apply Qlt_bool_false_iff in Hmin.
    pose proof (py_min_le_l (balance * sp * multiplier)
                  (config.MAX_TRADE_USD cfg)) as Hl.
    pose proof (py_min_le_r (balance * sp * multiplier)
                  (config.MAX_TRADE_USD cfg)) as Hr.
    split.
    { destruct (ledger_min_cases (balance * sp * multiplier)
                  (config.MAX_TRADE_USD cfg)) as [-> | ->]; lra. }
    split; [exact Hr|]. split.
    + intro Hprod.
      assert (balance * sp * multiplier
              <= balance * config.MAX_DIRECTIONAL_POSITION_PCT rest
                 * multiplier) by nra.
      lra.
    + intro Hb. pose proof (proj2 (Qlt_bool_iff _ _) Hb) as Hbb.
      rewrite Hbb in Hexp. cbn [andb] in Hexp.
      rewrite (risk_manager_facts.div_gate _ _ _ Hb) in Hexp.
      apply Qlt_bool_false_iff in Hexp. lra.
  - intros Hprice Hcap Hmin. unfold size_trade.
    assert (Hk : (if Qlt_bool 0
                       (if Qlt_bool 0 buy_price then 1 / buy_price - 1 else 0)
                  then edge / (if Qlt_bool 0 buy_price
                               then 1 / buy_price - 1 else 0)
                  else 0) = 0).
    { destruct (Qlt_bool 0 buy_price) eqn:Hp.
      - apply Qlt_bool_iff in Hp. destruct Hprice as [H|H]; [lra|].
        assert (Hodds : 1 / buy_price - 1 <= 0).
        { assert (1 / buy_price <= 1)
            by (apply Qle_shift_div_r; [exact Hp|lra]).
          lra. }
        apply Qlt_bool_false_iff in Hodds. rewrite Hodds. reflexivity.
      - reflexivity. }
    rewrite Hk.
    assert (Hsp : py_min (0 * (1 # 2))
                    (config.MAX_DIRECTIONAL_POSITION_PCT rest) == 0).
    { destruct (book_depth_facts.py_min_cases (0 * (1 # 2))
                  (config.MAX_DIRECTIONAL_POSITION_PCT rest))
        as [[Hlt _]|[_ ->]]; lra. }
    destruct (_ && _); [reflexivity|].
    assert (Hlt : balance
                  * py_min (0 * (1 # 2))
                      (config.MAX_DIRECTIONAL_POSITION_PCT rest)
                  * multiplier < config.MIN_TRADE_USD cfg)
      by (rewrite Hsp; lra).
    apply Qlt_bool_iff in Hlt. rewrite Hlt. reflexivity.
Qed.

End WithConfig.

Lemma directional_size_within_caps_witness :
  exists s,
    size_trade config.default config.rest_default (15 # 100) (1 # 5)
      600 1 0 = Some s
    /\ 2 <= s /\ s <= 100 /\ s <= 600 * (10 # 100) * 1
    /\ size_trade config.default config.rest_default (15 # 100) 1 600 1 0
       = None.
Proof.
  eexists. split; [vm_compute; reflexivity|].
  match goal with
  | |- 2 <= ?s /\ _ =>
      destruct (directional_size_within_caps config.default
                  config.rest_default (15 # 100) (1 # 5) 600 1 0)
        as [Hsome _];
      destruct (Hsome s eq_refl ltac:(vm_compute; discriminate))
        as (H1 & H2 & H3 & _)
  end.
  split; [exact H1|]. split; [exact H2|].
  split; [apply H3; vm_compute; discriminate|].
  apply (proj2 (directional_size_within_caps config.default
                  config.rest_default (15 # 100) 1 600 1 0)).
  - right. vm_compute; discriminate.
  - vm_compute; discriminate.
  - reflexivity.
Defined.

Lemma auto_disable_rule_witness :
  (1 <= config.DIRECTIONAL_MIN_SAMPLE config.rest_default)%Z
  /\ length (strategy_trade_history STRATEGY_NAME samples.losing_ledger)
     = 20%nat
  /\ _check_auto_disable config.rest_default samples.losing_ledger false
     = true
  /\ scan_head config.rest_default samples.losing_ledger false
     = (true, true).
Proof.
  assert (Hmin : (1 <= config.DIRECTIONAL_MIN_SAMPLE config.rest_default)%Z)
    by (vm_compute; discriminate).
  destruct (auto_disable_rule config.rest_default samples.losing_ledger
              false Hmin) as (Hrule & _ & _ & Hscan).
  split; [exact Hmin|]. split; [reflexivity|].
  split; [rewrite Hrule; reflexivity|].
  rewrite Hscan, Hrule. reflexivity.
Defined.

End directional_engine_facts.

(** ** RiskManager: what an answer guarantees and how the state moves *)

Module risk_state_facts.

Import position_tracker risk_manager risk_manager_facts.

Section WithConfig.

Variable cfg : config.t.

Lemma first_triggered_true (gates : list (bool * Reason)) :
  fst (first_triggered gates) = true ->
  Forall (fun g => fst g = false) gates
  /\ first_triggered gates = (true, Approved).
Proof.
  induction gates as [|[b r] gates IH]; cbn [first_triggered].
  - intros _. split; [constructor|reflexivity].
  - destruct b; [discriminate|]. intro H.
    destruct (IH H) as [H1 H2]. split; [constructor; auto|exact H2].
Qed.

(** The manager after [check_trade], by the kind of answer. *)
Lemma check_trade_state tracker trade balance now rm :
  let res := check_trade cfg tracker trade balance now rm in
  let rm' := snd res in
  _last_known_balance rm' = balance
  /\ _day_start_balance rm' = _day_start_balance rm
  /\ _day_start_time rm' = _day_start_time rm
  /\ match snd (fst res) with
     | InCooldown _ =>
         fst (fst res) = false
         /\ rm' = with_last_known_balance balance rm
         /\ _state rm = COOLDOWN /\ now < _cooldown_until rm
     | DailyDrawdown _ | ConsecutiveLosses _ =>
         fst (fst res) = false
         /\ _state rm' = COOLDOWN
         /\ _cooldown_until rm'
            = now + inject_Z (cooldown_minutes cfg false * 60)
     | _ =>
         _state rm' = gate_state now rm
         /\ gate_state now rm <> COOLDOWN
         /\ _cooldown_until rm' = _cooldown_until rm
     end.
Proof.
  cbv zeta. unfold check_trade, after_cooldown_check, gate_state.
  cbn [_state with_last_known_balance _cooldown_until _day_start_balance
       _enter_recovery].
  destruct (_state rm) eqn:Hs;
    try destruct (Qlt_bool now (_cooldown_until rm)) eqn:Hc;
    cbn [RiskState_eqb negb andb];
    repeat match goal with
           | |- context [if ?b then _ else _] =>
               destruct b eqn:?; cbn [fst snd andb]
           end;
    cbn [fst snd _state _enter_cooldown _enter_recovery _cooldown_until
         with_last_known_balance _last_known_balance _day_start_balance
         _day_start_time];
    try (unfold size_gates;
         repeat match goal with
                | |- context [if ?b then _ else _] =>
                    destruct b; cbn [fst snd]
                end);
    repeat split; try reflexivity; try discriminate; try assumption;
    try (apply Qlt_bool_iff; assumption).
Qed.

(** What an approval means. *)
Lemma approval_limits tracker trade balance now rm :
  fst (fst (check_trade cfg tracker trade balance now rm)) = true ->
  let rm' := snd (check_trade cfg tracker trade balance now rm) in
  snd (fst (check_trade cfg tracker trade balance now rm)) = Approved
  /\ config.MIN_TRADE_USD cfg <= cost_usd trade
  /\ cost_usd trade <= config.MAX_TRADE_USD cfg
  /\ (0 < balance ->
      max_loss_usd trade <= config.MAX_SINGLE_LOSS_PCT cfg * balance
      /\ cost_usd trade <= config.MAX_POSITION_PCT cfg * balance
      /\ total_exposure tracker + cost_usd trade
         <= config.MAX_TOTAL_EXPOSURE_PCT cfg * balance
      /\ strategy_exposure (strategy trade) tracker + cost_usd trade
         <= config.MAX_STRATEGY_EXPOSURE_PCT cfg * balance)
  /\ (0 < _day_start_balance rm ->
      daily_drawdown balance rm < config.MAX_DAILY_DRAWDOWN_PCT cfg)
  /\ _state rm' = gate_state now rm
  /\ _state rm' <> COOLDOWN
  /\ (_state rm' = NORMAL ->
      (consecutive_losses tracker < config.MAX_CONSECUTIVE_LOSSES cfg)%Z).
Proof.
  intros Hok rm'. subst rm'.
  pose proof (check_trade_guarded cfg tracker trade balance now rm) as Hg.
  pose proof (check_trade_state tracker trade balance now rm) as Hst.
  cbv zeta in Hst.
  assert (Hfst : fst (guarded_check_trade cfg tracker trade balance now rm)
                 = true) by (rewrite <- Hg; exact Hok).
  unfold guarded_check_trade in Hfst, Hg.
  destruct (first_triggered_true _ Hfst) as [Hall Happ].
  rewrite Happ in Hg.
  destruct (check_trade cfg tracker trade balance now rm) as [[ok r] rm'].
  cbn [fst snd] in *. injection Hg as -> ->.
  destruct Hst as (_ & _ & _ & Hs & Hnc & _).
  unfold gate_list in Hall.
  repeat match goal with
         | H : Forall _ (_ :: _) |- _ =>
             let Hh := fresh "Hgate" in
             let Ht := fresh "Hrest" in
             inversion H as [|? ? Hh Ht]; subst; clear H; cbn [fst] in Hh
         end.
  split; [reflexivity|].
  split; [apply Qlt_bool_false_iff; assumption|].
  split; [apply Qlt_bool_false_iff; assumption|].
  split.
  { intro Hb. apply Qlt_bool_iff in Hb. rewrite Hb in *. cbn [andb] in *.
    repeat split; apply Qlt_bool_false_iff; assumption. }
  split.
  { intro Hd. unfold drawdown_hit in *. apply Qlt_bool_iff in Hd.
    rewrite Hd in *. cbn [andb] in *.
    apply Qle_bool_false_iff. assumption. }
  split; [exact Hs|]. split; [rewrite Hs; exact Hnc|].
  intro Hn. rewrite Hs in Hn. rewrite Hn in *. cbn [RiskState_eqb negb] in *.
  rewrite andb_true_r in *.
  match goal with
  | H : (_ <=? _)%Z = false |- _ => apply Z.leb_gt in H; exact H
  end.
Qed.


Lemma check_trade_next_state tracker trade balance now rm :
  _state (snd (check_trade cfg tracker trade balance now rm))
  = gate_state now rm
  \/ _state (snd (check_trade cfg tracker trade balance now rm)) = COOLDOWN.
Proof.
  pose proof (check_trade_state tracker trade balance now rm) as H.
  cbv zeta in H. destruct H as (_ & _ & _ & H).
  destruct (snd (fst (check_trade cfg tracker trade balance now rm)));
    try (left; tauto); try (right; tauto).
  destruct H as (_ & -> & Hs & Hlt). right. exact Hs.
Qed.


(** X15.  [is_trading_allowed] is false exactly when [check_trade] at
    the same time answers with the cooldown rejection, whatever the
    request and balance; such a call changes nothing but the last known
    balance.  So a cycle the main loop skips is one in which every
    request would have been rejected for cooldown. *)
Theorem is_trading_allowed_matches_cooldown_gate tracker trade balance
    now rm :
  (is_trading_allowed now rm = false
   <-> exists n, fst (check_trade cfg tracker trade balance now rm)
                 = (false, InCooldown n))
  /\ (is_trading_allowed now rm = false ->
      snd (check_trade cfg tracker trade balance now rm)
      = with_last_known_balance balance rm).
Proof.
  assert (Hfwd : is_trading_allowed now rm = false ->
                 check_trade cfg tracker trade balance now rm
                 = ((false, InCooldown (py_int (_cooldown_until rm - now))),
                    with_last_known_balance balance rm)).
  { unfold is_trading_allowed. destruct (_state rm) eqn:Hs; try discriminate.
    intro H. apply Qle_bool_false_iff in H.
    apply (check_trade_in_cooldown cfg
             {| ck_tracker := tracker; ck_trade := trade;
                ck_balance := balance; ck_now := now |} rm Hs H). }
  split; [split|].
  - intro H. rewrite (Hfwd H). cbn [fst]. eauto.
  - intros [n Hn].
    pose proof (check_trade_state tracker trade balance now rm) as Hst.
    cbv zeta in Hst. destruct Hst as (_ & _ & _ & Hst).
    rewrite Hn in Hst. cbn [snd] in Hst.
    destruct Hst as (_ & _ & Hs & Hlt).
    unfold is_trading_allowed. rewrite Hs.
    apply Qle_bool_false_iff. exact Hlt.
  - intro H. rewrite (Hfwd H). reflexivity.
Qed.

(** X16.  One call of the public API moves the state only along the
    edges of the state machine.  NORMAL never goes straight to RECOVERY
    and COOLDOWN never straight to NORMAL; NORMAL to COOLDOWN and
    COOLDOWN to RECOVERY happen only in [check_trade]; RECOVERY to
    NORMAL only in a win notification; RECOVERY to COOLDOWN only in
    [check_trade] or a loss notification. *)
Theorem state_moves_along_edges (c : call) (rm : RiskManager) :
  match _state rm, _state (do_call cfg c rm) with
  | NORMAL, RECOVERY | COOLDOWN, NORMAL => False
  | NORMAL, COOLDOWN | COOLDOWN, RECOVERY => exists k, c = CheckTrade k
  | RECOVERY, NORMAL =>
      exists now, c = Other (RecordTradeCompleted true now)
  | RECOVERY, COOLDOWN =>
      (exists k, c = CheckTrade k)
      \/ exists now, c = Other (RecordTradeCompleted false now)
  | _, _ => True
  end.
Proof.
  destruct c as [k|o]; cbn [do_call].
  - unfold do_check.
    destruct (check_trade_next_state (ck_tracker k) (ck_trade k)
                (ck_balance k) (ck_now k) rm) as [H|H]; rewrite H;
      unfold gate_state; destruct (_state rm);
      try destruct (Qlt_bool (ck_now k) (_cooldown_until rm));
      eauto.
  - destruct o as [b now|w now| |now|];
      cbn [do_other set_day_start_balance _state];
      try (destruct (_state rm); exact I).
    unfold record_trade_completed.
    destruct (_state rm) eqn:Hs; rewrite ?Hs; try exact I.
    destruct w; cbn [negb].
    + destruct (_ <=? _)%Z; cbn [_state with_state
                                   with_recovery_trades_remaining];
        [exists now; reflexivity|rewrite Hs; exact I].
    + cbn [_state _enter_cooldown]. right. exists now. reflexivity.
Qed.




(** X18.  What a [check_trade] call does to the manager, by its answer.
    It always records the balance and never touches the day-start
    balance.  A cooldown rejection changes nothing else.  A drawdown or
    loss-streak rejection puts the manager in COOLDOWN until the base
    cooldown from now.  Every other answer (approval or a size
    rejection) leaves the manager in the state the gates saw, which is
    not COOLDOWN, with the deadline untouched. *)
Theorem check_trade_effects tracker trade balance now rm :
  let res := check_trade cfg tracker trade balance now rm in
  let rm' := snd res in
  _last_known_balance rm' = balance
  /\ _day_start_balance rm' = _day_start_balance rm
  /\ _day_start_time rm' = _day_start_time rm
  /\ match snd (fst res) with
     | InCooldown _ =>
         fst (fst res) = false
         /\ rm' = with_last_known_balance balance rm
         /\ _state rm = COOLDOWN /\ now < _cooldown_until rm
     | DailyDrawdown _ | ConsecutiveLosses _ =>
         fst (fst res) = false
         /\ _state rm' = COOLDOWN
         /\ _cooldown_until rm'
            = now + inject_Z (cooldown_minutes cfg false * 60)
     | _ =>
         _state rm' = gate_state now rm
         /\ gate_state now rm <> COOLDOWN
         /\ _cooldown_until rm' = _cooldown_until rm
     end.
Proof. apply check_trade_state. Qed.

End WithConfig.


Lemma is_trading_allowed_matches_cooldown_gate_witness :
  is_trading_allowed 10 samples.cooling = false
  /\ snd (check_trade config.default position_tracker.init samples.request
            95 10 samples.cooling)
     = with_last_known_balance 95 samples.cooling.
Proof.
  assert (H : is_trading_allowed 10 samples.cooling = false)
    by (vm_compute; reflexivity).
  split; [exact H|].
  exact (proj2 (is_trading_allowed_matches_cooldown_gate config.default
                  position_tracker.init samples.request 95 10
                  samples.cooling) H).
Defined.


End risk_state_facts.

(** ** OrderManager: placement and pair outcomes *)

Module order_placement_facts.

Import order_manager.

Section WithClient.

Variable cfg : config.t.
Variable client : Client.

Lemma place_attempts_outcome (left : nat) :
  forall attempt tok sd p sz now w,
    let res := place_attempts client left attempt tok sd p sz now w in
    ticket_for tok sd p sz (fst res)
    /\ open_queries (snd res) = open_queries w
    /\ ((exists k id,
           (k < left)%nat
           /\ create_limit_order client tok sd p sz (attempt + k) = Some id
           /\ (forall j, (j < k)%nat ->
                 create_limit_order client tok sd p sz (attempt + j) = None)
           /\ status (fst res) = submitted
           /\ order_id (fst res) = Some id
           /\ submitted_at (fst res) = now
           /\ events (snd res)
              = events w ++ failed_attempts k attempt tok sd p sz
                ++ [OrderSubmitted tok sd p sz id])
        \/ ((forall j, (j < left)%nat ->
               create_limit_order client tok sd p sz (attempt + j) = None)
            /\ status (fst res) = failed
            /\ order_id (fst res) = None
            /\ events (snd res)
               = events w ++ failed_attempts left attempt tok sd p sz)).
Proof.
  induction left as [|left IH]; intros attempt tok sd p sz now w;
    cbn [place_attempts].
  - cbv zeta. cbn [fst snd]. split; [repeat split|]. split; [reflexivity|].
    right. split; [intros j Hj; lia|]. cbn. rewrite app_nil_r. auto.
  - destruct (create_limit_order client tok sd p sz attempt) as [id|] eqn:E.
    + cbv zeta. cbn [fst snd]. split; [repeat split|].
      split; [reflexivity|]. left. exists 0%nat, id.
      rewrite Nat.add_0_r. split; [lia|]. split; [exact E|].
      split; [intros j Hj; lia|]. cbn. auto.
    + specialize (IH (S attempt) tok sd p sz now
                     (emit (OrderAttemptFailed tok sd p sz attempt) w)).
      cbv zeta in *. destruct IH as (Ht & Hq & Hcases).
      split; [exact Ht|]. split; [exact Hq|].
      destruct Hcases as [(k & id & Hk & Hc & Hj & Hs & Hi & Hat & Hev)
                         |(Hj & Hs & Hi & Hev)].
      * left. exists (S k), id. split; [lia|].
        split; [rewrite <- Nat.add_succ_comm; exact Hc|].
        split.
        { intros [|j] Hlt; [rewrite Nat.add_0_r; exact E|].
          rewrite <- Nat.add_succ_comm. apply Hj. lia. }
        split; [exact Hs|]. split; [exact Hi|]. split; [exact Hat|].
        rewrite Hev. cbn [emit events failed_attempts].
        rewrite <- !app_assoc. reflexivity.
      * right. split.
        { intros [|j] Hlt; [rewrite Nat.add_0_r; exact E|].
          rewrite <- Nat.add_succ_comm. apply Hj. lia. }
        split; [exact Hs|]. split; [exact Hi|].
        rewrite Hev. cbn [emit events failed_attempts].
        rewrite <- !app_assoc. reflexivity.
Qed.

(** The outcome of [place_limit], attempts numbered from 1. *)
Lemma place_limit_result tok sd p sz now w :
  let res := place_limit cfg client tok sd p sz now w in
  ticket_for tok sd p sz (fst res)
  /\ open_queries (snd res) = open_queries w
  /\ ((exists k id,
         (1 <= k <= config.MAX_RETRIES cfg)%nat
         /\ create_limit_order client tok sd p sz k = Some id
         /\ (forall j, (1 <= j < k)%nat ->
               create_limit_order client tok sd p sz j = None)
         /\ status (fst res) = submitted
         /\ order_id (fst res) = Some id
         /\ events (snd res)
            = events w ++ failed_attempts (k - 1) 1 tok sd p sz
              ++ [OrderSubmitted tok sd p sz id])
      \/ ((forall j, (1 <= j <= config.MAX_RETRIES cfg)%nat ->
             create_limit_order client tok sd p sz j = None)
          /\ status (fst res) = failed
          /\ order_id (fst res) = None
          /\ events (snd res)
             = events w
               ++ failed_attempts (config.MAX_RETRIES cfg) 1 tok sd p sz)).
Proof.
  cbv zeta. unfold place_limit.
  destruct (place_attempts_outcome (config.MAX_RETRIES cfg) 1 tok sd p sz
              now w) as (Ht & Hq & Hcases).
  split; [exact Ht|]. split; [exact Hq|].
  destruct Hcases as [(k & id & Hk & Hc & Hj & Hs & Hi & _ & Hev)
                     |(Hj & Hs & Hi & Hev)].
  - left. exists (S k), id. split; [lia|]. split; [exact Hc|].
    split.
    { intros j Hjr. replace j with (1 + (j - 1))%nat by lia.
      apply Hj. lia. }
    split; [exact Hs|]. split; [exact Hi|].
    rewrite Hev. cbn [Nat.sub]. rewrite Nat.sub_0_r. reflexivity.
  - right. split.
    { intros j Hjr. replace j with (1 + (j - 1))%nat by lia.
      apply Hj. lia. }
    auto.
Qed.

(** X19.  [place_limit] returns a ticket for the order it was given and
    makes no open-orders query.  The ticket is [submitted], with the id
    the venue gave, exactly when one of the attempts 1..[MAX_RETRIES]
    is accepted: the first accepted attempt ends the loop, after one
    failure event per earlier attempt.  When every attempt raises, the
    ticket is [failed], without id, after [MAX_RETRIES] failure
    events. *)
Theorem place_limit_outcome tok sd p sz now w :
  let res := place_limit cfg client tok sd p sz now w in
  ticket_for tok sd p sz (fst res)
  /\ open_queries (snd res) = open_queries w
  /\ ((exists k id,
         (1 <= k <= config.MAX_RETRIES cfg)%nat
         /\ create_limit_order client tok sd p sz k = Some id
         /\ (forall j, (1 <= j < k)%nat ->
               create_limit_order client tok sd p sz j = None)
         /\ status (fst res) = submitted
         /\ order_id (fst res) = Some id
         /\ events (snd res)
            = events w ++ failed_attempts (k - 1) 1 tok sd p sz
              ++ [OrderSubmitted tok sd p sz id])
      \/ ((forall j, (1 <= j <= config.MAX_RETRIES cfg)%nat ->
             create_limit_order client tok sd p sz j = None)
          /\ status (fst res) = failed
          /\ order_id (fst res) = None
          /\ events (snd res)
             = events w
               ++ failed_attempts (config.MAX_RETRIES cfg) 1 tok sd p sz)).
Proof. apply place_limit_result. Qed.

Lemma ticket_for_with_status tok sd p sz st t :
  ticket_for tok sd p sz t -> ticket_for tok sd p sz (with_status st t).
Proof. intro H. exact H. Qed.

Lemma cancel_if_submitted_ticket (t : OrderTicket) (w : World) :
  let res := _cancel_if_submitted client t w in
  (forall tok sd p sz, ticket_for tok sd p sz t ->
                       ticket_for tok sd p sz (fst res))
  /\ (status (fst res) = status t
      \/ (status t = submitted /\ status (fst res) = cancelled))
  /\ open_queries (snd res) = open_queries w.
Proof.
  cbv zeta. unfold _cancel_if_submitted.
  destruct (status t) eqn:Hs; try (cbn; rewrite ?Hs; auto; fail);
    destruct (order_id t) as [id|]; try (cbn; rewrite ?Hs; auto; fail).
  destruct (String.eqb id ""); [cbn; rewrite Hs; auto|].
  destruct (cancel_order client id); cbn; rewrite ?Hs; auto.
Qed.

Lemma on_timeout_statuses yes_filled no_filled pair now w :
  let res := on_timeout cfg client yes_filled no_filled pair now w in
  In (statuses (fst res))
     [(filled, cancelled); (cancelled, filled); (cancelled, cancelled)]
  /\ (forall tok sd p sz, ticket_for tok sd p sz (yes_leg pair) ->
                          ticket_for tok sd p sz (yes_leg (fst res)))
  /\ (forall tok sd p sz, ticket_for tok sd p sz (no_leg pair) ->
                          ticket_for tok sd p sz (no_leg (fst res))).
Proof.
  cbv zeta. unfold on_timeout.
  destruct (yes_filled && negb no_filled).
  - pose proof (cancel_if_submitted_ticket (no_leg pair) w) as Hc.
    cbv zeta in Hc.
    destruct (_cancel_if_submitted client (no_leg pair) w) as [no1 w1].
    cbn [fst snd] in *. destruct Hc as (Ht & _).
    split; [cbn; auto|]. split; [auto|].
    intros tok sd p sz H. apply ticket_for_with_status, Ht, H.
  - destruct (no_filled && negb yes_filled).
    + pose proof (cancel_if_submitted_ticket (yes_leg pair) w) as Hc.
      cbv zeta in Hc.
      destruct (_cancel_if_submitted client (yes_leg pair) w) as [yes1 w1].
      cbn [fst snd] in *. destruct Hc as (Ht & _).
      split; [cbn; auto|]. split; [|auto].
      intros tok sd p sz H. apply ticket_for_with_status, Ht, H.
    + pose proof (cancel_if_submitted_ticket (yes_leg pair) w) as Hy.
      cbv zeta in Hy.
      destruct (_cancel_if_submitted client (yes_leg pair) w) as [yes1 w1].
      pose proof (cancel_if_submitted_ticket (no_leg pair) w1) as Hn.
      cbv zeta in Hn.
      destruct (_cancel_if_submitted client (no_leg pair) w1) as [no1 w2].
      cbn [fst snd] in *. destruct Hy as (Hyt & _). destruct Hn as (Hnt & _).
      split; [cbn; auto|].
      split; intros tok sd p sz H; apply ticket_for_with_status; auto.
Qed.

Lemma monitor_loop_statuses (polls : nat) :
  forall yes_filled no_filled pair now w,
    let res := monitor_loop cfg client polls yes_filled no_filled pair now w in
    In (statuses (fst res))
       [(filled, filled); (filled, cancelled); (cancelled, filled);
        (cancelled, cancelled)]
    /\ (forall tok sd p sz, ticket_for tok sd p sz (yes_leg pair) ->
                            ticket_for tok sd p sz (yes_leg (fst res)))
    /\ (forall tok sd p sz, ticket_for tok sd p sz (no_leg pair) ->
                            ticket_for tok sd p sz (no_leg (fst res))).
Proof.
  induction polls as [|polls IH]; intros yes_filled no_filled pair now w;
    cbn [monitor_loop].
  - destruct (on_timeout_statuses yes_filled no_filled pair now w)
      as (Hs & Hy & Hn).
    cbv zeta. split; [|auto]. cbn [In] in *. tauto.
  - destruct (if yes_filled then (true, w)
              else _check_filled client (yes_leg pair) w) as [yf w1].
    destruct (if no_filled then (true, w1)
              else _check_filled client (no_leg pair) w1) as [nf w2].
    destruct (yf && nf).
    + cbv zeta. cbn [fst]. split; [cbn; auto|]. split; auto.
    + apply IH.
Qed.

(** X20.  The statuses [place_arb_pair] can hand back.  Both tickets are
    for the two BUY orders asked for.  When a leg fails to submit,
    neither leg comes back [filled]: a failed leg stays [failed], its
    counterpart is [cancelled] or, when the cancel is not made or
    raises, still [submitted].  When both legs are submitted, dry-run
    reports both [filled] without any open-orders query or cancel, and
    live mode reports each leg [filled] or [cancelled]. *)
Theorem place_arb_pair_outcomes (polls : nat) (yes_tok no_tok : string)
    (yes_price no_price sz now : Q) (w : World) :
  let placed_yes := place_limit cfg client yes_tok "BUY"%string yes_price sz now w in
  let placed_no :=
    place_limit cfg client no_tok "BUY"%string no_price sz now (snd placed_yes) in
  let res :=
    place_arb_pair cfg client polls yes_tok no_tok yes_price no_price sz
      now w in
  ticket_for yes_tok "BUY"%string yes_price sz (yes_leg (fst res))
  /\ ticket_for no_tok "BUY"%string no_price sz (no_leg (fst res))
  /\ (status (fst placed_yes) = failed \/ status (fst placed_no) = failed ->
      In (statuses (fst res))
         [(failed, failed); (failed, cancelled); (failed, submitted);
          (cancelled, failed); (submitted, failed)])
  /\ (status (fst placed_yes) = submitted ->
      status (fst placed_no) = submitted ->
      if config.DRY_RUN cfg
      then statuses (fst res) = (filled, filled)
           /\ snd res = snd placed_no
      else In (statuses (fst res))
              [(filled, filled); (filled, cancelled); (cancelled, filled);
               (cancelled, cancelled)]).
Proof.
  cbv zeta. unfold place_arb_pair.
  destruct (place_limit_result yes_tok "BUY"%string yes_price sz now w)
    as (Hyt & _ & Hycases).
  cbv zeta in Hyt, Hycases.
  destruct (place_limit cfg client yes_tok "BUY"%string yes_price sz now w)
    as [yes0 w1].
  cbn [fst snd] in *.
  destruct (place_limit_result no_tok "BUY"%string no_price sz now w1)
    as (Hnt & _ & Hncases).
  cbv zeta in Hnt, Hncases.
  destruct (place_limit cfg client no_tok "BUY"%string no_price sz now w1)
    as [no0 w2].
  cbn [fst snd] in *.
  assert (Hys : status yes0 = submitted \/ status yes0 = failed).
  { destruct Hycases as [(k & id & _ & _ & _ & H & _)|(_ & H & _)]; auto. }
  assert (Hns : status no0 = submitted \/ status no0 = failed).
  { destruct Hncases as [(k & id & _ & _ & _ & H & _)|(_ & H & _)]; auto. }
  destruct (Status_eqb (status yes0) failed || Status_eqb (status no0) failed)
    eqn:Hfail.
  - pose proof (cancel_if_submitted_ticket yes0 w2) as Hcy. cbv zeta in Hcy.
    destruct (_cancel_if_submitted client yes0 w2) as [yes1 w3].
    pose proof (cancel_if_submitted_ticket no0 w3) as Hcn. cbv zeta in Hcn.
    destruct (_cancel_if_submitted client no0 w3) as [no1 w4].
    cbn [fst snd] in *.
    destruct Hcy as (Hyt1 & Hys1 & _). destruct Hcn as (Hnt1 & Hns1 & _).
    split; [auto|]. split; [auto|]. split.
    + intros _. unfold statuses. cbn [yes_leg no_leg In].
      destruct Hys as [Hy|Hy]; destruct Hns as [Hn|Hn];
        rewrite Hy, Hn in *; cbn in Hfail; try discriminate;
        destruct Hys1 as [-> | [Hy1 ->]]; destruct Hns1 as [-> | [Hn1 ->]];
        try discriminate; auto 10.
    + intros Hy Hn. rewrite Hy, Hn in Hfail. discriminate Hfail.
  - assert (Hy : status yes0 = submitted).
    { destruct Hys as [H|H]; [exact H|]. rewrite H in Hfail.
      discriminate Hfail. }
    assert (Hn : status no0 = submitted).
    { destruct Hns as [H|H]; [exact H|]. rewrite H, orb_true_r in Hfail.
      discriminate Hfail. }
    destruct (config.DRY_RUN cfg).
    + cbn [fst snd yes_leg no_leg]. split; [exact Hyt|]. split; [exact Hnt|].
      split; [intros [H|H]; congruence|]. intros _ _. split; reflexivity.
    + destruct (monitor_loop_statuses polls false false
                  {| yes_leg := yes0; no_leg := no0 |} now w2)
        as (Hst & Hty & Htn).
      unfold _monitor_arb_fills. cbn [yes_leg no_leg] in *.
      split; [apply Hty; exact Hyt|]. split; [apply Htn; exact Hnt|].
      split; [intros [H|H]; congruence|]. intros _ _. exact Hst.
Qed.

End WithClient.

Lemma place_limit_outcome_witness :
  status (fst (place_limit config.default samples.venue_sell_fills
                 "tok-y"%string "BUY"%string (1 # 2) 10 0 world0))
  = submitted.
Proof.
  destruct (place_limit_outcome config.default samples.venue_sell_fills
              "tok-y"%string "BUY"%string (1 # 2) 10 0 world0)
    as (_ & _ & [(k & id & _ & _ & _ & Hs & _) | (Hnone & _)]).
  - exact Hs.
  - specialize (Hnone 1%nat). cbn in Hnone.
    assert (Hr : (1 <= 1 <= 3)%nat) by lia.
    specialize (Hnone Hr). discriminate Hnone.
Defined.

Lemma place_arb_pair_outcomes_witness :
  let res :=
    place_arb_pair config.live samples.venue_sell_open 15 "tok-y"%string "tok-n"%string
      (48 # 100) (1 # 2) 200 7 world0 in
  In (statuses (fst res))
     [(filled, filled); (filled, cancelled); (cancelled, filled);
      (cancelled, cancelled)].
Proof.
  apply (proj2 (proj2 (proj2
           (place_arb_pair_outcomes config.live samples.venue_sell_open 15
              "tok-y"%string "tok-n"%string (48 # 100) (1 # 2) 200 7 world0))));
    reflexivity.
Defined.

End order_placement_facts.

(** ** Paired order: the ledger after any outcome *)

Module pair_ledger_facts.

Import position_tracker position_tracker_facts sum_to_one_arb
  sum_to_one_arb_facts.

Section WithConfig.

Variable cfg : config.t.

(** With both legs reported filled and distinct tokens, both new
    positions end closed and the history gains two records. *)
Lemma track_pair_both_filled (market : MarketInfo)
    (placed : order_manager.PairedArbOrder)
    (yes_price no_price shares balance total_profit now : Q) (e : Engine) :
  order_manager.statuses placed
  = (order_manager.filled, order_manager.filled) ->
  yes_token_id market <> no_token_id market ->
  let e' := track_pair cfg market placed yes_price no_price shares balance
              total_profit now e in
  open_positions (tracker e') = open_positions (tracker e)
  /\ length (trade_history (tracker e'))
     = (length (trade_history (tracker e)) + 2)%nat
  /\ length (journal e') = S (length (journal e)).
Proof.
  intros Hst Hne e'. subst e'.
  unfold order_manager.statuses in Hst. injection Hst as Hy Hn.
  unfold track_pair. rewrite Hy, Hn. cbn [order_manager.Status_eqb andb].
  set (yes_pos := fst (open_position (yes_token_id market)
                         (condition_id market) (question market) "YES"
                         yes_price shares STRATEGY_NAME now (tracker e))).
  set (t1 := snd (open_position (yes_token_id market) (condition_id market)
                    (question market) "YES" yes_price shares STRATEGY_NAME
                    now (tracker e))).
  set (no_pos := fst (open_position (no_token_id market)
                        (condition_id market) (question market) "NO"
                        no_price shares STRATEGY_NAME now t1)).
  set (t2 := snd (open_position (no_token_id market) (condition_id market)
                    (question market) "NO" no_price shares STRATEGY_NAME
                    now t1)).
  assert (Hps2 : _positions t2
                 = _positions (tracker e) ++ yes_pos :: [no_pos]).
  { unfold t2, t1. cbn. rewrite <- app_assoc. reflexivity. }
  assert (Hm_yes : matches_open (yes_token_id market) yes_pos = true).
  { apply matches_open_true. split; reflexivity. }
  assert (Hm_no_yes : forall q, In q [no_pos] ->
                        matches_open (yes_token_id market) q = false).
  { intros q [<-|[]]. apply matches_open_false. intro E. cbn in E.
    congruence. }
  destruct (close_position_at (yes_token_id market) 1 (balance + total_profit)
              0%Z now t2 _ yes_pos [no_pos] Hps2 Hm_yes Hm_no_yes)
    as (ry & t3 & Hc3 & Hps3 & Hh3 & _).
  rewrite Hc3.
  assert (Hps3' : _positions t3
                  = (_positions (tracker e) ++ [mark_closed 1 now yes_pos])
                    ++ no_pos :: []).
  { rewrite Hps3, <- app_assoc. reflexivity. }
  assert (Hm_no : matches_open (no_token_id market) no_pos = true).
  { apply matches_open_true. split; reflexivity. }
  destruct (close_position_at (no_token_id market) 0 (balance + total_profit)
              0%Z now t3 _ no_pos [] Hps3' Hm_no
              (fun q (H : In q []) => match H with end))
    as (rn & t4 & Hc4 & Hps4 & Hh4 & _).
  rewrite Hc4. cbn [tracker journal].
  unfold open_positions, trade_history. rewrite Hps4, Hh4, Hh3.
  split; [rewrite !filter_app; cbn; rewrite !app_nil_r; reflexivity|].
  split; [rewrite !length_app; cbn; lia|].
  rewrite length_app. cbn. lia.
Qed.

(** X21.  What a pair leaves on the ledger, by the statuses it comes
    back with (distinct YES and NO tokens).  Both legs filled: the two
    positions are opened and closed again, so the open positions are as
    before, the history has two more records and the journal one.  One
    leg filled: exactly that leg is added as an open position of the
    strategy at its fill price and size, and history, streaks, risk
    manager and journal are untouched.  No leg filled: nothing changes.
    In every case the open positions grow by at most one. *)
Theorem pair_ledger_outcome (client : order_manager.Client) (polls : nat)
    (market : MarketInfo)
    (yes_price no_price shares balance total_profit now : Q)
    (w : order_manager.World) (e : Engine) :
  yes_token_id market <> no_token_id market ->
  let res := execute_pair cfg client polls market yes_price no_price shares
               balance total_profit now w e in
  let e' := snd res in
  let leg tok sd price :=
    fst (open_position tok (condition_id market) (question market) sd price
           shares STRATEGY_NAME now (tracker e)) in
  match order_manager.statuses (fst (fst res)) with
  | (order_manager.filled, order_manager.filled) =>
      open_positions (tracker e') = open_positions (tracker e)
      /\ length (trade_history (tracker e'))
         = (length (trade_history (tracker e)) + 2)%nat
      /\ length (journal e') = S (length (journal e))
  | (order_manager.filled, _) =>
      open_positions (tracker e')
      = open_positions (tracker e)
        ++ [leg (yes_token_id market) "YES"%string yes_price]
      /\ trade_history (tracker e') = trade_history (tracker e)
      /\ risk e' = risk e /\ journal e' = journal e
  | (_, order_manager.filled) =>
      open_positions (tracker e')
      = open_positions (tracker e)
        ++ [leg (no_token_id market) "NO"%string no_price]
      /\ trade_history (tracker e') = trade_history (tracker e)
      /\ risk e' = risk e /\ journal e' = journal e
  | _ => e' = e
  end
  /\ (length (open_positions (tracker e'))
      <= S (length (open_positions (tracker e))))%nat.
Proof.
  intros Hne. cbv zeta. unfold execute_pair.
  destruct (order_manager.place_arb_pair cfg client polls
              (yes_token_id market) (no_token_id market) yes_price no_price
              shares now w) as [placed w'].
  cbn [fst snd].
  destruct (order_manager.statuses placed) as [sy sn] eqn:Hst.
  assert (Hcases :
    (sy = order_manager.filled /\ sn = order_manager.filled)
    \/ (sy = order_manager.filled /\ sn <> order_manager.filled)
    \/ (sy <> order_manager.filled /\ sn = order_manager.filled)
    \/ (sy <> order_manager.filled /\ sn <> order_manager.filled)).
  { destruct sy, sn; auto; try (right; left; split; congruence);
      try (right; right; left; split; congruence);
      right; right; right; split; congruence. }
  pose proof Hst as Hst'. unfold order_manager.statuses in Hst'.
  injection Hst' as Hy Hn.
  destruct Hcases as [[-> ->]|[[-> Hsn]|[[Hsy ->]|[Hsy Hsn]]]].
  - destruct (track_pair_both_filled market placed yes_price no_price
                shares balance total_profit now e Hst Hne)
      as (H1 & H2 & H3).
    split; [auto|]. rewrite H1. lia.
  - assert (He : track_pair cfg market placed yes_price no_price shares
                   balance total_profit now e
                 = {| tracker :=
                        snd (open_position (yes_token_id market)
                               (condition_id market) (question market) "YES"
                               yes_price shares STRATEGY_NAME now (tracker e));
                      risk := risk e; journal := journal e |}).
    { unfold track_pair. rewrite Hy, Hn.
      destruct sn; try congruence; reflexivity. }
    rewrite He. cbn [tracker risk journal].
    assert (Ho : open_positions
                   (snd (open_position (yes_token_id market)
                           (condition_id market) (question market) "YES"
                           yes_price shares STRATEGY_NAME now (tracker e)))
                 = open_positions (tracker e)
                   ++ [fst (open_position (yes_token_id market)
                              (condition_id market) (question market) "YES"
                              yes_price shares STRATEGY_NAME now
                              (tracker e))]).
    { unfold open_positions. cbn. rewrite filter_app. reflexivity. }
    split; [|rewrite Ho, length_app; cbn; lia].
    destruct sn; try congruence; auto.
  - assert (He : track_pair cfg market placed yes_price no_price shares
                   balance total_profit now e
                 = {| tracker :=
                        snd (open_position (no_token_id market)
                               (condition_id market) (question market) "NO"
                               no_price shares STRATEGY_NAME now (tracker e));
                      risk := risk e; journal := journal e |}).
    { unfold track_pair. rewrite Hy, Hn.
      destruct sy; try congruence; reflexivity. }
    rewrite He. cbn [tracker risk journal].
    assert (Ho : open_positions
                   (snd (open_position (no_token_id market)
                           (condition_id market) (question market) "NO"
                           no_price shares STRATEGY_NAME now (tracker e)))
                 = open_positions (tracker e)
                   ++ [fst (open_position (no_token_id market)
                              (condition_id market) (question market) "NO"
                              no_price shares STRATEGY_NAME now
                              (tracker e))]).
    { unfold open_positions. cbn. rewrite filter_app. reflexivity. }
    split; [|rewrite Ho, length_app; cbn; lia].
    destruct sy; try congruence; auto.
  - assert (He : track_pair cfg market placed yes_price no_price shares
                   balance total_profit now e = e).
    { unfold track_pair. rewrite Hy, Hn.
      destruct sy, sn; try congruence; destruct e; reflexivity. }
    rewrite He. split; [|lia].
    destruct sy, sn; try congruence; reflexivity.
Qed.

End WithConfig.

Lemma pair_ledger_outcome_witness :
  let res := execute_pair config.live samples.venue_sell_open 15
               samples.market (48 # 100) (1 # 2) 200 1000 2 7
               order_manager.world0 samples.engine in
  (length (open_positions (tracker (snd res)))
   <= S (length (open_positions (tracker samples.engine))))%nat.
Proof.
  apply (pair_ledger_outcome config.live samples.venue_sell_open 15
           samples.market (48 # 100) (1 # 2) 200 1000 2 7
           order_manager.world0 samples.engine).
  discriminate.
Defined.

End pair_ledger_facts.

(** ** Scheduler: phases and the strategy set *)

Module main_facts.

Import main.

Lemma is_override_iff (manual : Z) :
  is_override manual = true <-> (manual = 1 \/ manual = 2 \/ manual = 3)%Z.
Proof.
  unfold is_override. rewrite !orb_true_iff, !Z.eqb_eq. tauto.
Qed.

(** The balance-driven phase, with the test that chose it. *)
Lemma auto_phase_cases (rest : config.rest) (balance : Q) :
  is_override (config.ACTIVE_PHASE rest) = false ->
  (config.PHASE_3_BALANCE rest <= balance
   /\ determine_phase rest balance = 3%Z)
  \/ (balance < config.PHASE_3_BALANCE rest
      /\ config.PHASE_2_BALANCE rest <= balance
      /\ determine_phase rest balance = 2%Z)
  \/ (balance < config.PHASE_3_BALANCE rest
      /\ balance < config.PHASE_2_BALANCE rest
      /\ determine_phase rest balance = 1%Z).
Proof.
  intro Ho. unfold determine_phase. rewrite Ho.
  destruct (Qle_bool (config.PHASE_3_BALANCE rest) balance) eqn:H3.
  - apply Qle_bool_iff in H3. auto.
  - apply Qle_bool_false_iff in H3.
    destruct (Qle_bool (config.PHASE_2_BALANCE rest) balance) eqn:H2.
    + apply Qle_bool_iff in H2. auto.
    + apply Qle_bool_false_iff in H2. auto.
Qed.

(** X22.  [determine_phase] always answers 1, 2 or 3.  With
    [ACTIVE_PHASE] set to 1, 2 or 3 it answers that value whatever the
    balance.  Otherwise, with [PHASE_2_BALANCE <= PHASE_3_BALANCE], it
    is the step function of the balance: 3 from [PHASE_3_BALANCE] up,
    2 from [PHASE_2_BALANCE] up to there, 1 below; so it never falls
    when the balance rises. *)
Theorem determine_phase_steps (rest : config.rest) (balance : Q) :
  (determine_phase rest balance = 1 \/ determine_phase rest balance = 2
   \/ determine_phase rest balance = 3)%Z
  /\ (is_override (config.ACTIVE_PHASE rest) = true ->
      determine_phase rest balance = config.ACTIVE_PHASE rest)
  /\ (is_override (config.ACTIVE_PHASE rest) = false ->
      config.PHASE_2_BALANCE rest <= config.PHASE_3_BALANCE rest ->
      (determine_phase rest balance = 3%Z
       <-> config.PHASE_3_BALANCE rest <= balance)
      /\ (determine_phase rest balance = 2%Z
          <-> config.PHASE_2_BALANCE rest <= balance
              /\ balance < config.PHASE_3_BALANCE rest)
      /\ (determine_phase rest balance = 1%Z
          <-> balance < config.PHASE_2_BALANCE rest)
      /\ (forall richer, balance <= richer ->
            (determine_phase rest balance
             <= determine_phase rest richer)%Z)).
Proof.
  destruct (is_override (config.ACTIVE_PHASE rest)) eqn:Ho.
  - assert (Hd : determine_phase rest balance = config.ACTIVE_PHASE rest)
      by (unfold determine_phase; rewrite Ho; reflexivity).
    split; [rewrite Hd; apply is_override_iff; exact Ho|].
    split; [intros _; exact Hd|discriminate].
  - pose proof (auto_phase_cases rest balance Ho) as Hb.
    split; [intuition auto|]. split; [discriminate|].
    intros _ Hord.
    split; [|split; [|split]].
    + destruct Hb as [[H ->]|[(H3 & H2 & ->)|(H3 & H2 & ->)]];
        split; intro; try lra; try lia; reflexivity.
    + destruct Hb as [[H ->]|[(H3 & H2 & ->)|(H3 & H2 & ->)]];
        split; intro H'; try lra; try lia; try reflexivity;
        try (split; assumption).
    + destruct Hb as [[H ->]|[(H3 & H2 & ->)|(H3 & H2 & ->)]];
        split; intro; try lra; try lia; reflexivity.
    + intros richer Hr.
      pose proof (auto_phase_cases rest richer Ho) as Hrich.
      destruct Hb as [[H ->]|[(H3 & H2 & ->)|(H3 & H2 & ->)]];
        destruct Hrich as [[R ->]|[(R3 & R2 & ->)|(R3 & R2 & ->)]];
        try lia; lra.
Qed.

Lemma determine_phase_steps_witness :
  determine_phase config.rest_default 300 = 2%Z
  /\ (determine_phase config.rest_default 300
      <= determine_phase config.rest_default 700)%Z.
Proof.
  destruct (determine_phase_steps config.rest_default 300)
    as (_ & _ & Hauto).
  destruct (Hauto eq_refl ltac:(vm_compute; discriminate))
    as (_ & H2 & _ & Hmono).
  split.
  - apply H2. split; [vm_compute; discriminate|reflexivity].
  - apply Hmono. vm_compute; discriminate.
Defined.

(** X23.  The strategy list of a phase starts with the sum-to-one
    arbitrage, holds each class at most once, and stacks: resolution
    arbitrage from phase 1, the sniper from phase 2, the directional
    engine from phase 3, so the list of a phase is a prefix of the list
    of every higher phase.  From [setup] on, through any cycles, the
    loop's strategy list is the list of its phase; a cycle that reads a
    balance and may trade dispatches exactly the strategies of the
    phase of that balance, and a cycle that may not trade, or whose
    balance query raises, dispatches nothing. *)
Theorem loop_runs_the_strategies_of_the_phase (rest : config.rest) :
  (forall phase,
     exists more, build_strategies phase = SumToOneArb :: more
     /\ NoDup (build_strategies phase)
     /\ (In ResolutionArb (build_strategies phase) <-> (1 <= phase)%Z)
     /\ (In NewMarketSniper (build_strategies phase) <-> (2 <= phase)%Z)
     /\ (In DirectionalEngine (build_strategies phase) <-> (3 <= phase)%Z))
  /\ (forall low high, (low <= high)%Z ->
        exists added,
          build_strategies high = build_strategies low ++ added)
  /\ (forall start inputs,
        let l := fst (cycles rest inputs (setup rest start)) in
        strategies l = build_strategies (phase l))
  /\ (forall start inputs balance allowed,
        let l := fst (cycles rest inputs (setup rest start)) in
        snd (cycle rest (Some balance) allowed l)
        = if allowed then build_strategies (determine_phase rest balance)
          else [])
  /\ (forall l allowed, cycle rest None allowed l = (l, [])).
Proof.
  assert (Hinv : forall inputs l,
            strategies l = build_strategies (phase l) ->
            strategies (fst (cycles rest inputs l))
            = build_strategies (phase (fst (cycles rest inputs l)))).
  { induction inputs as [|[b allowed] more IH]; intros l Hl;
      cbn [cycles]; [exact Hl|].
    destruct (cycle rest b allowed l) as [l1 ran] eqn:Hc.
    assert (Hl1 : strategies l1 = build_strategies (phase l1)).
    { unfold cycle in Hc. destruct b as [balance|].
      - destruct (negb (determine_phase rest balance =? phase l)%Z);
          destruct (negb allowed); injection Hc as <- _;
          try exact Hl; reflexivity.
      - injection Hc as <- _. exact Hl. }
    specialize (IH l1 Hl1).
    destruct (cycles rest more l1) as [l2 rans]. exact IH. }
  split; [|split; [|split; [|split]]].
  - intro phase. unfold build_strategies.
    destruct (Z.leb_spec 1 phase); destruct (Z.leb_spec 2 phase);
      destruct (Z.leb_spec 3 phase); try lia;
      (eexists; split; [reflexivity|]);
      (split; [repeat (apply NoDup_cons; [cbn; intuition discriminate|]);
               apply NoDup_nil|]);
      cbn; repeat split; intro; try lia; intuition discriminate.
  - intros low high Hle. unfold build_strategies.
    destruct (Z.leb_spec 1 low); destruct (Z.leb_spec 2 low);
      destruct (Z.leb_spec 3 low); try lia;
      destruct (Z.leb_spec 1 high); destruct (Z.leb_spec 2 high);
      destruct (Z.leb_spec 3 high); try lia;
      cbn; eexists; reflexivity.
  - intros start inputs. cbv zeta. apply Hinv. reflexivity.
  - intros start inputs balance allowed. cbv zeta.
    pose proof (Hinv inputs (setup rest start) eq_refl) as Hl.
    set (l := fst (cycles rest inputs (setup rest start))) in *.
    unfold cycle.
    destruct (Z.eqb_spec (determine_phase rest balance) (phase l)) as [E|E];
      cbn [negb]; destruct allowed; cbn [negb snd strategies];
      try reflexivity.
    rewrite Hl, E. reflexivity.
  - reflexivity.
Qed.

Lemma loop_runs_the_strategies_of_the_phase_witness :
  In NewMarketSniper (build_strategies 2)
  /\ exists added, build_strategies 3 = build_strategies 1 ++ added.
Proof.
  destruct (loop_runs_the_strategies_of_the_phase config.rest_default)
    as (Hlist & Hstack & _).
  destruct (Hlist 2%Z) as (_ & _ & _ & _ & Hsniper & _).
  split; [apply Hsniper; lia|]. apply Hstack. lia.
Defined.

(** X24.  The dashboard's [_get_phase_for_balance] agrees with
    [determine_phase] for every balance when the thresholds are 250 and
    500 and no phase override is set; with an override it keeps
    following the balance while [determine_phase] follows the
    override. *)
Theorem dashboard_phase_mirrors_auto_phase (rest : config.rest)
    (balance : Q) :
  config.PHASE_2_BALANCE rest = 250 ->
  config.PHASE_3_BALANCE rest = 500 ->
  (is_override (config.ACTIVE_PHASE rest) = false ->
   app._get_phase_for_balance balance = determine_phase rest balance)
  /\ (is_override (config.ACTIVE_PHASE rest) = true ->
      determine_phase rest balance = config.ACTIVE_PHASE rest
      /\ app._get_phase_for_balance balance
         = determine_phase config.rest_default balance).
Proof.
  intros H2 H3. unfold determine_phase, app._get_phase_for_balance.
  rewrite H2, H3. split; intro Ho; rewrite Ho; auto.
Qed.

Lemma dashboard_phase_mirrors_auto_phase_witness :
  app._get_phase_for_balance 300
  = determine_phase config.rest_default 300.
Proof.
  apply (proj1 (dashboard_phase_mirrors_auto_phase config.rest_default 300
                  eq_refl eq_refl)).
  reflexivity.
Defined.

End main_facts.

(** ** MarketScanner: new-market detection *)

Module market_scanner_facts.

Import market_scanner.






Section WithClock.

Variable rest : config.rest.
Variable _iso_to_ts : string -> Q.




End WithClock.


Lemma find_outcome_Some (name : string) (ts : list Token) (id : string) :
  find_outcome name ts = Some id ->
  exists t, In t ts /\ lower (outcome t) = name /\ token_id t = id.
Proof.
  induction ts as [|t ts IH]; cbn [find_outcome]; [discriminate|].
  destruct (String.eqb_spec (lower (outcome t)) name) as [E|E].
  - intro H. injection H as <-. exists t. cbn. auto.
  - intro H. destruct (IH H) as (t' & Hin & Ho & Hid).
    exists t'. cbn. auto.
Qed.

(** X26.  A market kept by [filter_binary_tradable] comes from the
    input list, is active, not closed, has its order book enabled, at
    least the minimum volume and exactly two tokens.  When such a market
    has both a YES and a NO token id, the two ids are those of its two
    tokens, one labelled [yes] and the other [no] up to letter case; the
    first token whose label matches is the one taken. *)
Theorem tradable_markets_have_two_sides (markets : list MarketInfo)
    (min_volume : Q) (m : MarketInfo) :
  In m (filter_binary_tradable markets min_volume) ->
  In m markets
  /\ active m = true /\ closed m = false /\ enable_order_book m = true
  /\ min_volume <= volume_24h m
  /\ exists t1 t2,
       tokens m = [t1; t2]
       /\ forall yes_id no_id,
            yes_token_id m = Some yes_id -> no_token_id m = Some no_id ->
            (lower (outcome t1) = "yes"%string
             /\ lower (outcome t2) = "no"%string
             /\ yes_id = token_id t1 /\ no_id = token_id t2)
            \/ (lower (outcome t1) = "no"%string
                /\ lower (outcome t2) = "yes"%string
                /\ yes_id = token_id t2 /\ no_id = token_id t1).
Proof.
  intro H. apply filter_In in H. destruct H as [Hin Ht].
  unfold tradable in Ht. rewrite !andb_true_iff in Ht.
  destruct Ht as ((((Hb & Ha) & Hc) & Ho) & Hv).
  apply negb_true_iff in Hc. apply Qle_bool_iff in Hv.
  repeat (split; [assumption|]).
  unfold is_binary in Hb. apply Nat.eqb_eq in Hb.
  destruct (tokens m) as [|t1 [|t2 [|t3 ts]]] eqn:Etok; try discriminate.
  exists t1, t2. split; [reflexivity|].
  intros yes_id no_id Hy Hn. unfold yes_token_id, no_token_id in *.
  rewrite Etok in Hy, Hn. cbn [find_outcome] in Hy, Hn.
  destruct (String.eqb_spec (lower (outcome t1)) "yes") as [E1|E1].
  - injection Hy as <-. rewrite E1 in Hn.
    cbn [String.eqb Ascii.eqb Bool.eqb] in Hn.
    destruct (String.eqb_spec (lower (outcome t2)) "no") as [E2|E2];
      [|discriminate].
    injection Hn as <-. left. auto.
  - destruct (String.eqb_spec (lower (outcome t2)) "yes") as [E2|E2];
      [|discriminate].
    injection Hy as <-.
    destruct (String.eqb_spec (lower (outcome t1)) "no") as [E3|E3].
    + injection Hn as <-. right. auto.
    + rewrite E2 in Hn. cbn in Hn. discriminate.
Qed.

Lemma tradable_markets_have_two_sides_witness :
  let m := samples.catalog_market "c2" "YES" "NO" in
  active m = true
  /\ yes_token_id m = Some "c2-yes"%string
  /\ no_token_id m = Some "c2-no"%string.
Proof.
  cbv zeta.
  destruct (tradable_markets_have_two_sides
              [samples.catalog_market "c1" "Up" "Down";
               samples.catalog_market "c2" "YES" "NO"]
              500 (samples.catalog_market "c2" "YES" "NO"))
    as (_ & Ha & _).
  - cbn. right. left. reflexivity.
  - split; [exact Ha|]. split; reflexivity.
Defined.

End market_scanner_facts.

(** ** PnLTracker: when summaries are emitted *)

Module pnl_tracker_facts.

Import pnl_tracker.

Lemma utc_day_mono (a b : Q) : a <= b -> (utc_day a <= utc_day b)%Z.
Proof.
  intro H. unfold utc_day. apply Qfloor_resp_le.
  unfold Qdiv. apply Qmult_le_compat_r; [exact H|].
  vm_compute. discriminate.
Qed.

(** One call: silent on the day of the last daily summary, else a daily
    summary, with a weekly one when none was sent or the last is seven
    days old. *)
Lemma check_daily_summary_cases (now : Q) (p : PnLTracker) :
  let res := check_daily_summary now p in
  (same_day_as_last now p = true /\ res = (p, []))
  \/ (same_day_as_last now p = false
      /\ _last_daily (fst res) = Some now
      /\ ((weekly_due now p = true /\ snd res = [Daily now; Weekly now]
           /\ _last_weekly (fst res) = Some now)
          \/ (weekly_due now p = false /\ snd res = [Daily now]
              /\ _last_weekly (fst res) = _last_weekly p))).
Proof.
  cbv zeta. unfold check_daily_summary.
  destruct (same_day_as_last now p); [left; auto|right].
  destruct (weekly_due now p); cbn; auto 10.
Qed.

(** Daily summaries after a last one at [last]: on later days. *)
Lemma later_dailies (times : list Q) :
  forall p last,
    nondecreasing times ->
    _last_daily p = Some last ->
    Forall (fun t => last <= t) times ->
    Forall (fun d => (utc_day last < utc_day d)%Z)
      (daily_times (checks times p))
    /\ StronglySorted (fun a b => (utc_day a < utc_day b)%Z)
         (daily_times (checks times p)).
Proof.
  induction times as [|now later IH]; intros p last Hs Hl Hge;
    cbn [checks].
  - cbn. split; constructor.
  - inversion Hs as [|x xs Hs' Hall]; subst.
    inversion Hge as [|y ys Hnow Hlater]; subst.
    destruct (check_daily_summary_cases now p) as [[Hsame Hres]|Hemit];
      cbv zeta in *.
    + rewrite Hres. cbn [app]. apply (IH p last); assumption.
    + destruct Hemit as (Hsame & Hd & Hw).
      destruct (check_daily_summary now p) as [p' out]. cbn [fst snd] in *.
      assert (Hday : (utc_day last < utc_day now)%Z).
      { unfold same_day_as_last in Hsame. rewrite Hl in Hsame.
        apply Z.eqb_neq in Hsame.
        pose proof (utc_day_mono last now Hnow). lia. }
      destruct (IH p' now Hs' Hd Hall) as [Hafter Hsorted].
      assert (Hout : daily_times (out ++ checks later p')
                     = now :: daily_times (checks later p')).
      { unfold daily_times. rewrite flat_map_app.
        destruct Hw as [(_ & -> & _)|(_ & -> & _)]; reflexivity. }
      rewrite Hout. split.
      * constructor; [exact Hday|].
        eapply Forall_impl; [|exact Hafter]. intros d Hdd. cbv beta in *. lia.
      * constructor; assumption.
Qed.

(** Weekly summaries after a last one at [last]: seven days on. *)
Lemma later_weeklies (times : list Q) :
  forall p last,
    nondecreasing times ->
    _last_weekly p = Some last ->
    Forall (fun t => last <= t) times ->
    Forall (fun w => 7 * 86400 <= w - last)
      (weekly_times (checks times p))
    /\ StronglySorted (fun a b => 7 * 86400 <= b - a)
         (weekly_times (checks times p)).
Proof.
  induction times as [|now later IH]; intros p last Hs Hl Hge;
    cbn [checks].
  - cbn. split; constructor.
  - inversion Hs as [|x xs Hs' Hall]; subst.
    inversion Hge as [|y ys Hnow Hlater]; subst.
    destruct (check_daily_summary_cases now p) as [[Hsame Hres]|Hemit];
      cbv zeta in *.
    + rewrite Hres. cbn [app]. apply (IH p last); assumption.
    + destruct Hemit as (_ & _ & Hw).
      destruct (check_daily_summary now p) as [p' out]. cbn [fst snd] in *.
      destruct Hw as [(Hdue & -> & Hlw)|(Hdue & -> & Hlw)].
      * unfold weekly_due in Hdue. rewrite Hl in Hdue.
        apply Qle_bool_iff in Hdue.
        destruct (IH p' now Hs' Hlw Hall) as [Hafter Hsorted].
        change (weekly_times ([Daily now; Weekly now] ++ checks later p'))
          with (now :: weekly_times (checks later p')).
        split.
        -- constructor; [exact Hdue|].
           eapply Forall_impl; [|exact Hafter]. intros w Hww.
           cbv beta in *. lra.
        -- constructor; assumption.
      * rewrite Hl in Hlw.
        change (weekly_times ([Daily now] ++ checks later p'))
          with (weekly_times (checks later p')).
        apply (IH p' last); assumption.
Qed.

(** X27.  Called at times that never run backwards, from a fresh
    tracker: the first call emits a daily and a weekly summary; a call
    emits nothing, a daily summary, or a daily followed by a weekly one;
    the daily summaries fall on strictly increasing UTC days, so there
    is at most one per day; and any two weekly summaries are at least
    seven days apart. *)
Theorem summaries_once_a_day (times : list Q) :
  nondecreasing times ->
  (forall now later, times = now :: later ->
     exists more, checks times init = Daily now :: Weekly now :: more)
  /\ StronglySorted (fun a b => (utc_day a < utc_day b)%Z)
       (daily_times (checks times init))
  /\ StronglySorted (fun a b => 7 * 86400 <= b - a)
       (weekly_times (checks times init)).
Proof.
  intro Hs. destruct times as [|now later].
  - split; [discriminate|]. cbn. split; constructor.
  - inversion Hs as [|x xs Hs' Hall]; subst.
    cbn [checks check_daily_summary same_day_as_last weekly_due init
         _last_daily _last_weekly _starting_balance].
    set (p1 := {| _last_daily := Some now; _last_weekly := Some now;
                  _starting_balance := 0 |}).
    destruct (later_dailies later p1 now Hs' eq_refl Hall) as [Hd1 Hd2].
    destruct (later_weeklies later p1 now Hs' eq_refl Hall) as [Hw1 Hw2].
    split; [|split].
    + intros n l E. injection E as <- <-. eexists. reflexivity.
    + change (daily_times ([Daily now; Weekly now] ++ checks later p1))
        with (now :: daily_times (checks later p1)).
      constructor; assumption.
    + change (weekly_times ([Daily now; Weekly now] ++ checks later p1))
        with (now :: weekly_times (checks later p1)).
      constructor; [exact Hw2|].
      eapply Forall_impl; [|exact Hw1]. intros w Hww. exact Hww.
Qed.

Lemma summaries_once_a_day_witness :
  daily_times (checks [100; 200; 86500; 90000; 700000] init)
  = [100; 86500; 700000]
  /\ StronglySorted (fun a b => (utc_day a < utc_day b)%Z)
       (daily_times (checks [100; 200; 86500; 90000; 700000] init))
  /\ weekly_times (checks [100; 200; 86500; 90000; 700000] init)
     = [100; 700000].
Proof.
  destruct (summaries_once_a_day [100; 200; 86500; 90000; 700000])
    as (_ & Hd & _).
  - repeat constructor; vm_compute; discriminate.
  - split; [reflexivity|]. split; [exact Hd|reflexivity].
Defined.

End pnl_tracker_facts.

(** ** Resolution arb: what is sent and what is booked *)

Module resolution_trade_facts.

Import position_tracker resolution_trade.

Section WithConfig.

Variable cfg : config.t.
Variable rest : config.rest.
Variable client : order_manager.Client.

Local Abbreviation execute := (_execute cfg rest client).
Local Abbreviation fill_of := (planned_fill cfg rest).
Local Abbreviation shares_of := (planned_shares cfg rest).

(** [place_limit] hands back a submitted or a failed ticket. *)
Lemma place_limit_status tok sd p sz now w :
  let t := fst (order_manager.place_limit cfg client tok sd p sz now w) in
  order_manager.status t = order_manager.submitted
  \/ order_manager.status t = order_manager.failed.
Proof.
  cbv zeta.
  destruct (order_placement_facts.place_limit_result cfg client tok sd p sz
              now w)
    as (_ & _ & [(k & id & _ & _ & _ & Hs & _) | (_ & Hs & _)]); auto.
Qed.

(** The outcomes of [_execute], by the answer of the risk manager and
    the status of the ticket. *)
Lemma execute_cases market tok sd ask asks balance now w e w' e' :
  execute market tok sd ask asks balance now w e = Some (w', e') ->
  let fill := fill_of ask asks balance (risk e) in
  let shares := shares_of ask asks balance (risk e) in
  let req := trade_req tok fill shares in
  let ans := risk_manager.check_trade cfg (tracker e) req balance now
               (risk e) in
  let placed :=
    order_manager.place_limit cfg client tok "BUY"
      (book_analyzer.average_price fill) shares now w in
  (w' = w /\ tracker e' = tracker e /\ journal e' = journal e
   /\ (risk e' = risk e
       \/ (fst (fst ans) = false /\ risk e' = snd ans)))
  \/ (fst ans = (true, risk_manager.Approved)
      /\ config.MIN_TRADE_USD cfg
         <= resolution_trade.size_usd cfg rest balance (risk e)
      /\ ~ ask == 0
      /\ w' = snd placed
      /\ ((order_manager.status (fst placed) = order_manager.failed
           /\ tracker e' = tracker e /\ journal e' = journal e
           /\ risk e' = snd ans)
          \/ (order_manager.status (fst placed) = order_manager.submitted
              /\ config.DRY_RUN cfg = false
              /\ (exists pos,
                    _positions (tracker e')
                    = _positions (tracker e) ++ [pos]
                    /\ is_open pos = true
                    /\ token_id pos = tok /\ side pos = sd
                    /\ entry_price pos = book_analyzer.average_price fill
                    /\ size pos = shares
                    /\ strategy pos = STRATEGY_NAME)
              /\ trade_history (tracker e') = trade_history (tracker e)
              /\ journal e' = journal e
              /\ risk e' = snd ans)
          \/ (order_manager.status (fst placed) = order_manager.submitted
              /\ config.DRY_RUN cfg = true
              /\ open_positions (tracker e') = open_positions (tracker e)
              /\ (exists r,
                    trade_history (tracker e')
                    = trade_history (tracker e) ++ [r]
                    /\ journal e' = journal e ++ [r]
                    /\ tr_exit_price r = 1
                    /\ tr_entry_price r = book_analyzer.average_price fill
                    /\ tr_side r = sd
                    /\ tr_strategy r = STRATEGY_NAME
                    /\ pnl_usd r
                       == (1 - book_analyzer.average_price fill) * shares)
              /\ risk e'
                 = risk_manager.record_trade_completed cfg true now
                     (snd ans)))).
Proof.
  intros Hex fill shares req ans placed.
  unfold _execute in Hex.
  destruct (Qlt_bool (resolution_trade.size_usd cfg rest balance (risk e))
              (config.MIN_TRADE_USD cfg)) eqn:Hmin.
  { injection Hex as <- <-. left. auto. }
  destruct (Qeq_bool ask 0) eqn:Hz; [discriminate|].
  fold fill shares in Hex.
  destruct (negb (book_analyzer.fully_fillable fill)
            && Qlt_bool (shares * ask) (config.MIN_TRADE_USD cfg)).
  { injection Hex as <- <-. left. auto. }
  fold req in Hex. fold ans in Hex.
  pose proof (risk_state_facts.approval_limits cfg (tracker e) req balance
                now (risk e)) as Hlim.
  fold ans in Hlim. cbv zeta in Hlim.
  destruct ans as [[approved reason] risk1] eqn:Hans.
  cbn [fst snd] in *.
  destruct approved; cbn [negb] in Hex.
  2:{ injection Hex as <- <-. left.
      repeat split; try reflexivity. right. split; reflexivity. }
  destruct (Hlim eq_refl) as (-> & _).
  right. split; [reflexivity|].
  split. { apply Qlt_bool_false_iff. exact Hmin. }
  split. { intro H. apply Qeq_bool_iff in H. congruence. }
  fold placed in Hex.
  pose proof (place_limit_status tok "BUY"
                (book_analyzer.average_price fill) shares now w) as Hst.
  cbv zeta in Hst. fold placed in Hst.
  destruct placed as [ticket w1] eqn:Hpl. cbn [fst snd] in *.
  destruct Hst as [Hst|Hst]; rewrite Hst in Hex;
    cbn [order_manager.Status_eqb orb] in Hex.
  2:{ injection Hex as <- <-. split; [reflexivity|]. left.
      repeat split; try reflexivity. exact Hst. }
  destruct (config.DRY_RUN cfg) eqn:Hdry.
  - destruct (ledger_facts.open_close_round_trip tok
                (market_scanner.condition_id market)
                (market_scanner.question market) sd
                (book_analyzer.average_price fill) shares STRATEGY_NAME now
                1 (balance + (1 - book_analyzer.average_price fill) * shares)
                1%Z now (tracker e))
      as (r & t2 & Hc & Hen & Hexit & Hstrat & Hside & Hpnl & Hopen & _
          & Hhist).
    rewrite Hc in Hex. injection Hex as <- <-.
    split; [reflexivity|]. right. right. cbn [tracker journal risk].
    repeat split; auto.
    exists r. repeat split; auto.
  - injection Hex as <- <-. split; [reflexivity|]. right. left.
    cbn [tracker journal risk]. repeat split; auto.
    eexists. split; [reflexivity|]. repeat split.
Qed.


(** X28.  Every order [_evaluate_market] sends is an approved buy of the
    side the confirmed price points to.  If a call returns with the
    venue state changed, then the question was parsed with a non-zero
    strike, a price was confirmed at least [PRICE_BUFFER_PCT] of the
    strike away from it, the token is the market's YES token when the
    direction of the question agrees with the side of the strike the
    price is on and its NO token otherwise, the best ask of that token's
    book is at most 0.97 and leaves a discount of at least
    [MIN_RESOLUTION_EDGE], the risk manager approved the request, whose
    cost is between [MIN_TRADE_USD] and [MAX_TRADE_USD], and the change
    is that of one [place_limit] call for a BUY of that request. *)
Theorem every_order_is_an_approved_buy_of_the_winning_side market strike0
    above cg bn books balance now w e w' e' :
  _evaluate_market cfg rest client market (strike0, above) cg bn books
    balance now w e = Some (w', e') ->
  w' <> w ->
  exists strike p tok asks best,
    strike0 = Some strike /\ ~ strike == 0
    /\ resolution_arb._get_btc_price_confirmed cg bn = Some p
    /\ config.PRICE_BUFFER_PCT rest <= Qabs (p - strike) / strike
    /\ (if Bool.eqb above (Qlt_bool strike p)
        then market_scanner.yes_token_id market
        else market_scanner.no_token_id market) = Some tok
    /\ tok <> ""%string
    /\ books tok = Some asks
    /\ book_analyzer.best_ask_price asks = Some best
    /\ best <= 97 # 100
    /\ config.MIN_RESOLUTION_EDGE rest <= 1 - best
    /\ let fill := fill_of best asks balance (risk e) in
       let shares := shares_of best asks balance (risk e) in
       let req := trade_req tok fill shares in
       fst (risk_manager.check_trade cfg (tracker e) req balance now
              (risk e)) = (true, risk_manager.Approved)
       /\ config.MIN_TRADE_USD cfg <= risk_manager.cost_usd req
       /\ risk_manager.cost_usd req <= config.MAX_TRADE_USD cfg
       /\ w' = snd (order_manager.place_limit cfg client tok "BUY"
                      (book_analyzer.average_price fill) shares now w).
Proof.
  intros Hev Hw. unfold _evaluate_market in Hev.
  assert (Hskip : Some (w, e) = Some (w', e') -> False)
    by (intro H; injection H as <- <-; apply Hw; reflexivity).
  destruct strike0 as [strike|]; [|destruct (Hskip Hev)].
  destruct (resolution_arb._get_btc_price_confirmed cg bn) as [p|];
    [|destruct (Hskip Hev)].
  unfold winning_side in Hev.
  destruct (Qeq_bool strike 0) eqn:Hz; [discriminate|].
  destruct (Qlt_bool (Qabs (p - strike) / strike)
              (config.PRICE_BUFFER_PCT rest)) eqn:Hbuf;
    [destruct (Hskip Hev)|].
  set (tok0 := if Bool.eqb above (Qlt_bool strike p)
               then market_scanner.yes_token_id market
               else market_scanner.no_token_id market).
  set (sd := if Bool.eqb above (Qlt_bool strike p)
             then "YES"%string else "NO"%string).
  assert (Hev' :
    match tok0 with
    | None => Some (w, e)
    | Some token_id =>
        if String.eqb token_id "" then Some (w, e)
        else
          match books token_id with
          | None => Some (w, e)
          | Some asks =>
              match book_analyzer.best_ask_price asks with
              | None => Some (w, e)
              | Some best =>
                  if Qlt_bool (1 - best) (config.MIN_RESOLUTION_EDGE rest)
                  then Some (w, e)
                  else if Qlt_bool (97 # 100) best then Some (w, e)
                       else execute market token_id sd best asks balance
                              now w e
              end
          end
    end = Some (w', e')).
  { subst tok0 sd. destruct above, (Qlt_bool strike p); exact Hev. }
  clear Hev.
  destruct tok0 as [tok|] eqn:Htok; [|destruct (Hskip Hev')].
  destruct (String.eqb tok "") eqn:Hne; [destruct (Hskip Hev')|].
  destruct (books tok) as [asks|] eqn:Hbook; [|destruct (Hskip Hev')].
  destruct (book_analyzer.best_ask_price asks) as [best|] eqn:Hbest;
    [|destruct (Hskip Hev')].
  destruct (Qlt_bool (1 - best) (config.MIN_RESOLUTION_EDGE rest)) eqn:Hedge;
    [destruct (Hskip Hev')|].
  destruct (Qlt_bool (97 # 100) best) eqn:H97; [destruct (Hskip Hev')|].
  exists strike, p, tok, asks, best.
  split; [reflexivity|].
  split. { intro H. apply Qeq_bool_iff in H. congruence. }
  split; [reflexivity|].
  split. { apply Qlt_bool_false_iff. exact Hbuf. }
  split; [exact Htok|].
  split. { intros ->. discriminate Hne. }
  split; [exact Hbook|]. split; [exact Hbest|].
  split. { apply Qlt_bool_false_iff. exact H97. }
  split. { apply Qlt_bool_false_iff. exact Hedge. }
  cbv zeta.
  destruct (execute_cases _ _ _ _ _ _ _ _ _ _ _ Hev')
    as [(Hsame & _) | (Happ & _ & _ & Hw' & _)];
    [destruct (Hw Hsame)|].
  pose proof (risk_state_facts.approval_limits cfg (tracker e)
                (trade_req tok (fill_of best asks balance (risk e))
                   (shares_of best asks balance (risk e)))
                balance now (risk e)) as Hlim.
  cbv zeta in Hlim. rewrite Happ in Hlim.
  destruct (Hlim eq_refl) as (_ & Hlo & Hhi & _).
  auto.
Qed.

(** X29.  What [_execute] leaves behind when it returns.  Either no
    order goes out (size under the minimum, or the request rejected):
    venue, ledger and journal are as before, and the risk manager is
    untouched or as the rejecting [check_trade] left it.  Or the request was approved and the venue
    state is that of one [place_limit] call: with a failed ticket
    nothing is booked; with a submitted ticket in live mode the ledger
    gains one open position on the token at the average fill price and
    no trade record; in dry-run mode that position is closed at once at
    1.00, so the open positions are as before, and the ledger history
    and the journal both gain the same record, with PnL
    [(1 - average price) * shares], and the risk manager is told of a
    win. *)
Theorem execute_books_what_was_placed market tok sd ask asks balance now w e
    w' e' :
  execute market tok sd ask asks balance now w e = Some (w', e') ->
  let fill := fill_of ask asks balance (risk e) in
  let shares := shares_of ask asks balance (risk e) in
  let req := trade_req tok fill shares in
  let ans := risk_manager.check_trade cfg (tracker e) req balance now
               (risk e) in
  let placed :=
    order_manager.place_limit cfg client tok "BUY"
      (book_analyzer.average_price fill) shares now w in
  (w' = w /\ tracker e' = tracker e /\ journal e' = journal e
   /\ (risk e' = risk e
       \/ (fst (fst ans) = false /\ risk e' = snd ans)))
  \/ (fst ans = (true, risk_manager.Approved)
      /\ config.MIN_TRADE_USD cfg
         <= resolution_trade.size_usd cfg rest balance (risk e)
      /\ ~ ask == 0
      /\ w' = snd placed
      /\ ((order_manager.status (fst placed) = order_manager.failed
           /\ tracker e' = tracker e /\ journal e' = journal e
           /\ risk e' = snd ans)
          \/ (order_manager.status (fst placed) = order_manager.submitted
              /\ config.DRY_RUN cfg = false
              /\ (exists pos,
                    _positions (tracker e')
                    = _positions (tracker e) ++ [pos]
                    /\ is_open pos = true
                    /\ token_id pos = tok /\ side pos = sd
                    /\ entry_price pos = book_analyzer.average_price fill
                    /\ size pos = shares
                    /\ strategy pos = STRATEGY_NAME)
              /\ trade_history (tracker e') = trade_history (tracker e)
              /\ journal e' = journal e
              /\ risk e' = snd ans)
          \/ (order_manager.status (fst placed) = order_manager.submitted
              /\ config.DRY_RUN cfg = true
              /\ open_positions (tracker e') = open_positions (tracker e)
              /\ (exists r,
                    trade_history (tracker e')
                    = trade_history (tracker e) ++ [r]
                    /\ journal e' = journal e ++ [r]
                    /\ tr_exit_price r = 1
                    /\ tr_entry_price r = book_analyzer.average_price fill
                    /\ tr_side r = sd
                    /\ tr_strategy r = STRATEGY_NAME
                    /\ pnl_usd r
                       == (1 - book_analyzer.average_price fill) * shares)
              /\ risk e'
                 = risk_manager.record_trade_completed cfg true now
                     (snd ans)))).
Proof. apply execute_cases. Qed.


End WithConfig.

Lemma every_order_is_an_approved_buy_of_the_winning_side_witness :
  exists w' e' tok best,
    _evaluate_market config.live config.rest_default samples.venue_sell_fills
      samples.btc_market (Some 65000, true) (Some 70000) (Some 70010)
      samples.flat_books 100 5 order_manager.world0 samples.resolver
    = Some (w', e')
    /\ w' <> order_manager.world0
    /\ tok <> ""%string
    /\ best <= 97 # 100.
Proof.
  assert (Hout : exists w' e',
    _evaluate_market config.live config.rest_default samples.venue_sell_fills
      samples.btc_market (Some 65000, true) (Some 70000) (Some 70010)
      samples.flat_books 100 5 order_manager.world0 samples.resolver
    = Some (w', e')
    /\ w' <> order_manager.world0).
  { vm_compute. eexists _, _. split; [reflexivity|].
    intro H. discriminate H. }
  destruct Hout as (w' & e' & Hev & Hw).
  destruct (every_order_is_an_approved_buy_of_the_winning_side config.live
              config.rest_default samples.venue_sell_fills
              samples.btc_market (Some 65000) true (Some 70000)
              (Some 70010) samples.flat_books 100 5 order_manager.world0
              samples.resolver w' e' Hev Hw)
    as (strike & p & tok & asks & best & _ & _ & _ & _ & _ & Htok & _ & _
        & H97 & _).
  exists w', e', tok, best. auto.
Defined.

Lemma execute_books_what_was_placed_witness :
  exists w' e',
    _execute config.default config.rest_default samples.venue_sell_fills
      samples.btc_market "m1-yes" "YES" (90 # 100) samples.flat_asks 100 5
      order_manager.world0 samples.resolver = Some (w', e')
    /\ (w' = order_manager.world0
        \/ exists p sz,
             w' = snd (order_manager.place_limit config.default
                         samples.venue_sell_fills "m1-yes" "BUY" p sz 5
                         order_manager.world0)).
Proof.
  assert (Hout : exists w' e',
    _execute config.default config.rest_default samples.venue_sell_fills
      samples.btc_market "m1-yes" "YES" (90 # 100) samples.flat_asks 100 5
      order_manager.world0 samples.resolver = Some (w', e')).
  { vm_compute. eexists _, _. reflexivity. }
  destruct Hout as (w' & e' & Hex).
  exists w', e'. split; [exact Hex|].
  destruct (execute_books_what_was_placed config.default config.rest_default
              samples.venue_sell_fills samples.btc_market "m1-yes" "YES"
              (90 # 100) samples.flat_asks 100 5 order_manager.world0
              samples.resolver w' e' Hex)
    as [(Hsame & _) | (_ & _ & _ & Hw & _)].
  - left. exact Hsame.
  - right. eexists _, _. exact Hw.
Defined.


End resolution_trade_facts.
